(** * Finance: transaction query and aggregation

    A shallow embedding of [finance.py]: the SQL query of
    [fetch_transactions], its category filter, and the totals, category
    and per-day aggregation of [index].  Python values are modelled as the
    code has them: [str] as a sequence of Unicode code points, [float] as
    IEEE-754 binary64 (Rocq's primitive floats), exceptions as an error
    result, the request-scoped database as the list of rows of the
    [transactions] table. *)

From Stdlib Require Import ZArith List Bool Lia String Ascii.
From Stdlib Require Import Permutation Sorted.
From Stdlib Require Import PrimFloat SpecFloat FloatOps FloatAxioms.
From stdpp Require Import base list.

Local Open Scope Z_scope.

(** ** Exceptions

    A Python computation either returns or raises.  Only the exception
    classes the modelled code can raise are listed. *)

Inductive exn : Type :=
  | ValueError
  | IndexError
  | IllegalMonthError
  | OverflowError
  | TypeError.

Inductive result (A : Type) : Type :=
  | Ok (a : A)
  | Raise (e : exn).

Arguments Ok {A} a.
Arguments Raise {A} e.

#[global] Instance result_ret : MRet result := fun _ a => Ok a.

#[global] Instance result_bind : MBind result := fun _ _ k m =>
  match m with
  | Ok a => k a
  | Raise e => Raise e
  end.

(** [try: body / except Exception: handler]. *)
Definition try_except {A : Type} (body : result A) (handler : result A) : result A :=
  match body with
  | Ok a => Ok a
  | Raise _ => handler
  end.

Definition raises {A : Type} (m : result A) : Prop := exists e, m = Raise e.

(** [m] returns a value that satisfies [P]. *)
Definition returns {A : Type} (m : result A) (P : A -> Prop) : Prop :=
  match m with
  | Ok a => P a
  | Raise _ => False
  end.

(** ** Python strings *)

Module Str.

(** A [str] is a sequence of code points. *)
Definition pystr : Type := list Z.

(** String literals of this file are UTF-8 byte strings; [py] decodes
    them into code points. *)
Definition utf8_step (st : Z * nat * list Z) (b : Z) : Z * nat * list Z :=
  let '(acc, need, out) := st in
  match need with
  | O =>
      if b <? 128 then (0, O, b :: out)
      else if b <? 224 then (Z.land b 31, 1%nat, out)
      else if b <? 240 then (Z.land b 15, 2%nat, out)
      else (Z.land b 7, 3%nat, out)
  | S O => (0, O, (acc * 64 + Z.land b 63) :: out)
  | S n => (acc * 64 + Z.land b 63, n, out)
  end.

Definition py (s : string) : pystr :=
  let bytes := List.map (fun a => Z.of_N (N_of_ascii a)) (list_ascii_of_string s) in
  let '(_, _, out) := fold_left utf8_step bytes (0, O, []) in
  rev out.

Fixpoint eqb (s t : pystr) : bool :=
  match s, t with
  | [], [] => true
  | a :: s', b :: t' => (a =? b) && eqb s' t'
  | _, _ => false
  end.

(** Comparison of two TEXT values under SQLite's BINARY collation, and of
    two [str] in Python: lexicographic on code points ([memcmp] on UTF-8
    yields the same order). *)
Fixpoint leb (s t : pystr) : bool :=
  match s, t with
  | [], _ => true
  | _ :: _, [] => false
  | a :: s', b :: t' => (a <? b) || ((a =? b) && leb s' t')
  end.

(** [needle in hay]. *)
Fixpoint starts_with (p s : pystr) : bool :=
  match p, s with
  | [], _ => true
  | _ :: _, [] => false
  | a :: p', b :: s' => (a =? b) && starts_with p' s'
  end.

Fixpoint contains (needle hay : pystr) : bool :=
  starts_with needle hay ||
  match hay with
  | [] => false
  | _ :: hay' => contains needle hay'
  end.

(** [s.split(sep)] for a one-character separator. *)
Fixpoint split (sep : Z) (s : pystr) : list pystr :=
  match s with
  | [] => [[]]
  | c :: s' =>
      if c =? sep then [] :: split sep s'
      else match split sep s' with
           | p :: ps => (c :: p) :: ps
           | [] => [[c]]
           end
  end.

Fixpoint drop_while (f : Z -> bool) (s : pystr) : pystr :=
  match s with
  | [] => []
  | c :: s' => if f c then drop_while f s' else s
  end.

Definition strip_with (f : Z -> bool) (s : pystr) : pystr :=
  rev (drop_while f (rev (drop_while f s))).

End Str.

Export Str.

(** ** Unicode data

    [str.strip], [str.casefold], [int] and [float] consult the Unicode
    character database.  The tables below are those of CPython 3.11
    (Unicode 14.0.0). *)

Module Unicode.

(** Code points for which [str.isspace] holds. *)
Definition whitespace : list Z :=
  [
    9; 10; 11; 12; 13; 28; 29; 30; 31; 32; 133; 160; 5760; 8192; 8193; 8194; 8195; 8196;
    8197; 8198; 8199; 8200; 8201; 8202; 8232; 8233; 8239; 8287; 12288
  ].

(** Zero digits of the decimal-digit blocks (category Nd); each block
    holds the ten digits in order. *)
Definition decimal_zeros : list Z :=
  [
    48; 1632; 1776; 1984; 2406; 2534; 2662; 2790; 2918; 3046; 3174; 3302; 3430; 3558; 3664;
    3792; 3872; 4160; 4240; 6112; 6160; 6470; 6608; 6784; 6800; 6992; 7088; 7232; 7248;
    42528; 43216; 43264; 43472; 43504; 43600; 44016; 65296; 66720; 68912; 69734; 69872;
    69942; 70096; 70384; 70736; 70864; 71248; 71360; 71472; 71904; 72016; 72784; 73040;
    73120; 92768; 92864; 93008; 120782; 120792; 120802; 120812; 120822; 123200; 123632;
    125264; 130032
  ].

(** Simple case foldings, as arithmetic progressions
    [(first, last, step, offset)]. *)
Definition casefold_runs : list (Z * Z * Z * Z) :=
  [
    (65, 90, 1, 32); (181, 181, 1, 775); (192, 214, 1, 32); (216, 222, 1, 32);
    (256, 302, 2, 1); (306, 310, 2, 1); (313, 327, 2, 1); (330, 374, 2, 1);
    (376, 376, 1, -121); (377, 381, 2, 1); (383, 383, 1, -268); (385, 385, 1, 210);
    (386, 388, 2, 1); (390, 390, 1, 206); (391, 391, 1, 1); (393, 394, 1, 205);
    (395, 395, 1, 1); (398, 398, 1, 79); (399, 399, 1, 202); (400, 400, 1, 203);
    (401, 401, 1, 1); (403, 403, 1, 205); (404, 404, 1, 207); (406, 406, 1, 211);
    (407, 407, 1, 209); (408, 408, 1, 1); (412, 412, 1, 211); (413, 413, 1, 213);
    (415, 415, 1, 214); (416, 420, 2, 1); (422, 422, 1, 218); (423, 423, 1, 1);
    (425, 425, 1, 218); (428, 428, 1, 1); (430, 430, 1, 218); (431, 431, 1, 1);
    (433, 434, 1, 217); (435, 437, 2, 1); (439, 439, 1, 219); (440, 440, 1, 1);
    (444, 444, 1, 1); (452, 452, 1, 2); (453, 453, 1, 1); (455, 455, 1, 2);
    (456, 456, 1, 1); (458, 458, 1, 2); (459, 475, 2, 1); (478, 494, 2, 1);
    (497, 497, 1, 2); (498, 500, 2, 1); (502, 502, 1, -97); (503, 503, 1, -56);
    (504, 542, 2, 1); (544, 544, 1, -130); (546, 562, 2, 1); (570, 570, 1, 10795);
    (571, 571, 1, 1); (573, 573, 1, -163); (574, 574, 1, 10792); (577, 577, 1, 1);
    (579, 579, 1, -195); (580, 580, 1, 69); (581, 581, 1, 71); (582, 590, 2, 1);
    (837, 837, 1, 116); (880, 882, 2, 1); (886, 886, 1, 1); (895, 895, 1, 116);
    (902, 902, 1, 38); (904, 906, 1, 37); (908, 908, 1, 64); (910, 911, 1, 63);
    (913, 929, 1, 32); (931, 939, 1, 32); (962, 962, 1, 1); (975, 975, 1, 8);
    (976, 976, 1, -30); (977, 977, 1, -25); (981, 981, 1, -15); (982, 982, 1, -22);
    (984, 1006, 2, 1); (1008, 1008, 1, -54); (1009, 1009, 1, -48); (1012, 1012, 1, -60);
    (1013, 1013, 1, -64); (1015, 1015, 1, 1); (1017, 1017, 1, -7); (1018, 1018, 1, 1);
    (1021, 1023, 1, -130); (1024, 1039, 1, 80); (1040, 1071, 1, 32); (1120, 1152, 2, 1);
    (1162, 1214, 2, 1); (1216, 1216, 1, 15); (1217, 1229, 2, 1); (1232, 1326, 2, 1);
    (1329, 1366, 1, 48); (4256, 4293, 1, 7264); (4295, 4295, 1, 7264);
    (4301, 4301, 1, 7264); (5112, 5117, 1, -8); (7296, 7296, 1, -6222);
    (7297, 7297, 1, -6221); (7298, 7298, 1, -6212); (7299, 7300, 1, -6210);
    (7301, 7301, 1, -6211); (7302, 7302, 1, -6204); (7303, 7303, 1, -6180);
    (7304, 7304, 1, 35267); (7312, 7354, 1, -3008); (7357, 7359, 1, -3008);
    (7680, 7828, 2, 1); (7835, 7835, 1, -58); (7840, 7934, 2, 1); (7944, 7951, 1, -8);
    (7960, 7965, 1, -8); (7976, 7983, 1, -8); (7992, 7999, 1, -8); (8008, 8013, 1, -8);
    (8025, 8031, 2, -8); (8040, 8047, 1, -8); (8120, 8121, 1, -8); (8122, 8123, 1, -74);
    (8126, 8126, 1, -7173); (8136, 8139, 1, -86); (8152, 8153, 1, -8);
    (8154, 8155, 1, -100); (8168, 8169, 1, -8); (8170, 8171, 1, -112); (8172, 8172, 1, -7);
    (8184, 8185, 1, -128); (8186, 8187, 1, -126); (8486, 8486, 1, -7517);
    (8490, 8490, 1, -8383); (8491, 8491, 1, -8262); (8498, 8498, 1, 28);
    (8544, 8559, 1, 16); (8579, 8579, 1, 1); (9398, 9423, 1, 26); (11264, 11311, 1, 48);
    (11360, 11360, 1, 1); (11362, 11362, 1, -10743); (11363, 11363, 1, -3814);
    (11364, 11364, 1, -10727); (11367, 11371, 2, 1); (11373, 11373, 1, -10780);
    (11374, 11374, 1, -10749); (11375, 11375, 1, -10783); (11376, 11376, 1, -10782);
    (11378, 11378, 1, 1); (11381, 11381, 1, 1); (11390, 11391, 1, -10815);
    (11392, 11490, 2, 1); (11499, 11501, 2, 1); (11506, 11506, 1, 1); (42560, 42604, 2, 1);
    (42624, 42650, 2, 1); (42786, 42798, 2, 1); (42802, 42862, 2, 1); (42873, 42875, 2, 1);
    (42877, 42877, 1, -35332); (42878, 42886, 2, 1); (42891, 42891, 1, 1);
    (42893, 42893, 1, -42280); (42896, 42898, 2, 1); (42902, 42920, 2, 1);
    (42922, 42922, 1, -42308); (42923, 42923, 1, -42319); (42924, 42924, 1, -42315);
    (42925, 42925, 1, -42305); (42926, 42926, 1, -42308); (42928, 42928, 1, -42258);
    (42929, 42929, 1, -42282); (42930, 42930, 1, -42261); (42931, 42931, 1, 928);
    (42932, 42946, 2, 1); (42948, 42948, 1, -48); (42949, 42949, 1, -42307);
    (42950, 42950, 1, -35384); (42951, 42953, 2, 1); (42960, 42960, 1, 1);
    (42966, 42968, 2, 1); (42997, 42997, 1, 1); (43888, 43967, 1, -38864);
    (65313, 65338, 1, 32); (66560, 66599, 1, 40); (66736, 66771, 1, 40);
    (66928, 66938, 1, 39); (66940, 66954, 1, 39); (66956, 66962, 1, 39);
    (66964, 66965, 1, 39); (68736, 68786, 1, 64); (71840, 71871, 1, 32);
    (93760, 93791, 1, 32); (125184, 125217, 1, 34)
  ].

(** Full case foldings (one code point folds to several). *)
Definition casefold_full : list (Z * list Z) :=
  [
    (223, [115; 115]); (304, [105; 775]); (329, [700; 110]); (496, [106; 780]); (912, [953;
    776; 769]); (944, [965; 776; 769]); (1415, [1381; 1410]); (7830, [104; 817]);
    (7831, [116; 776]); (7832, [119; 778]); (7833, [121; 778]); (7834, [97; 702]);
    (7838, [115; 115]); (8016, [965; 787]); (8018, [965; 787; 768]); (8020, [965; 787;
    769]); (8022, [965; 787; 834]); (8064, [7936; 953]); (8065, [7937; 953]); (8066, [7938;
    953]); (8067, [7939; 953]); (8068, [7940; 953]); (8069, [7941; 953]); (8070, [7942;
    953]); (8071, [7943; 953]); (8072, [7936; 953]); (8073, [7937; 953]); (8074, [7938;
    953]); (8075, [7939; 953]); (8076, [7940; 953]); (8077, [7941; 953]); (8078, [7942;
    953]); (8079, [7943; 953]); (8080, [7968; 953]); (8081, [7969; 953]); (8082, [7970;
    953]); (8083, [7971; 953]); (8084, [7972; 953]); (8085, [7973; 953]); (8086, [7974;
    953]); (8087, [7975; 953]); (8088, [7968; 953]); (8089, [7969; 953]); (8090, [7970;
    953]); (8091, [7971; 953]); (8092, [7972; 953]); (8093, [7973; 953]); (8094, [7974;
    953]); (8095, [7975; 953]); (8096, [8032; 953]); (8097, [8033; 953]); (8098, [8034;
    953]); (8099, [8035; 953]); (8100, [8036; 953]); (8101, [8037; 953]); (8102, [8038;
    953]); (8103, [8039; 953]); (8104, [8032; 953]); (8105, [8033; 953]); (8106, [8034;
    953]); (8107, [8035; 953]); (8108, [8036; 953]); (8109, [8037; 953]); (8110, [8038;
    953]); (8111, [8039; 953]); (8114, [8048; 953]); (8115, [945; 953]); (8116, [940; 953]);
    (8118, [945; 834]); (8119, [945; 834; 953]); (8124, [945; 953]); (8130, [8052; 953]);
    (8131, [951; 953]); (8132, [942; 953]); (8134, [951; 834]); (8135, [951; 834; 953]);
    (8140, [951; 953]); (8146, [953; 776; 768]); (8147, [953; 776; 769]); (8150, [953;
    834]); (8151, [953; 776; 834]); (8162, [965; 776; 768]); (8163, [965; 776; 769]);
    (8164, [961; 787]); (8166, [965; 834]); (8167, [965; 776; 834]); (8178, [8060; 953]);
    (8179, [969; 953]); (8180, [974; 953]); (8182, [969; 834]); (8183, [969; 834; 953]);
    (8188, [969; 953]); (64256, [102; 102]); (64257, [102; 105]); (64258, [102; 108]);
    (64259, [102; 102; 105]); (64260, [102; 102; 108]); (64261, [115; 116]); (64262, [115;
    116]); (64275, [1396; 1398]); (64276, [1396; 1381]); (64277, [1396; 1387]);
    (64278, [1406; 1398]); (64279, [1396; 1389])
  ].

Definition is_space (c : Z) : bool := existsb (Z.eqb c) whitespace.

Definition decimal_value (c : Z) : option Z :=
  match List.find (fun z => (z <=? c) && (c <? z + 10)) decimal_zeros with
  | Some z => Some (c - z)
  | None => None
  end.

Definition in_run (c : Z) (r : Z * Z * Z * Z) : bool :=
  let '(lo, hi, step, _) := r in
  (lo <=? c) && (c <=? hi) && ((c - lo) mod step =? 0).

Definition casefold_char (c : Z) : pystr :=
  match List.find (in_run c) casefold_runs with
  | Some (_, _, _, off) => [c + off]
  | None =>
      match List.find (fun e => fst e =? c) casefold_full with
      | Some (_, f) => f
      | None => [c]
      end
  end.

End Unicode.

(** [s.strip()] and [s.casefold()]. *)
Definition strip (s : pystr) : pystr := strip_with Unicode.is_space s.

Definition casefold (s : pystr) : pystr := flat_map Unicode.casefold_char s.

(** ** Numbers: [int(str)], [float(str)] and [round(x, 2)] *)

Module Num.

(** [Py_ISSPACE] and [Py_ISDIGIT]: the ASCII classes of the C parsers. *)
Definition ascii_space (c : Z) : bool := ((9 <=? c) && (c <=? 13)) || (c =? 32).
Definition ascii_digit (c : Z) : bool := (48 <=? c) && (c <=? 57).

(** Both parsers first map non-ASCII whitespace to a space and non-ASCII
    decimal digits to ASCII digits; any other non-ASCII character becomes
    ['?'], which no number contains. *)
Definition to_ascii (c : Z) : Z :=
  if c <? 128 then c
  else if Unicode.is_space c then 32
  else match Unicode.decimal_value c with
       | Some d => 48 + d
       | None => 63
       end.

(** Underscores are allowed between two digits only, and are dropped. *)
Fixpoint drop_underscores (prev : Z) (s : pystr) : option pystr :=
  match s with
  | [] => if prev =? 95 then None else Some []
  | c :: s' =>
      if c =? 95 then
        if ascii_digit prev then drop_underscores c s' else None
      else if (prev =? 95) && negb (ascii_digit c) then None
      else option_map (cons c) (drop_underscores c s')
  end.

Definition normalize (s : pystr) : option pystr :=
  option_map (fun t => strip_with ascii_space t)
             (drop_underscores 0 (List.map to_ascii s)).

Definition sign_of (s : pystr) : bool * pystr :=
  match s with
  | 45 :: s' => (true, s')
  | 43 :: s' => (false, s')
  | _ => (false, s)
  end.

(** The longest prefix of ASCII digits, as their values, and the rest. *)
Fixpoint digits (s : pystr) : list Z * pystr :=
  match s with
  | c :: s' =>
      if ascii_digit c then let '(ds, r) := digits s' in ((c - 48) :: ds, r)
      else ([], s)
  | [] => ([], [])
  end.

Definition of_digits (ds : list Z) : Z := fold_left (fun n d => 10 * n + d) ds 0.

(** CPython refuses to convert more than 4300 digits. *)
Definition max_str_digits : nat := 4300.

(** [int(s)] for a [str]; [None] stands for [ValueError]. *)
Definition int_of_str (s : pystr) : option Z :=
  match normalize s with
  | None => None
  | Some t =>
      let '(neg, t1) := sign_of t in
      match digits t1 with
      | (d :: ds, []) =>
          if (max_str_digits <? length (d :: ds))%nat then None
          else Some (if neg then - of_digits (d :: ds) else of_digits (d :: ds))
      | _ => None
      end
  end.

(** The binary64 value nearest to [(-1)^neg * d * 10^e] (ties to even),
    for [0 <= d]: what [strtod] returns. *)
Definition of_decimal (neg : bool) (d : Z) (e : Z) : float :=
  if d <=? 0 then SF2Prim (S754_zero neg)
  else if 0 <=? e then
    SF2Prim (binary_normalize prec emax (cond_Zopp neg (d * 10 ^ e)) 0 neg)
  else
    SF2Prim (SFdiv prec emax (S754_finite neg (Z.to_pos d) 0)
                             (S754_finite false (Z.to_pos (10 ^ (- e))) 0)).

Definition lower (c : Z) : Z := if (65 <=? c) && (c <=? 90) then c + 32 else c.

(** The exponent part [e[+-]ddd]; without digits the ['e'] is not part of
    the number. *)
Definition exponent (s : pystr) : Z * pystr :=
  match s with
  | c :: s' =>
      if lower c =? 101 then
        let '(neg, s1) := match s' with
                          | 45 :: s1 => (true, s1)
                          | 43 :: s1 => (false, s1)
                          | _ => (false, s')
                          end in
        match digits s1 with
        | (d :: ds, r) => (cond_Zopp neg (of_digits (d :: ds)), r)
        | _ => (0, s)
        end
      else (0, s)
  | [] => (0, [])
  end.

(** [float(s)] for a [str]; [None] stands for [ValueError]. *)
Definition float_of_str (s : pystr) : option float :=
  match normalize s with
  | None => None
  | Some t =>
      let '(neg, t1) := sign_of t in
      let low := List.map lower t1 in
      if Str.eqb low (py "inf") || Str.eqb low (py "infinity")
      then Some (SF2Prim (S754_infinity neg))
      else if Str.eqb low (py "nan") then Some nan
      else
        let '(ip, r1) := digits t1 in
        let '(fp, r2) := match r1 with
                         | 46 :: r => digits r
                         | _ => ([], r1)
                         end in
        match ip ++ fp with
        | [] => None
        | ds =>
            match exponent r2 with
            | (e, []) => Some (of_decimal neg (of_digits ds) (e - Z.of_nat (length fp)))
            | _ => None
            end
        end
  end.

(** [round(x, 2)]: the decimal with two fractional digits nearest to the
    exact value of [x] (ties to even), converted back to binary64. *)
Definition round2 (x : float) : float :=
  match Prim2SF x with
  | S754_finite s m e =>
      if 0 <=? e then x
      else
        let num := Zpos m * 100 in
        let den := 2 ^ (- e) in
        let q := num / den in
        let n := match 2 * (num mod den) ?= den with
                 | Lt => q
                 | Gt => q + 1
                 | Eq => if Z.even q then q else q + 1
                 end in
        of_decimal s n (-2)
  | _ => x
  end.

End Num.

(** ** Calendar and dates *)

Module Calendar.

Record pydate : Type := { year : Z; month : Z; day : Z }.

Definition isleap (y : Z) : bool :=
  (y mod 4 =? 0) && (negb (y mod 100 =? 0) || (y mod 400 =? 0)).

Definition mdays (m : Z) : Z :=
  match m with
  | 1 => 31 | 2 => 28 | 3 => 31 | 4 => 30 | 5 => 31 | 6 => 30
  | 7 => 31 | 8 => 31 | 9 => 30 | 10 => 31 | 11 => 30 | 12 => 31
  | _ => 0
  end.

Definition days_in_month (y m : Z) : Z :=
  mdays m + (if (m =? 2) && isleap y then 1 else 0).

(** [calendar.monthrange(year, month)[1]]. *)
Definition monthrange (y m : Z) : result Z :=
  if (1 <=? m) && (m <=? 12) then Ok (days_in_month y m)
  else Raise IllegalMonthError.

Definition valid_date (y m d : Z) : bool :=
  (1 <=? y) && (y <=? 9999) && (1 <=? m) && (m <=? 12) &&
  (1 <=? d) && (d <=? days_in_month y m).

(** The arguments of [date] are converted to C [int]s. *)
Definition c_int (n : Z) : bool := (-2147483648 <=? n) && (n <=? 2147483647).

(** [date(year, month, day)]: [OverflowError] for an argument that does
    not fit a C [int], [ValueError] for a date that does not exist. *)
Definition mkdate (y m d : Z) : result pydate :=
  if c_int y && c_int m && c_int d then
    if valid_date y m d then Ok {| year := y; month := m; day := d |}
    else Raise ValueError
  else Raise OverflowError.

Definition fmt2 (n : Z) : pystr := [48 + n / 10; 48 + n mod 10].

Definition fmt4 (n : Z) : pystr :=
  [48 + n / 1000; 48 + n / 100 mod 10; 48 + n / 10 mod 10; 48 + n mod 10].

(** [d.isoformat()], i.e. ["%04d-%02d-%02d"]. *)
Definition isoformat (d : pydate) : pystr :=
  fmt4 (year d) ++ [45] ++ fmt2 (month d) ++ [45] ++ fmt2 (day d).

Definition num2 (a b : Z) : option Z :=
  if Num.ascii_digit a && Num.ascii_digit b then Some (10 * (a - 48) + (b - 48))
  else None.

Definition num4 (a b c d : Z) : option Z :=
  match num2 a b, num2 c d with
  | Some h, Some l => Some (100 * h + l)
  | _, _ => None
  end.

(** What [datetime.fromisoformat] leaves to the interpreter version
    (CPython 3.7 to 3.13): which time parts it accepts after the date, and
    which date formats besides [YYYY-MM-DD] (none before 3.11; basic and
    week dates since). *)
Class IsoParser : Type := {
  iso_time_ok : pystr -> bool;
  iso_other : pystr -> option pydate
}.

(** The date part [YYYY-MM-DD], one separator character of any kind, and
    a time part. *)
Definition iso_extended `{IsoParser} (s : pystr) : option pydate :=
  match s with
  | y1 :: y2 :: y3 :: y4 :: s1 :: m1 :: m2 :: s2 :: d1 :: d2 :: rest =>
      match num4 y1 y2 y3 y4, num2 m1 m2, num2 d1 d2 with
      | Some y, Some m, Some d =>
          if (s1 =? 45) && (s2 =? 45) && valid_date y m d &&
             match rest with
             | [] => true
             | _ :: time => iso_time_ok time
             end
          then Some {| year := y; month := m; day := d |}
          else None
      | _, _, _ => None
      end
  | _ => None
  end.

(** [datetime.fromisoformat(s)], reduced to the date it carries; [None]
    stands for [ValueError].  A string whose fifth character is ['-'] and
    whose sixth is not ['W'] is read in the extended format by every
    version. *)
Definition fromisoformat `{IsoParser} (s : pystr) : option pydate :=
  match s with
  | _ :: _ :: _ :: _ :: 45 :: c :: _ =>
      if c =? 87 then iso_other s else iso_extended s
  | _ => iso_other s
  end.

End Calendar.

Export Calendar.

(** ** The transactions table *)

(** A value stored in the [amount REAL NOT NULL] column (finance.py,
    lines 20-29): SQLite keeps a number as REAL and a text that is no
    number as TEXT. *)
Inductive sqlval : Type :=
  | Real (f : float)
  | Text (s : pystr).

Record row : Type := {
  tx_id : Z;
  tx_type : pystr;
  category : pystr;
  amount : sqlval;
  date : pystr;
  comment : option pystr
}.

(** [float(v)]. *)
Definition py_float (v : sqlval) : result float :=
  match v with
  | Real f => Ok f
  | Text s =>
      match Num.float_of_str s with
      | Some f => Ok f
      | None => Raise ValueError
      end
  end.

Definition date_ge (a b : row) : Prop := Str.leb (date b) (date a) = true.

(** [ORDER BY date DESC]: the engine returns the selected rows sorted by
    date, most recent first.  The query names no second key, so the order
    among rows of one date is the engine's choice. *)
Class Sqlite : Type := {
  order_by_date_desc : list row -> list row;
  order_by_perm : forall rows, Permutation (order_by_date_desc rows) rows;
  order_by_sorted : forall rows, Sorted date_ge (order_by_date_desc rows)
}.

(** ** [fetch_transactions] (finance.py, lines 49-74) *)

(** [if x:] for an optional string: [None] and [''] are false. *)
Definition truthy (x : option pystr) : bool :=
  match x with
  | Some (_ :: _) => true
  | _ => false
  end.

(** The WHERE clause built from the two period arguments. *)
Definition where_clause (period_from period_to : option pystr) (r : row) : bool :=
  (if truthy period_from then Str.leb (default [] period_from) (date r) else true) &&
  (if truthy period_to then Str.leb (date r) (default [] period_to) else true).

Definition category_matches (needle : pystr) (r : row) : bool :=
  Str.contains needle (casefold (strip (category r))).

Definition fetch_transactions `{Sqlite}
    (db : list row) (period_from period_to category_query : option pystr) : list row :=
  let rows := order_by_date_desc (List.filter (where_clause period_from period_to) db) in
  if truthy category_query then
    let needle := casefold (strip (default [] category_query)) in
    List.filter (category_matches needle) rows
  else rows.

(** ** [index] (finance.py, lines 97-174) *)

Record request : Type := {
  arg_from : option pystr;
  arg_to : option pystr;
  arg_q : option pystr;
  arg_month : option pystr
}.

Record totals_t : Type := { income : float; expense : float }.

(** The keyword arguments handed to the template (lines 161-174); the
    request and the [today], [display_month] and [default_month] labels
    are left out. *)
Record payload : Type := {
  transactions : list row;
  totals : totals_t;
  income_labels : list Z;
  income_values : list float;
  expense_values : list float;
  expense_categories : list pystr;
  expense_cat_values : list float
}.

(** [defaultdict(float)] keeps its keys in insertion order. *)
Definition dict : Type := list (pystr * float).

Fixpoint dict_get (d : dict) (k : pystr) : float :=
  match d with
  | [] => 0%float
  | (k', v) :: d' => if Str.eqb k' k then v else dict_get d' k
  end.

(** [d[k] += amt]. *)
Fixpoint dict_iadd (d : dict) (k : pystr) (amt : float) : dict :=
  match d with
  | [] => [(k, (0 + amt)%float)]
  | (k', v) :: d' =>
      if Str.eqb k' k then (k', (v + amt)%float) :: d'
      else (k', v) :: dict_iadd d' k amt
  end.

Definition INCOME : pystr := Eval vm_compute in py "income".
Definition EXPENSE : pystr := Eval vm_compute in py "expense".

Record agg : Type := {
  agg_totals : totals_t;
  expense_category_sums : dict
}.

Definition agg0 : agg :=
  {| agg_totals := {| income := 0; expense := 0 |}; expense_category_sums := [] |}.

(** One iteration of [for t in transactions] (lines 112-118). *)
Definition totals_step (st : agg) (t : row) : result agg :=
  amt ← py_float (amount t);
  if Str.eqb (tx_type t) INCOME then
    Ok {| agg_totals := {| income := (income (agg_totals st) + amt)%float;
                           expense := expense (agg_totals st) |};
          expense_category_sums := expense_category_sums st |}
  else if Str.eqb (tx_type t) EXPENSE then
    Ok {| agg_totals := {| income := income (agg_totals st);
                           expense := (expense (agg_totals st) + amt)%float |};
          expense_category_sums := dict_iadd (expense_category_sums st) (category t) amt |}
  else Ok st.

Fixpoint totals_loop (ts : list row) (st : agg) : result agg :=
  match ts with
  | [] => Ok st
  | t :: ts' => st' ← totals_step st t; totals_loop ts' st'
  end.

(** [year, mon = map(int, month.split('-'))]. *)
Definition parse_month (month : pystr) : result (Z * Z) :=
  match List.map Num.int_of_str (Str.split 45 month) with
  | [Some y; Some m] => Ok (y, m)
  | _ => Raise ValueError
  end.

(** The month of the chart (lines 124-131). *)
Definition resolve_month (today : pydate) (month : pystr) : result (Z * Z) :=
  match month with
  | [] => Ok (year today, Calendar.month today)
  | _ :: _ => try_except (parse_month month) (Ok (year today, Calendar.month today))
  end.

(** [l[i] += amt] on a Python list: a negative index counts from the
    end, an index out of range raises. *)
Definition list_iadd (l : list float) (i : Z) (amt : float) : result (list float) :=
  let n := Z.of_nat (length l) in
  let j := if i <? 0 then i + n else i in
  if (0 <=? j) && (j <? n)
  then Ok (alter (fun v => (v + amt)%float) (Z.to_nat j) l)
  else Raise IndexError.

(** One iteration of [for tx in monthly_transactions] (lines 141-150). *)
Definition monthly_step `{IsoParser}
    (st : list float * list float) (tx : row) : result (list float * list float) :=
  match fromisoformat (date tx) with
  | None => Ok st
  | Some dt =>
      let d := day dt in
      amt ← py_float (amount tx);
      if Str.eqb (tx_type tx) INCOME then
        l ← list_iadd (fst st) (d - 1) amt; Ok (l, snd st)
      else if Str.eqb (tx_type tx) EXPENSE then
        l ← list_iadd (snd st) (d - 1) amt; Ok (fst st, l)
      else Ok st
  end.

Fixpoint monthly_loop `{IsoParser}
    (txs : list row) (st : list float * list float) : result (list float * list float) :=
  match txs with
  | [] => Ok st
  | tx :: txs' => st' ← monthly_step st tx; monthly_loop txs' st'
  end.

Definition index `{Sqlite} `{IsoParser}
    (db : list row) (today : pydate) (req : request) : result payload :=
  let frm := arg_from req in
  let to := arg_to req in
  let q := strip (default [] (arg_q req)) in
  let month := default [] (arg_month req) in
  let transactions := fetch_transactions db frm to (if truthy (Some q) then Some q else None) in
  st ← totals_loop transactions agg0;
  let expense_categories := List.map fst (expense_category_sums st) in
  let expense_cat_values :=
    List.map (fun c => Num.round2 (dict_get (expense_category_sums st) c)) expense_categories in
  ym ← resolve_month today month;
  let '(year, mon) := ym in
  days_in_month ← monthrange year mon;
  let income_by_day := replicate (Z.to_nat days_in_month) 0%float in
  let expense_by_day := replicate (Z.to_nat days_in_month) 0%float in
  first ← mkdate year mon 1;
  last ← mkdate year mon days_in_month;
  let monthly_transactions :=
    fetch_transactions db (Some (isoformat first)) (Some (isoformat last)) None in
  by_day ← monthly_loop monthly_transactions (income_by_day, expense_by_day);
  Ok {| transactions := transactions;
        totals := agg_totals st;
        income_labels := seqZ 1 days_in_month;
        income_values := List.map Num.round2 (fst by_day);
        expense_values := List.map Num.round2 (snd by_day);
        expense_categories := expense_categories;
        expense_cat_values := expense_cat_values |}.

(** [render_template_string(TEMPLATE, ...)] (lines 162-174), reduced to
    whether it returns: the template formats the amount of every returned
    transaction with ['%.2f'|format(t['amount'])] (line 435), which raises
    [TypeError] for an amount that SQLite kept as text. *)
Definition formats (t : row) : bool :=
  match amount t with
  | Real _ => true
  | Text _ => false
  end.

Definition render_template_string (p : payload) : result unit :=
  if forallb formats (transactions p) then Ok tt else Raise TypeError.

(** The whole of [index]: the payload, then the template on it. *)
Definition index_page `{Sqlite} `{IsoParser}
    (db : list row) (today : pydate) (req : request) : result payload :=
  p ← index db today req;
  _ ← render_template_string p;
  Ok p.

(** ** The stored table and the write paths (finance.py, lines 18-47,
    76-94 and 176-216) *)

(** The [transactions] table: its rows in the order they were stored, and
    the largest id ever given out, which [AUTOINCREMENT] keeps in
    [sqlite_sequence]. *)
Record store : Type := { table : list row; seq : Z }.

(** The database file; [None] before the table is created. *)
Definition database : Type := option store.

(** What a write path can fail with: no such table or no id left
    ([sqlite3.OperationalError]), a violated [NOT NULL] constraint
    ([sqlite3.IntegrityError]), a form field that is missing (the
    [BadRequestKeyError] of [request.form[key]], answered with status 400),
    or one of Python's own exceptions: the [OverflowError] of an id that
    is no 64-bit integer when it is bound to a statement. *)
Inductive failure : Type :=
  | OperationalError
  | IntegrityError
  | BadRequestKeyError
  | Builtin (e : exn).

Inductive outcome (A : Type) : Type :=
  | Done (a : A)
  | Failed (e : failure).

Arguments Done {A} a.
Arguments Failed {A} e.

(** [CREATE TABLE IF NOT EXISTS]. *)
Definition init_db (d : database) : store := default {| table := []; seq := 0 |} d.

Definition max_rowid : Z := 9223372036854775807.

(** The integers that can be bound to a statement: those of 64 bits. *)
Definition sqlite_int (n : Z) : bool := (- max_rowid - 1 <=? n) && (n <=? max_rowid).

(** The number read back from a [REAL] column for the number stored: a
    whole number is kept as an integer, which loses the sign of [-0.0];
    every other number comes back as it is. *)
Definition sql_real (x : float) : float := if is_zero x then 0%float else x.

Definition largest_id (rows : list row) : Z :=
  fold_right (fun r m => Z.max (tx_id r) m) 0 rows.

Definition has_id (i : Z) (r : row) : bool := tx_id r =? i.

(** [INSERT INTO transactions (type, category, amount, date, comment)]:
    the id is one more than the largest id ever used; SQLite stores a NaN
    as NULL, which the column refuses, and [-0.0] as [0.0]. *)
Definition insert_transaction (d : database)
    (tx_type category : pystr) (amount : float) (dt_iso : pystr) (comment : option pystr)
  : outcome database :=
  match d with
  | None => Failed OperationalError
  | Some s =>
      if is_nan amount then Failed IntegrityError
      else
        let i := Z.max (seq s) (largest_id (table s)) + 1 in
        if max_rowid <? i then Failed OperationalError
        else Done (Some {| table := table s ++
                                    [ {| tx_id := i; tx_type := tx_type;
                                         category := category;
                                         amount := Real (sql_real amount);
                                         date := dt_iso; comment := comment |} ];
                           seq := i |})
  end.

(** [SELECT * FROM transactions WHERE id = ?], first row.  The statement
    is compiled, which needs the table, before the id is bound. *)
Definition get_transaction_by_id (d : database) (tx_id : Z) : outcome (option row) :=
  match d with
  | None => Failed OperationalError
  | Some s =>
      if sqlite_int tx_id then Done (List.find (has_id tx_id) (table s))
      else Failed (Builtin OverflowError)
  end.

Definition set_fields (tx_type category : pystr) (amount : float) (dt_iso : pystr)
    (comment : option pystr) (r : row) : row :=
  {| tx_id := tx_id r; tx_type := tx_type; category := category;
     amount := Real (sql_real amount); date := dt_iso; comment := comment |}.

(** [UPDATE transactions SET ... WHERE id=?]. *)
Definition update_transaction (d : database) (tx_id : Z)
    (tx_type category : pystr) (amount : float) (dt_iso : pystr) (comment : option pystr)
  : outcome database :=
  match d with
  | None => Failed OperationalError
  | Some s =>
      if negb (sqlite_int tx_id) then Failed (Builtin OverflowError)
      else if is_nan amount && existsb (has_id tx_id) (table s) then Failed IntegrityError
      else Done (Some {| table := List.map (fun r => if has_id tx_id r
                                                     then set_fields tx_type category amount
                                                                     dt_iso comment r
                                                     else r) (table s);
                         seq := seq s |})
  end.

(** [DELETE FROM transactions WHERE id = ?]. *)
Definition delete_transaction (d : database) (tx_id : Z) : outcome database :=
  match d with
  | None => Failed OperationalError
  | Some s =>
      if sqlite_int tx_id
      then Done (Some {| table := List.filter (fun r => negb (has_id tx_id r)) (table s);
                         seq := seq s |})
      else Failed (Builtin OverflowError)
  end.

(** [request.form]: a field is [None] when the request does not carry it. *)
Record form : Type := {
  form_type : option pystr;
  form_category : option pystr;
  form_amount : option pystr;
  form_date : option pystr;
  form_comment : option pystr
}.

(** What a route answers: the redirect to [index], the 404 of [edit], or
    the edit page, which shows the stored record. *)
Inductive response : Type :=
  | Redirect
  | NotFound
  | EditPage (tx : row).

(** [try: amount = float(request.form['amount']) / except Exception:
    amount = 0.0]; the missing key is caught as well. *)
Definition form_amount_value (f : form) : float :=
  match form_amount f with
  | Some s =>
      match Num.float_of_str s with
      | Some x => x
      | None => 0%float
      end
  | None => 0%float
  end.

(** The fields [add] and [edit] read from the form, in the order they
    read them. *)
Definition read_form (f : form) : outcome (pystr * pystr * float * pystr * option pystr) :=
  match form_type f with
  | None => Failed BadRequestKeyError
  | Some tx_type =>
      match form_category f with
      | None => Failed BadRequestKeyError
      | Some category =>
          let amount := form_amount_value f in
          match form_date f with
          | None => Failed BadRequestKeyError
          | Some dt_iso => Done (tx_type, category, amount, dt_iso, form_comment f)
          end
      end
  end.

(** The route [/add]: the answer and the database it leaves. *)
Definition add (d : database) (f : form) : outcome response * database :=
  let d1 := Some (init_db d) in
  match read_form f with
  | Failed e => (Failed e, d1)
  | Done (tx_type, category, amount, dt_iso, comment) =>
      if (amount <=? 0)%float then (Done Redirect, d1)
      else
        match insert_transaction d1 tx_type category amount dt_iso comment with
        | Done d2 => (Done Redirect, d2)
        | Failed e => (Failed e, d1)
        end
  end.

(** The route [/delete/<int:tx_id>]; it does not call [init_db]. *)
Definition delete (d : database) (tx_id : Z) : outcome response * database :=
  match delete_transaction d tx_id with
  | Done d1 => (Done Redirect, d1)
  | Failed e => (Failed e, d)
  end.

(** The route [/edit/<int:tx_id>], for [POST] and for the other methods. *)
Definition edit (d : database) (tx_id : Z) (post : bool) (f : form)
  : outcome response * database :=
  let d1 := Some (init_db d) in
  match get_transaction_by_id d1 tx_id with
  | Failed e => (Failed e, d1)
  | Done None => (Done NotFound, d1)
  | Done (Some tx) =>
      if post then
        match read_form f with
        | Failed e => (Failed e, d1)
        | Done (tx_type, category, amount, dt_iso, comment) =>
            if (amount <=? 0)%float then (Done Redirect, d1)
            else
              match update_transaction d1 tx_id tx_type category amount dt_iso comment with
              | Done d2 => (Done Redirect, d2)
              | Failed e => (Failed e, d1)
              end
        end
      else (Done (EditPage tx), d1)
  end.

(** The route [/]: [init_db], then [index] on the stored rows, with the
    template. *)
Definition index_route `{Sqlite} `{IsoParser}
    (d : database) (today : pydate) (req : request) : result payload * database :=
  (index_page (table (init_db d)) today req, Some (init_db d)).

(** A request to one of the four routes, and the database after it. *)
Inductive call : Type :=
  | CallIndex
  | CallAdd (f : form)
  | CallEdit (tx_id : Z) (post : bool) (f : form)
  | CallDelete (tx_id : Z).

Definition serve (d : database) (c : call) : database :=
  match c with
  | CallIndex => Some (init_db d)
  | CallAdd f => snd (add d f)
  | CallEdit i post f => snd (edit d i post f)
  | CallDelete i => snd (delete d i)
  end.

Definition serve_all (d : database) (cs : list call) : database := fold_left serve cs d.

(** ** [datetime.fromisoformat] of CPython 3.11

    The C function [datetime_fromisoformat] of [_datetimemodule.c],
    reduced to the date it returns.  It reads the UTF-8 bytes of the
    string, which a NUL byte ends; [None] stands for [ValueError]. *)

Module Isoformat.

Definition is_digit (b : Z) : bool := (48 <=? b) && (b <=? 57).

Definition is_surrogate (c : Z) : bool := (55296 <=? c) && (c <=? 57343).

(** The UTF-8 bytes of a character; a surrogate has none. *)
Definition utf8_char (c : Z) : option (list Z) :=
  if (c <? 0) || (1114111 <? c) || is_surrogate c then None
  else if c <? 128 then Some [c]
  else if c <? 2048 then Some [192 + c / 64; 128 + c mod 64]
  else if c <? 65536 then
    Some [224 + c / 4096; 128 + c / 64 mod 64; 128 + c mod 64]
  else
    Some [240 + c / 262144; 128 + c / 4096 mod 64; 128 + c / 64 mod 64; 128 + c mod 64].

Fixpoint utf8 (s : pystr) : option (list Z) :=
  match s with
  | [] => Some []
  | c :: s' =>
      match utf8_char c, utf8 s' with
      | Some b, Some bs => Some (b ++ bs)
      | _, _ => None
      end
  end.

(** The byte at [i]; at the end and after it, the terminator. *)
Definition byte (bs : list Z) (i : nat) : Z := nth i bs 0.

(** [_sanitize_isoformat_str]: the first surrogate found at one of the
    places where the separator can be is replaced by ['T']. *)
Fixpoint sanitize (places : list nat) (s : pystr) : pystr :=
  match places with
  | [] => s
  | pos :: rest =>
      if (pos <? length s)%nat then
        if is_surrogate (nth pos s 0) then <[pos := 84]> s else sanitize rest s
      else s
  end.

Fixpoint count_digits (bs : list Z) : nat :=
  match bs with
  | b :: bs' => if is_digit b then S (count_digits bs') else O
  | [] => O
  end.

(** [_find_isoformat_datetime_separator]; [None] is its [-1]. *)
Definition find_isoformat_datetime_separator (bs : list Z) : option nat :=
  let len := length bs in
  if (len =? 7)%nat then Some 7%nat
  else if byte bs 4 =? 45 then
    if byte bs 5 =? 87 then
      if (len <? 8)%nat then None
      else if (8 <? len)%nat && (byte bs 8 =? 45) then
        if (len =? 9)%nat then None
        else if (10 <? len)%nat && is_digit (byte bs 10) then Some 8%nat
        else Some 10%nat
      else Some 8%nat
    else Some 10%nat
  else if byte bs 4 =? 87 then
    let idx := (7 + count_digits (drop 7 bs))%nat in
    if (idx <? 9)%nat then Some idx
    else if Nat.even idx then Some 7%nat else Some 8%nat
  else Some 8%nat.

(** [parse_digits(p, &var, k)]: the number of [k] digits at [p]. *)
Fixpoint parse_digits (bs : list Z) (p k : nat) (acc : Z) : option Z :=
  match k with
  | O => Some acc
  | S k' =>
      let b := byte bs p in
      if is_digit b then parse_digits bs (S p) k' (10 * acc + (b - 48)) else None
  end.

(** The proleptic Gregorian ordinal, as [ymd_to_ord] and [ord_to_ymd]
    compute it. *)
Definition days_before_year (y : Z) : Z :=
  let y1 := y - 1 in y1 * 365 + y1 / 4 - y1 / 100 + y1 / 400.

Definition days_before_month (y m : Z) : Z :=
  match m with
  | 1 => 0 | 2 => 31 | 3 => 59 | 4 => 90 | 5 => 120 | 6 => 151
  | 7 => 181 | 8 => 212 | 9 => 243 | 10 => 273 | 11 => 304 | 12 => 334
  | _ => 0
  end + (if (2 <? m) && isleap y then 1 else 0).

Definition ymd_to_ord (y m d : Z) : Z := days_before_year y + days_before_month y m + d.

Definition weekday (y m d : Z) : Z := (ymd_to_ord y m d + 6) mod 7.

Definition ord_to_ymd (ordinal : Z) : Z * Z * Z :=
  let o := ordinal - 1 in
  let n400 := o / 146097 in
  let n := o mod 146097 in
  let n100 := n / 36524 in
  let n := n mod 36524 in
  let n4 := n / 1461 in
  let n := n mod 1461 in
  let n1 := n / 365 in
  let n := n mod 365 in
  let y := n400 * 400 + 1 + n100 * 100 + n4 * 4 + n1 in
  if (n1 =? 4) || (n100 =? 4) then (y - 1, 12, 31)
  else
    let leapyear := (n1 =? 3) && (negb (n4 =? 24) || (n100 =? 3)) in
    let m := (n + 50) / 32 in
    let preceding := days_before_month 1 m + (if (2 <? m) && leapyear then 1 else 0) in
    if n <? preceding
    then (y, m - 1, n - (preceding - days_in_month y (m - 1)) + 1)
    else (y, m, n - preceding + 1).

Definition iso_week1_monday (y : Z) : Z :=
  let first_day := ymd_to_ord y 1 1 in
  let first_weekday := (first_day + 6) mod 7 in
  let week1_monday := first_day - first_weekday in
  if 3 <? first_weekday then week1_monday + 7 else week1_monday.

(** [iso_to_ymd]: the date of a day of an ISO week.  No week date is
    accepted for the year 0000. *)
Definition iso_to_ymd (y w d : Z) : option (Z * Z * Z) :=
  if (y <? 1) || (9999 <? y) then None
  else if ((w <=? 0) || (53 <=? w)) &&
          negb ((w =? 53) &&
                ((weekday y 1 1 =? 3) || ((weekday y 1 1 =? 2) && isleap y)))
  then None
  else if (d <=? 0) || (8 <=? d) then None
  else Some (ord_to_ymd (iso_week1_monday y + (w - 1) * 7 + d - 1)).

(** [parse_isoformat_date(dtstr, len, ...)]: [YYYY-MM-DD], [YYYYMMDD],
    [YYYY-Www], [YYYYWww], [YYYY-Www-D] or [YYYYWwwD] in the first [len]
    bytes. *)
Definition parse_isoformat_date (bs : list Z) (len : nat) : option (Z * Z * Z) :=
  y ← parse_digits bs 0 4 0;
  let uses_separator := byte bs 4 =? 45 in
  let p := if uses_separator then 5%nat else 4%nat in
  if byte bs p =? 87 then
    w ← parse_digits bs (S p) 2 0;
    let p1 := (p + 3)%nat in
    d ← (if (p1 <? len)%nat then
           if uses_separator then
             if byte bs p1 =? 45 then parse_digits bs (S p1) 1 0 else None
           else parse_digits bs p1 1 0
         else Some 1);
    iso_to_ymd y w d
  else
    m ← parse_digits bs p 2 0;
    let p1 := (p + 2)%nat in
    d ← (if uses_separator then
           if byte bs p1 =? 45 then parse_digits bs (S p1) 2 0 else None
         else parse_digits bs p1 2 0);
    Some (y, m, d).

(** Where the loop of [parse_hh_mm_ss_ff] leaves: it has returned, with
    or without something left, or it goes on to the fraction at [p]. *)
Inductive clock : Type :=
  | Ended (left_over : bool) (vals : list Z)
  | Fraction (p : nat) (vals : list Z).

(** The loop over hour, minute and second: [k] components are still to
    read; [has_separator] is set by the character after the hour. *)
Fixpoint hh_mm_ss (bs : list Z) (p_end : nat) (k : nat) (has_separator : option bool)
    (p : nat) (vals : list Z) : option clock :=
  match k with
  | O => Some (Fraction p vals)
  | S k' =>
      v ← parse_digits bs p 2 0;
      let c := byte bs (p + 2)%nat in
      let p1 := (p + 3)%nat in
      let sep := default (c =? 58) has_separator in
      let vals' := vals ++ [v] in
      if (p_end <=? p1)%nat then Some (Ended (negb (c =? 0)) vals')
      else if sep && (c =? 58) then hh_mm_ss bs p_end k' (Some sep) p1 vals'
      else if (c =? 46) || (c =? 44) then Some (Fraction p1 vals')
      else if negb sep then hh_mm_ss bs p_end k' (Some sep) (p1 - 1)%nat vals'
      else None
  end.

(** [parse_hh_mm_ss_ff(tstr, tstr_end, ...)]: whether it returns 1, the
    components read, and the microseconds. *)
Definition parse_hh_mm_ss_ff (bs : list Z) (p p_end : nat) : option (bool * list Z * Z) :=
  r ← hh_mm_ss bs p_end 3 None p [];
  match r with
  | Ended left_over vals => Some (left_over, vals, 0)
  | Fraction p1 vals =>
      let to_parse := Nat.min 6 (p_end - p1)%nat in
      us ← parse_digits bs p1 to_parse 0;
      let p2 := (p1 + to_parse + count_digits (drop (p1 + to_parse) bs))%nat in
      Some (negb (byte bs p2 =? 0), vals, us * 10 ^ (6 - Z.of_nat to_parse))
  end.

Definition is_tz_sign (b : Z) : bool := (b =? 90) || (b =? 43) || (b =? 45).

Fixpoint before_tz (bs : list Z) : nat :=
  match bs with
  | b :: bs' => if is_tz_sign b then O else S (before_tz bs')
  | [] => O
  end.

(** [parse_isoformat_time(p, len, ...)] on the bytes from [p] to [p_end]:
    hour, minute and second, and the offset in microseconds. *)
Definition parse_isoformat_time (bs : list Z) (p p_end : nat) : option (list Z * Z) :=
  let tzinfo_pos :=
    Nat.max (p + before_tz (drop p bs))%nat (if (p <? p_end)%nat then p else S p) in
  match parse_hh_mm_ss_ff bs p tzinfo_pos with
  | None => None
  | Some (left_over, vals, _) =>
      if (tzinfo_pos =? p_end)%nat then
        if left_over then None else Some (vals, 0)
      else if byte bs tzinfo_pos =? 90 then
        if byte bs (S tzinfo_pos) =? 0 then Some (vals, 0) else None
      else
        let tzsign := if byte bs tzinfo_pos =? 45 then -1 else 1 in
        match parse_hh_mm_ss_ff bs (S tzinfo_pos) p_end with
        | None => None
        | Some (left_over2, tz, tzus) =>
            if left_over2 then None
            else Some (vals,
                       tzsign * ((nth 0 tz 0 * 3600 + nth 1 tz 0 * 60 + nth 2 tz 0) * 1000000
                                 + tzus))
        end
  end.

(** The checks of the [datetime] and [timezone] constructors on the time
    and on the offset, which lies strictly within a day. *)
Definition time_in_range (t : list Z * Z) : bool :=
  (nth 0 (fst t) 0 <=? 23) && (nth 1 (fst t) 0 <=? 59) && (nth 2 (fst t) 0 <=? 59) &&
  (- 86400000000 <? snd t) && (snd t <? 86400000000).

(** The bytes of the separator, from its first byte. *)
Definition separator_width (b : Z) : nat :=
  if b <? 128 then 1%nat
  else if b / 16 =? 14 then 3%nat
  else if b / 16 =? 15 then 4%nat
  else 2%nat.

Definition datetime_fromisoformat (s : pystr) : option pydate :=
  if (length s <? 7)%nat then None
  else
    bs ← utf8 (sanitize [7; 8; 10]%nat s);
    separator_location ← find_isoformat_datetime_separator bs;
    '(y, m, d) ← parse_isoformat_date bs separator_location;
    t ← (if (separator_location <? length bs)%nat
         then parse_isoformat_time bs
                (separator_location + separator_width (byte bs separator_location))%nat
                (length bs)
         else Some ([], 0%Z));
    if valid_date y m d && time_in_range t
    then Some {| year := y; month := m; day := d |}
    else None.

(** The time part that follows the separator of a date in the extended
    format. *)
Definition time_ok (time : pystr) : bool :=
  match utf8 time with
  | Some bs =>
      match parse_isoformat_time bs 0 (length bs) with
      | Some t => time_in_range t
      | None => false
      end
  | None => false
  end.

End Isoformat.

(** * Vocabulary of the properties *)

(** [needle] occurs in [hay]. *)
Definition substring (needle hay : pystr) : Prop :=
  exists pre post, hay = pre ++ needle ++ post.

(** Records of one date come out by ascending id. *)
Definition ties_in_id_order (l : list row) : Prop :=
  forall pre a mid b post,
    l = pre ++ a :: mid ++ b :: post -> date a = date b -> tx_id a < tx_id b.

(** The interval of a lower bound [A] lies within that of [A']: an
    argument that is [None] or empty imposes no bound. *)
Definition lower_within (A A' : option pystr) : Prop :=
  truthy A' = true ->
  truthy A = true /\ Str.leb (default [] A') (default [] A) = true.

Definition upper_within (B B' : option pystr) : Prop :=
  truthy B' = true ->
  truthy B = true /\ Str.leb (default [] B) (default [] B') = true.

(** The month argument is missing, or [int] fails on one of its parts, or
    the unpacking into two names does. *)
Definition absent_or_malformed (month : option pystr) : Prop :=
  month = None \/ exists s e, month = Some s /\ parse_month s = Raise e.

(** Left-to-right binary64 sum, as [x += amt] computes it. *)
Definition fsum (z : float) (l : list float) : float := fold_left PrimFloat.add l z.

(** The record's amount as [float] converts it. *)
Definition amount_of (t : row) : float :=
  match py_float (amount t) with
  | Ok f => f
  | Raise _ => 0%float
  end.

Definition numeric (t : row) : Prop := exists f, py_float (amount t) = Ok f.

(** The amount is stored as a number, not as a text. *)
Definition stored_as_real (t : row) : Prop := exists f, amount t = Real f.

Definition is_income (t : row) : bool := Str.eqb (tx_type t) INCOME.
Definition is_expense (t : row) : bool := Str.eqb (tx_type t) EXPENSE.
Definition has_category (c : pystr) (t : row) : bool := Str.eqb (category t) c.
Definition in_category (c : pystr) (t : row) : bool := is_expense t && has_category c t.

Definition amounts (sel : row -> bool) (ts : list row) : list float :=
  List.map amount_of (List.filter sel ts).

Section Vocabulary.

Context `{Sqlite} `{IsoParser}.

(** The filtered operations of a request, and all operations of a month. *)
Definition visible (db : list row) (req : request) : list row :=
  let q := strip (default [] (arg_q req)) in
  fetch_transactions db (arg_from req) (arg_to req) (if truthy (Some q) then Some q else None).

Definition of_month (db : list row) (y m : Z) : list row :=
  fetch_transactions db
    (Some (isoformat {| year := y; month := m; day := 1 |}))
    (Some (isoformat {| year := y; month := m; day := days_in_month y m |})) None.

(** The records of kind [sel] whose date parses to day [d]. *)
Definition on_day (sel : row -> bool) (d : Z) (t : row) : bool :=
  sel t &&
  match fromisoformat (date t) with
  | Some dt => day dt =? d
  | None => false
  end.

(** Every parse of the record's date yields a day within [1, dim]. *)
Definition day_ok (dim : Z) (tx : row) : Prop :=
  forall dt, fromisoformat (date tx) = Some dt -> 1 <= day dt <= dim.

End Vocabulary.

(** ** Vocabulary of the write paths *)

(** A stored row with the given id and fields. *)
Definition stored (i : Z) (tx_type category : pystr) (amount : float) (dt_iso : pystr)
    (comment : option pystr) : row :=
  {| tx_id := i; tx_type := tx_type; category := category; amount := Real amount;
     date := dt_iso; comment := comment |}.

(** A write returns a value that satisfies [P]. *)
Definition returns_done {A : Type} (o : outcome A) (P : A -> Prop) : Prop :=
  match o with
  | Done a => P a
  | Failed _ => False
  end.

(** The rows of a database; none before the table exists. *)
Definition rows_of (d : database) : list row := table (init_db d).

(** An amount that passes the guard [amount <= 0] of [add] and [edit] and
    the [NOT NULL] constraint. *)
Definition accepted (x : float) : Prop := (x <=? 0)%float = false /\ is_nan x = false.

(** The amount field is missing, is no number, or is a number that the
    guard [amount <= 0] stops. *)
Definition bad_amount (f : form) : Prop :=
  form_amount f = None \/
  (exists s, form_amount f = Some s /\ Num.float_of_str s = None) \/
  (exists s x, form_amount f = Some s /\ Num.float_of_str s = Some x /\
               (x <=? 0)%float = true).

(** One of the fields read with [request.form[key]] outside the [try] is
    missing. *)
Definition missing_field (f : form) : Prop :=
  form_type f = None \/ form_category f = None \/ form_date f = None.

Definition positive (x : float) : Prop := (0 <? x)%float = true.

Definition positive_amount (r : row) : Prop := exists x, amount r = Real x /\ positive x.

Definition unique_ids (d : database) : Prop := List.NoDup (List.map tx_id (rows_of d)).

(** Every id in the table has been given out. *)
Definition ids_issued (d : database) : Prop :=
  Forall (fun r => tx_id r <= seq (init_db d)) (rows_of d).

(** The values of a list in the order of their first occurrence. *)
Fixpoint first_seen (l : list pystr) : list pystr :=
  match l with
  | [] => []
  | c :: l' => c :: List.filter (fun c' => negb (Str.eqb c' c)) (first_seen l')
  end.

(** * Facts *)

(** ** Strings *)

Module StrFacts.

Lemma eqb_eq (s t : pystr) : Str.eqb s t = true <-> s = t.
Proof.
  revert t; induction s as [|a s IH]; intros [|b t]; simpl; split; try easy.
  - rewrite andb_true_iff, Z.eqb_eq, IH. now intros [-> ->].
  - intros [= -> ->]. rewrite Z.eqb_refl. now apply IH.
Qed.

Lemma eqb_refl (s : pystr) : Str.eqb s s = true.
Proof. now apply eqb_eq. Qed.

Lemma eqb_sym (s t : pystr) : Str.eqb s t = Str.eqb t s.
Proof.
  destruct (Str.eqb s t) eqn:E, (Str.eqb t s) eqn:E'; try reflexivity.
  - apply eqb_eq in E. subst. now rewrite eqb_refl in E'.
  - apply eqb_eq in E'. subst. now rewrite eqb_refl in E.
Qed.

Lemma eqb_neq (s t : pystr) : Str.eqb s t = false <-> s <> t.
Proof.
  rewrite <- eqb_eq. destruct (Str.eqb s t); split; congruence.
Qed.

Lemma leb_refl (s : pystr) : Str.leb s s = true.
Proof.
  induction s as [|a s IH]; simpl; [easy|].
  now rewrite Z.eqb_refl, IH, orb_true_r.
Qed.

Lemma leb_cons (a b : Z) (s t : pystr) :
  Str.leb (a :: s) (b :: t) = true <-> a < b \/ (a = b /\ Str.leb s t = true).
Proof.
  simpl. rewrite orb_true_iff, andb_true_iff, Z.ltb_lt, Z.eqb_eq. tauto.
Qed.

Lemma leb_trans (s t u : pystr) :
  Str.leb s t = true -> Str.leb t u = true -> Str.leb s u = true.
Proof.
  revert t u; induction s as [|a s IH]; intros [|b t] [|c u]; try easy.
  rewrite !leb_cons. intros [H1|[-> H1]] [H2|[-> H2]]; [left; lia..|].
  right; split; [easy|]. now apply IH with t.
Qed.

Lemma leb_total (s t : pystr) : Str.leb s t = true \/ Str.leb t s = true.
Proof.
  revert t; induction s as [|a s IH]; intros [|b t]; [simpl; auto..|].
  rewrite !leb_cons.
  destruct (Z.lt_trichotomy a b) as [H|[->|H]]; [auto| |auto].
  destruct (IH t); auto.
Qed.

Lemma leb_antisym (s t : pystr) :
  Str.leb s t = true -> Str.leb t s = true -> s = t.
Proof.
  revert t; induction s as [|a s IH]; intros [|b t]; try easy.
  rewrite !leb_cons. intros [H1|[E1 H1]] [H2|[E2 H2]]; try lia.
  subst b. f_equal. now apply IH.
Qed.

Lemma leb_nil_r (s : pystr) : Str.leb s [] = true -> s = [].
Proof. now destruct s. Qed.

(** A string between two strings with a common prefix has that prefix. *)
Lemma leb_between_prefix (p a b s : pystr) :
  Str.leb (p ++ a) s = true -> Str.leb s (p ++ b) = true ->
  exists t, s = p ++ t /\ Str.leb a t = true /\ Str.leb t b = true.
Proof.
  revert s; induction p as [|c p IH]; intros s; simpl app.
  - intros; now exists s.
  - destruct s as [|d s]; [easy|].
    rewrite !leb_cons. intros [H1|[-> H1]] [H2|[E H2]]; try lia.
    destruct (IH s H1 H2) as (t & -> & Ht). now exists t.
Qed.

Lemma starts_with_spec (p s : pystr) :
  Str.starts_with p s = true <-> exists r, s = p ++ r.
Proof.
  revert s; induction p as [|a p IH]; intros s; simpl.
  - split; [now exists s|easy].
  - destruct s as [|b s]; [split; [easy|now intros [r Hr]]|].
    rewrite andb_true_iff, Z.eqb_eq, IH. split.
    + intros [-> [r ->]]. now exists r.
    + intros [r [= -> ->]]. split; [easy|now exists r].
Qed.

(** [needle in hay] holds exactly when [needle] occurs in [hay]. *)
Lemma contains_spec (needle hay : pystr) :
  Str.contains needle hay = true <-> substring needle hay.
Proof.
  induction hay as [|c hay IH]; simpl; rewrite orb_true_iff, starts_with_spec.
  - split.
    + intros [[r Hr]|]; [|easy]. now exists [], r.
    + intros ([|? pre] & post & E); [left; now exists post|easy].
  - rewrite IH. split.
    + intros [[r Hr]|(pre & post & ->)]; [now exists [], r|now exists (c :: pre), post].
    + intros ([|d pre] & post & E); [left; now exists post|].
      injection E as -> ->. right. now exists pre, post.
Qed.

End StrFacts.

(** ** Engines

    Two ways SQLite may answer [ORDER BY date DESC].  With the index
    [idx_transactions_date] that [init_db] creates, the planner scans the
    index backwards: rows of one date then come out by descending rowid. *)

Module Engines.

Definition newer_first (a b : row) : bool := Str.leb (date b) (date a).

(** Order of a backward scan of an index on [(date, rowid)]. *)
Definition scan_first (a b : row) : bool :=
  if Str.leb (date a) (date b)
  then Str.leb (date b) (date a) && (tx_id b <=? tx_id a)
  else true.

Section Insertion.

Variable before : row -> row -> bool.
Hypothesis before_ge : forall a b, before a b = true -> date_ge a b.
Hypothesis after_ge : forall a b, before a b = false -> date_ge b a.

Fixpoint insert (r : row) (l : list row) : list row :=
  match l with
  | [] => [r]
  | x :: l' => if before r x then r :: l else x :: insert r l'
  end.

Definition sort (rows : list row) : list row := fold_right insert [] rows.

Lemma insert_perm (r : row) (l : list row) : Permutation (insert r l) (r :: l).
Proof.
  induction l as [|x l IH]; simpl; [reflexivity|].
  destruct (before r x); [reflexivity|].
  rewrite IH. apply perm_swap.
Qed.

Lemma sort_perm (rows : list row) : Permutation (sort rows) rows.
Proof.
  induction rows as [|r rows IH]; simpl; [reflexivity|].
  rewrite insert_perm. now constructor.
Qed.

Lemma insert_sorted (r : row) (l : list row) :
  Sorted date_ge l -> Sorted date_ge (insert r l).
Proof using before_ge after_ge.
  induction 1 as [|x l Hl IH Hx]; simpl; [repeat constructor|].
  destruct (before r x) eqn:E.
  - constructor; [now constructor|]. constructor. now apply before_ge.
  - constructor; [exact IH|].
    destruct Hx as [|y l Hy]; simpl.
    + constructor. now apply after_ge.
    + destruct (before r y); constructor; [now apply after_ge|exact Hy].
Qed.

Lemma sort_sorted (rows : list row) : Sorted date_ge (sort rows).
Proof using before_ge after_ge.
  induction rows as [|r rows IH]; simpl; [constructor|].
  now apply insert_sorted.
Qed.

End Insertion.

Lemma newer_first_ge (a b : row) : newer_first a b = true -> date_ge a b.
Proof. easy. Qed.

Lemma newer_first_after (a b : row) : newer_first a b = false -> date_ge b a.
Proof.
  unfold newer_first, date_ge. intros H.
  destruct (StrFacts.leb_total (date a) (date b)); congruence.
Qed.

Lemma scan_first_ge (a b : row) : scan_first a b = true -> date_ge a b.
Proof.
  unfold scan_first, date_ge.
  destruct (Str.leb (date a) (date b)) eqn:E.
  - now intros [H _]%andb_true_iff.
  - intros _. destruct (StrFacts.leb_total (date a) (date b)); congruence.
Qed.

Lemma scan_first_after (a b : row) : scan_first a b = false -> date_ge b a.
Proof.
  unfold scan_first, date_ge. now destruct (Str.leb (date a) (date b)).
Qed.

(** Rows of one date in the order they were stored (a stable sort). *)
Definition sorter : Sqlite := {|
  order_by_date_desc := sort newer_first;
  order_by_perm := sort_perm newer_first;
  order_by_sorted := sort_sorted newer_first newer_first_ge newer_first_after
|}.

(** Rows of one date by descending rowid (the backward index scan). *)
Definition index_scan : Sqlite := {|
  order_by_date_desc := sort scan_first;
  order_by_perm := sort_perm scan_first;
  order_by_sorted := sort_sorted scan_first scan_first_ge scan_first_after
|}.

(** [datetime.fromisoformat] of CPython 3.11: the time parts it accepts
    after a date in the extended format, and the basic and week formats
    it reads besides. *)
Definition cpython311 : IsoParser := {|
  iso_time_ok := Isoformat.time_ok;
  iso_other := Isoformat.datetime_fromisoformat
|}.

End Engines.

(** ** Facts about [fetch_transactions] *)

Section Fetch.

Context `{Sqlite}.

#[local] Instance date_ge_trans : Transitive date_ge.
Proof. intros a b c Hab Hbc. unfold date_ge in *. now apply StrFacts.leb_trans with (date b). Qed.

Lemma filter_strongly_sorted (f : row -> bool) (l : list row) :
  StronglySorted date_ge l -> StronglySorted date_ge (List.filter f l).
Proof.
  induction 1 as [|x l Hl IH Hx]; simpl; [constructor|].
  destruct (f x); [|exact IH].
  constructor; [exact IH|].
  rewrite List.Forall_forall in *. intros y [Hy _]%filter_In. now apply Hx.
Qed.

Lemma strongly_sorted_app_r (l1 l2 : list row) :
  StronglySorted date_ge (l1 ++ l2) -> StronglySorted date_ge l2.
Proof.
  induction l1 as [|x l1 IH]; simpl; [easy|].
  intros Hs. apply StronglySorted_inv in Hs. now apply IH.
Qed.

Lemma fetch_sorted (db : list row) (frm to q : option pystr) :
  StronglySorted date_ge (fetch_transactions db frm to q).
Proof.
  unfold fetch_transactions.
  assert (Hs : StronglySorted date_ge
                 (order_by_date_desc (List.filter (where_clause frm to) db)))
    by (apply Sorted_StronglySorted; [exact date_ge_trans|apply order_by_sorted]).
  destruct (truthy q); [now apply filter_strongly_sorted|exact Hs].
Qed.

Lemma fetch_In (db : list row) (frm to q : option pystr) (r : row) :
  In r (fetch_transactions db frm to q) <->
  In r db /\ where_clause frm to r = true /\
  (truthy q = true ->
   category_matches (casefold (strip (default [] q))) r = true).
Proof.
  unfold fetch_transactions.
  assert (Hp : forall x, In x (order_by_date_desc (List.filter (where_clause frm to) db)) <->
                         In x db /\ where_clause frm to x = true).
  { intros x. rewrite <- filter_In. split; apply Permutation_in;
      [apply order_by_perm|symmetry; apply order_by_perm]. }
  destruct (truthy q).
  - rewrite filter_In, Hp. tauto.
  - rewrite Hp. split; [intros []; repeat split; easy|tauto].
Qed.

End Fetch.

Lemma where_clause_mono (A B A' B' : option pystr) (r : row) :
  lower_within A A' -> upper_within B B' ->
  where_clause A B r = true -> where_clause A' B' r = true.
Proof.
  unfold lower_within, upper_within, where_clause.
  intros HA HB [H1 H2]%andb_true_iff. apply andb_true_iff; split.
  - destruct (truthy A'); [|easy]. destruct HA as [HA Hle]; [easy|].
    rewrite HA in H1. now apply StrFacts.leb_trans with (default [] A).
  - destruct (truthy B'); [|easy]. destruct HB as [HB Hle]; [easy|].
    rewrite HB in H2. now apply StrFacts.leb_trans with (default [] B).
Qed.

Lemma resolve_month_fallback (today : pydate) (month : option pystr) :
  absent_or_malformed month ->
  resolve_month today (default [] month) = Ok (year today, Calendar.month today).
Proof.
  intros [->|(s & e & -> & Hs)]; [reflexivity|].
  simpl. destruct s; [reflexivity|].
  unfold resolve_month. now rewrite Hs.
Qed.

(** ** The monthly series *)

Section Monthly.

Context `{Sqlite} `{IsoParser}.

(** [index], step by step. *)
Lemma index_inv (db : list row) (today : pydate) (req : request) (p : payload) :
  index db today req = Ok p ->
  let q := strip (default [] (arg_q req)) in
  let txs := fetch_transactions db (arg_from req) (arg_to req)
                                (if truthy (Some q) then Some q else None) in
  exists st y m dim first last by_day,
    totals_loop txs agg0 = Ok st /\
    resolve_month today (default [] (arg_month req)) = Ok (y, m) /\
    monthrange y m = Ok dim /\
    mkdate y m 1 = Ok first /\
    mkdate y m dim = Ok last /\
    monthly_loop (fetch_transactions db (Some (isoformat first)) (Some (isoformat last)) None)
                 (replicate (Z.to_nat dim) 0%float, replicate (Z.to_nat dim) 0%float)
      = Ok by_day /\
    p = {| transactions := txs;
           totals := agg_totals st;
           income_labels := seqZ 1 dim;
           income_values := List.map Num.round2 (fst by_day);
           expense_values := List.map Num.round2 (snd by_day);
           expense_categories := List.map fst (expense_category_sums st);
           expense_cat_values :=
             List.map (fun c => Num.round2 (dict_get (expense_category_sums st) c))
                      (List.map fst (expense_category_sums st)) |}.
Proof.
  intros Hp q txs. unfold index in Hp. fold q in Hp. fold txs in Hp.
  destruct (totals_loop txs agg0) as [st|] eqn:Est; [|discriminate].
  destruct (resolve_month today (default [] (arg_month req))) as [[y m]|] eqn:Eym;
    [|discriminate].
  simpl in Hp.
  destruct (monthrange y m) as [dim|] eqn:Edim; [|discriminate]. simpl in Hp.
  destruct (mkdate y m 1) as [first|] eqn:Ef; [|discriminate]. simpl in Hp.
  destruct (mkdate y m dim) as [last|] eqn:El; [|discriminate]. simpl in Hp.
  destruct (monthly_loop _ _) as [by_day|] eqn:Eloop; [|discriminate]. simpl in Hp.
  injection Hp as <-.
  now exists st, y, m, dim, first, last, by_day.
Qed.

Lemma list_iadd_length (l l' : list float) (i : Z) (amt : float) :
  list_iadd l i amt = Ok l' -> length l' = length l.
Proof.
  unfold list_iadd. destruct (_ && _); [|discriminate].
  intros [= <-]. apply length_alter.
Qed.

Lemma monthly_step_length (st st' : list float * list float) (tx : row) :
  monthly_step st tx = Ok st' ->
  length (fst st') = length (fst st) /\ length (snd st') = length (snd st).
Proof.
  unfold monthly_step.
  destruct (fromisoformat (date tx)); [|now intros [= <-]].
  destruct (py_float (amount tx)) as [amt|]; [simpl|discriminate].
  destruct (Str.eqb (tx_type tx) INCOME).
  - destruct (list_iadd (fst st) _ amt) eqn:E; [|discriminate].
    intros [= <-]. simpl. split; [now apply list_iadd_length in E|easy].
  - destruct (Str.eqb (tx_type tx) EXPENSE); [|now intros [= <-]].
    destruct (list_iadd (snd st) _ amt) eqn:E; [|discriminate].
    intros [= <-]. simpl. split; [easy|now apply list_iadd_length in E].
Qed.

Lemma monthly_loop_length (txs : list row) (st st' : list float * list float) :
  monthly_loop txs st = Ok st' ->
  length (fst st') = length (fst st) /\ length (snd st') = length (snd st).
Proof.
  revert st; induction txs as [|tx txs IH]; intros st; simpl.
  - now intros [= <-].
  - destruct (monthly_step st tx) as [st1|] eqn:E; [simpl|discriminate].
    intros Hl. apply IH in Hl. apply monthly_step_length in E.
    destruct Hl, E. split; congruence.
Qed.

End Monthly.

Module CalendarFacts.

Lemma num2_fmt2 (n : Z) :
  0 <= n <= 99 -> num2 (48 + n / 10) (48 + n mod 10) = Some n.
Proof.
  intros Hn. unfold num2, Num.ascii_digit.
  assert (Hd : 0 <= n / 10 <= 9 /\ 0 <= n mod 10 <= 9)
    by (Z.div_mod_to_equations; lia).
  replace (_ && _) with true
    by (symmetry; rewrite !andb_true_iff, !Z.leb_le; lia).
  f_equal. Z.div_mod_to_equations; lia.
Qed.

Lemma num4_fmt4 (n : Z) :
  0 <= n <= 9999 ->
  num4 (48 + n / 1000) (48 + n / 100 mod 10) (48 + n / 10 mod 10) (48 + n mod 10) = Some n.
Proof.
  intros Hn. unfold num4, num2, Num.ascii_digit.
  assert (Hd : 0 <= n / 1000 <= 9 /\ 0 <= n / 100 mod 10 <= 9 /\
               0 <= n / 10 mod 10 <= 9 /\ 0 <= n mod 10 <= 9)
    by (Z.div_mod_to_equations; lia).
  replace ((48 <=? 48 + n / 1000) && _ && _) with true
    by (symmetry; rewrite !andb_true_iff, !Z.leb_le; lia).
  replace ((48 <=? 48 + n / 10 mod 10) && _ && _) with true
    by (symmetry; rewrite !andb_true_iff, !Z.leb_le; lia).
  f_equal. Z.div_mod_to_equations; lia.
Qed.

Lemma valid_date_bounds (y m d : Z) :
  valid_date y m d = true ->
  1 <= y <= 9999 /\ 1 <= m <= 12 /\ 1 <= d <= days_in_month y m.
Proof.
  unfold valid_date. rewrite !andb_true_iff, !Z.leb_le. lia.
Qed.

Lemma mkdate_inv (y m d : Z) (dt : pydate) :
  mkdate y m d = Ok dt ->
  dt = {| year := y; month := m; day := d |} /\
  1 <= y <= 9999 /\ 1 <= m <= 12 /\ 1 <= d <= days_in_month y m.
Proof.
  unfold mkdate. destruct (c_int y && c_int m && c_int d); [|discriminate].
  destruct (valid_date y m d) eqn:E; [|discriminate].
  intros [= <-]. split; [reflexivity|now apply valid_date_bounds].
Qed.

Lemma monthrange_inv (y m dim : Z) :
  monthrange y m = Ok dim -> 1 <= m <= 12 /\ dim = days_in_month y m.
Proof.
  unfold monthrange. destruct (_ && _) eqn:E; [|discriminate].
  intros [= <-]. apply andb_true_iff in E. rewrite !Z.leb_le in E. lia.
Qed.

Lemma days_in_month_range (y m : Z) : 1 <= m <= 12 -> 28 <= days_in_month y m <= 31.
Proof.
  intros Hm. unfold days_in_month.
  assert (Hc : m = 1 \/ m = 2 \/ m = 3 \/ m = 4 \/ m = 5 \/ m = 6 \/ m = 7 \/
               m = 8 \/ m = 9 \/ m = 10 \/ m = 11 \/ m = 12) by lia.
  destruct (isleap y);
    repeat (destruct Hc as [->|Hc]; [simpl; lia|]); subst; simpl; lia.
Qed.

Lemma february (y : Z) : days_in_month y 2 = if isleap y then 29 else 28.
Proof. unfold days_in_month. simpl. now destruct (isleap y). Qed.

Lemma isoformat_split (y m d : Z) :
  isoformat {| year := y; month := m; day := d |} =
  (fmt4 y ++ 45 :: fmt2 m ++ [45]) ++ fmt2 d.
Proof. reflexivity. Qed.

Section Parse.

Context `{IsoParser}.

(** A string that starts with the year and month of a valid date in the
    extended format parses, if at all, to a day of that month. *)
Lemma fromisoformat_in_month (y m : Z) (t : pystr) (dt : pydate) :
  1 <= y <= 9999 -> 1 <= m <= 12 ->
  fromisoformat ((fmt4 y ++ 45 :: fmt2 m ++ [45]) ++ t) = Some dt ->
  year dt = y /\ month dt = m /\ 1 <= day dt <= days_in_month y m.
Proof.
  intros Hy Hm. unfold fmt4, fmt2. simpl app. unfold fromisoformat.
  assert (Hw : (48 + m / 10 =? 87) = false)
    by (apply Z.eqb_neq; Z.div_mod_to_equations; lia).
  rewrite Hw. unfold iso_extended.
  destruct t as [|d1 [|d2 rest]]; try discriminate.
  rewrite num4_fmt4, num2_fmt2 by lia.
  destruct (num2 d1 d2) as [d|]; [|discriminate].
  destruct (_ && _) eqn:E; [|discriminate].
  intros [= <-]. simpl.
  rewrite !andb_true_iff in E. destruct E as [[_ Hv] _].
  apply valid_date_bounds in Hv. lia.
Qed.

End Parse.

End CalendarFacts.

Section MonthlyBounds.

Context `{Sqlite} `{IsoParser}.

Lemma monthly_rows_day_ok (db : list row) (y m dim : Z) (first last : pydate) (tx : row) :
  monthrange y m = Ok dim -> mkdate y m 1 = Ok first -> mkdate y m dim = Ok last ->
  In tx (fetch_transactions db (Some (isoformat first)) (Some (isoformat last)) None) ->
  day_ok dim tx.
Proof.
  intros [Hm ->]%CalendarFacts.monthrange_inv
         (-> & Hy & _)%CalendarFacts.mkdate_inv (-> & _)%CalendarFacts.mkdate_inv.
  rewrite fetch_In. intros (_ & Hw & _) dt Hdt.
  apply andb_true_iff in Hw. destruct Hw as [Hlo Hhi].
  change (Str.leb ((fmt4 y ++ 45 :: fmt2 m ++ [45]) ++ fmt2 1) (date tx) = true) in Hlo.
  change (Str.leb (date tx) ((fmt4 y ++ 45 :: fmt2 m ++ [45]) ++ fmt2 (days_in_month y m))
          = true) in Hhi.
  destruct (StrFacts.leb_between_prefix _ _ _ _ Hlo Hhi) as (t & Et & _).
  rewrite Et in Hdt.
  now apply CalendarFacts.fromisoformat_in_month in Hdt.
Qed.

Lemma list_iadd_in_range (l : list float) (d : Z) (amt : float) :
  1 <= d <= Z.of_nat (length l) -> exists l', list_iadd l (d - 1) amt = Ok l'.
Proof.
  intros Hd. unfold list_iadd.
  replace (d - 1 <? 0) with false by (symmetry; apply Z.ltb_ge; lia).
  replace (_ && _) with true
    by (symmetry; rewrite andb_true_iff, Z.leb_le, Z.ltb_lt; lia).
  eauto.
Qed.

(** A step on a record with a day in range returns, or raises the
    [ValueError] of [float]. *)
Lemma monthly_step_in_range (dim : Z) (st : list float * list float) (tx : row) :
  day_ok dim tx ->
  Z.of_nat (length (fst st)) = dim -> Z.of_nat (length (snd st)) = dim ->
  (exists st', monthly_step st tx = Ok st') \/
  (monthly_step st tx = Raise ValueError /\ py_float (amount tx) = Raise ValueError /\
   exists dt, fromisoformat (date tx) = Some dt).
Proof.
  intros Hok Hi He. unfold monthly_step.
  destruct (fromisoformat (date tx)) as [dt|] eqn:Edt; [|left; eauto].
  specialize (Hok dt Edt).
  destruct (amount tx) as [f|s]; simpl.
  2: destruct (Num.float_of_str s); simpl.
  3: right; eauto.
  all: destruct (Str.eqb (tx_type tx) INCOME);
    [destruct (list_iadd_in_range (fst st) (day dt) ltac:(assumption) ltac:(lia)) as [l ->];
     left; simpl; eauto|].
  all: destruct (Str.eqb (tx_type tx) EXPENSE);
    [destruct (list_iadd_in_range (snd st) (day dt) ltac:(assumption) ltac:(lia)) as [l ->];
     left; simpl; eauto|left; eauto].
Qed.

Lemma monthly_loop_in_range (dim : Z) (txs : list row) (st : list float * list float) :
  Forall (day_ok dim) txs ->
  Z.of_nat (length (fst st)) = dim -> Z.of_nat (length (snd st)) = dim ->
  (exists st', monthly_loop txs st = Ok st') \/
  (monthly_loop txs st = Raise ValueError /\
   exists tx dt, In tx txs /\ fromisoformat (date tx) = Some dt /\
                 py_float (amount tx) = Raise ValueError).
Proof.
  intros Hall. revert st. induction Hall as [|tx txs Htx Hall IH]; intros st Hi He; simpl.
  - left; eauto.
  - destruct (monthly_step_in_range dim st tx Htx Hi He) as [[st1 E]|(E & Ha & dt & Hdt)].
    + rewrite E. simpl. destruct (monthly_step_length _ _ _ E) as [L1 L2].
      destruct (IH st1) as [?|(E' & tx' & dt & Hin & ?)]; [congruence..|now left|].
      right. split; [exact E'|]. exists tx', dt. simpl; tauto.
    + right. rewrite E. split; [reflexivity|]. exists tx, dt. simpl; tauto.
Qed.

End MonthlyBounds.

(** ** The totals aggregator *)

Module DictFacts.

Definition keys (d : dict) : list pystr := List.map fst d.

Definition accumulate (d : dict) (l : list row) : dict :=
  fold_left (fun d t => dict_iadd d (category t) (amount_of t)) l d.

Lemma get_iadd (d : dict) (k c : pystr) (a : float) :
  dict_get (dict_iadd d k a) c =
  if Str.eqb k c then (dict_get d c + a)%float else dict_get d c.
Proof.
  induction d as [|[k' v] d IH]; simpl.
  - now destruct (Str.eqb k c).
  - destruct (Str.eqb k' k) eqn:Ek; simpl.
    + apply StrFacts.eqb_eq in Ek. subst k'. now destruct (Str.eqb k c).
    + rewrite IH. destruct (Str.eqb k' c) eqn:Ec; [|reflexivity].
      apply StrFacts.eqb_eq in Ec. subst k'. now rewrite StrFacts.eqb_sym, Ek.
Qed.

Lemma keys_iadd (d : dict) (k : pystr) (a : float) (c : pystr) :
  In c (keys (dict_iadd d k a)) <-> c = k \/ In c (keys d).
Proof.
  induction d as [|[k' v] d IH]; simpl.
  - intuition congruence.
  - destruct (Str.eqb k' k) eqn:Ek; simpl.
    + apply StrFacts.eqb_eq in Ek. subst k'. intuition congruence.
    + rewrite IH. tauto.
Qed.

Lemma nodup_iadd (d : dict) (k : pystr) (a : float) :
  List.NoDup (keys d) -> List.NoDup (keys (dict_iadd d k a)).
Proof.
  induction d as [|[k' v] d IH]; simpl.
  - intros _. repeat constructor. easy.
  - intros [Hk Hd]%List.NoDup_cons_iff. destruct (Str.eqb k' k) eqn:Ek; simpl.
    + now constructor.
    + constructor; [|now apply IH].
      rewrite keys_iadd. intros [->|Hin]; [|easy].
      now rewrite StrFacts.eqb_refl in Ek.
Qed.

Lemma get_accumulate (l : list row) (d : dict) (c : pystr) :
  dict_get (accumulate d l) c =
  fsum (dict_get d c) (List.map amount_of (List.filter (has_category c) l)).
Proof.
  revert d; induction l as [|t l IH]; intros d; simpl; [reflexivity|].
  unfold accumulate in *. simpl. rewrite IH, get_iadd.
  unfold has_category at 2. now destruct (Str.eqb (category t) c).
Qed.

Lemma keys_accumulate (l : list row) (d : dict) (c : pystr) :
  In c (keys (accumulate d l)) <-> In c (keys d) \/ exists t, In t l /\ category t = c.
Proof.
  revert d; induction l as [|t l IH]; intros d; simpl.
  - split; [now left|]. now intros [?|(t & [] & _)].
  - unfold accumulate in *. simpl. rewrite IH, keys_iadd. split.
    + intros [[->|Hin]|(t' & Ht' & E)]; eauto.
    + intros [Hin|(t' & [->|Ht'] & E)]; eauto.
Qed.

Lemma nodup_accumulate (l : list row) (d : dict) :
  List.NoDup (keys d) -> List.NoDup (keys (accumulate d l)).
Proof.
  revert d; induction l as [|t l IH]; intros d Hd; simpl; [exact Hd|].
  apply IH. now apply nodup_iadd.
Qed.

End DictFacts.

Lemma filter_split_perm {A : Type} (f : A -> bool) (l : list A) :
  Permutation (List.filter f l ++ List.filter (fun x => negb (f x)) l) l.
Proof.
  induction l as [|x l IH]; simpl; [reflexivity|].
  destruct (f x); simpl.
  - now constructor.
  - rewrite <- Permutation_middle. now constructor.
Qed.

(** Grouping by a duplicate-free list of keys that covers every record
    splits the records without loss or repetition. *)
Lemma group_by_category_perm (ks : list pystr) (l : list row) :
  List.NoDup ks -> (forall t, In t l -> In (category t) ks) ->
  Permutation (concat (List.map (fun c => List.filter (has_category c) l) ks)) l.
Proof.
  revert l; induction ks as [|k ks IH]; intros l Hnd Hcov; simpl.
  - destruct l as [|t l]; [reflexivity|]. destruct (Hcov t (or_introl eq_refl)).
  - apply List.NoDup_cons_iff in Hnd. destruct Hnd as [Hk Hnd].
    set (rest := List.filter (fun t => negb (has_category k t)) l).
    assert (Hmap : List.map (fun c => List.filter (has_category c) l) ks =
                   List.map (fun c => List.filter (has_category c) rest) ks).
    { apply map_ext_in. intros c Hc. unfold rest.
      induction l as [|t l IHl]; simpl; [reflexivity|].
      rewrite IHl by (intros; apply Hcov; now right).
      destruct (has_category c t) eqn:Ec; destruct (has_category k t) eqn:Ek;
        simpl; rewrite ?Ec; try reflexivity.
      apply StrFacts.eqb_eq in Ec, Ek. congruence. }
    rewrite Hmap, IH; [apply filter_split_perm|exact Hnd|].
    intros t [Ht Hne]%filter_In.
    destruct (Hcov t Ht) as [E|Hin]; [|exact Hin].
    apply negb_true_iff, StrFacts.eqb_neq in Hne. congruence.
Qed.

Lemma filter_in_category (c : pystr) (ts : list row) :
  List.filter (has_category c) (List.filter is_expense ts) = List.filter (in_category c) ts.
Proof.
  induction ts as [|t ts IH]; simpl; [reflexivity|].
  unfold in_category at 1. destruct (is_expense t); simpl; [|exact IH].
  now rewrite IH.
Qed.

Lemma py_float_raise (v : sqlval) (e : exn) : py_float v = Raise e -> e = ValueError.
Proof.
  destruct v as [f|s]; simpl; [discriminate|].
  destruct (Num.float_of_str s); [discriminate|now intros [= <-]].
Qed.

Lemma income_is_no_expense (t : row) : is_income t = true -> is_expense t = false.
Proof.
  unfold is_income, is_expense. intros ->%StrFacts.eqb_eq. reflexivity.
Qed.

Lemma amounts_cons (sel : row -> bool) (t : row) (ts : list row) :
  amounts sel (t :: ts) = if sel t then amount_of t :: amounts sel ts else amounts sel ts.
Proof. unfold amounts. simpl. now destruct (sel t). Qed.

Lemma totals_loop_spec (ts : list row) (st st' : agg) :
  totals_loop ts st = Ok st' ->
  Forall numeric ts /\
  income (agg_totals st') = fsum (income (agg_totals st)) (amounts is_income ts) /\
  expense (agg_totals st') = fsum (expense (agg_totals st)) (amounts is_expense ts) /\
  expense_category_sums st' =
    DictFacts.accumulate (expense_category_sums st) (List.filter is_expense ts).
Proof.
  revert st; induction ts as [|t ts IH]; intros st; simpl.
  - intros [= <-]. repeat split. constructor.
  - unfold totals_step. rewrite !amounts_cons.
    assert (Ha := eq_refl (amount_of t)). unfold amount_of at 2 in Ha.
    destruct (py_float (amount t)) as [amt|] eqn:Eamt; [simpl|discriminate].
    assert (Hn : numeric t) by now exists amt.
    fold (is_income t) (is_expense t). subst amt.
    destruct (is_income t) eqn:Ei.
    + rewrite (income_is_no_expense t Ei). intros Hl. apply IH in Hl.
      destruct Hl as (Hall & Hi & He & Hd).
      split; [now constructor|]. now rewrite Hi, He, Hd.
    + destruct (is_expense t) eqn:Ee; intros Hl; apply IH in Hl;
        destruct Hl as (Hall & Hi & He & Hd);
        (split; [now constructor|]); now rewrite Hi, He, Hd.
Qed.

Lemma totals_loop_numeric (ts : list row) (st : agg) :
  Forall numeric ts -> exists st', totals_loop ts st = Ok st'.
Proof.
  intros Hall; revert st; induction Hall as [|t ts [amt Ht] Hall IH]; intros st; simpl.
  - eauto.
  - unfold totals_step. rewrite Ht. simpl.
    destruct (Str.eqb (tx_type t) INCOME); [apply IH|].
    destruct (Str.eqb (tx_type t) EXPENSE); apply IH.
Qed.

Lemma totals_loop_raises (ts : list row) (st : agg) (t : row) :
  In t ts -> py_float (amount t) = Raise ValueError ->
  totals_loop ts st = Raise ValueError.
Proof.
  revert st; induction ts as [|t0 ts IH]; intros st; simpl; [easy|].
  intros Hin Ht. unfold totals_step.
  destruct (py_float (amount t0)) as [amt|e] eqn:E0; simpl.
  - destruct Hin as [->|Hin]; [congruence|].
    destruct (Str.eqb (tx_type t0) INCOME); [now apply IH|].
    destruct (Str.eqb (tx_type t0) EXPENSE); now apply IH.
  - now rewrite (py_float_raise _ _ E0).
Qed.

(** ** What [index] computes *)

Section Index.

Context `{Sqlite} `{IsoParser}.

Lemma fetch_numeric (db : list row) (frm to q : option pystr) :
  Forall numeric db -> Forall numeric (fetch_transactions db frm to q).
Proof.
  rewrite !List.Forall_forall. intros Hdb t Ht. apply Hdb. now apply fetch_In in Ht.
Qed.

Lemma list_iadd_lookup (l l' : list float) (d : Z) (amt : float) (i : nat) :
  1 <= d -> list_iadd l (d - 1) amt = Ok l' ->
  l' !! i = if d =? Z.of_nat i + 1
            then (fun v => (v + amt)%float) <$> l !! i
            else l !! i.
Proof.
  intros Hd. unfold list_iadd.
  replace (d - 1 <? 0) with false by (symmetry; apply Z.ltb_ge; lia).
  destruct (_ && _); [|discriminate]. intros [= <-].
  rewrite list_lookup_alter.
  destruct (Z.eqb_spec d (Z.of_nat i + 1)) as [->|Hne].
  - replace (Z.to_nat (Z.of_nat i + 1 - 1)) with i by lia.
    now rewrite decide_True.
  - rewrite decide_False; [reflexivity|lia].
Qed.

Lemma on_day_unparsed (sel : row -> bool) (d : Z) (t : row) :
  fromisoformat (date t) = None -> on_day sel d t = false.
Proof. unfold on_day. intros ->. apply andb_false_r. Qed.

Lemma on_day_parsed (sel : row -> bool) (d : Z) (t : row) (dt : pydate) :
  fromisoformat (date t) = Some dt -> on_day sel d t = sel t && (day dt =? d).
Proof. unfold on_day. now intros ->. Qed.

(** Each slot of the two arrays receives, in order, the amounts of the
    records of its day. *)
Lemma monthly_loop_spec (dim : Z) (txs : list row) (st st' : list float * list float) :
  Forall (day_ok dim) txs ->
  monthly_loop txs st = Ok st' ->
  forall i : nat,
    fst st' !! i =
      (fun v => fsum v (amounts (on_day is_income (Z.of_nat i + 1)) txs)) <$> fst st !! i /\
    snd st' !! i =
      (fun v => fsum v (amounts (on_day is_expense (Z.of_nat i + 1)) txs)) <$> snd st !! i.
Proof.
  intros Hall. revert st.
  induction Hall as [|t txs Ht Hall IH]; intros st; simpl.
  - intros [= <-] i. unfold amounts; simpl. now destruct (st.1 !! i), (st.2 !! i).
  - destruct (monthly_step st t) as [st1|] eqn:Estep; [simpl|discriminate].
    intros Hl i. destruct (IH st1 Hl i) as [Hi He]. rewrite Hi, He, !amounts_cons.
    clear Hi He Hl IH. unfold monthly_step in Estep.
    destruct (fromisoformat (date t)) as [dt|] eqn:Edt.
    2: { injection Estep as <-. now rewrite !on_day_unparsed. }
    rewrite !(on_day_parsed _ _ _ dt Edt). specialize (Ht dt Edt).
    assert (Ha := eq_refl (amount_of t)). unfold amount_of at 2 in Ha.
    destruct (py_float (amount t)) as [amt|]; [simpl in Estep|discriminate].
    subst amt. fold (is_income t) (is_expense t) in Estep.
    destruct (is_income t) eqn:Ei.
    + rewrite (income_is_no_expense t Ei). simpl.
      destruct (list_iadd (fst st) _ _) as [l|] eqn:El; [|discriminate].
      injection Estep as <-. simpl. split; [|reflexivity].
      rewrite (list_iadd_lookup _ _ _ _ i (proj1 Ht) El), (Z.eqb_sym (day dt)).
      destruct (_ =? _); [|reflexivity]. now destruct (st.1 !! i).
    + destruct (is_expense t) eqn:Ee; simpl.
      * destruct (list_iadd (snd st) _ _) as [l|] eqn:El; [|discriminate].
        injection Estep as <-. simpl. split; [reflexivity|].
        rewrite (list_iadd_lookup _ _ _ _ i (proj1 Ht) El), (Z.eqb_sym (day dt)).
        destruct (_ =? _); [|reflexivity]. now destruct (st.2 !! i).
      * now injection Estep as <-.
Qed.

Lemma mkdate_valid (y m d : Z) :
  valid_date y m d = true -> mkdate y m d = Ok {| year := y; month := m; day := d |}.
Proof.
  intros Hv. unfold mkdate. rewrite Hv.
  destruct (CalendarFacts.valid_date_bounds y m d Hv) as (Hy & Hm & Hd).
  pose proof (CalendarFacts.days_in_month_range y m Hm).
  replace (c_int y && c_int m && c_int d) with true; [reflexivity|].
  symmetry. unfold c_int. rewrite !andb_true_iff, !Z.leb_le. lia.
Qed.

Lemma mkdate_first (y m : Z) :
  1 <= y <= 9999 -> 1 <= m <= 12 ->
  mkdate y m 1 = Ok {| year := y; month := m; day := 1 |}.
Proof.
  intros Hy Hm. apply mkdate_valid.
  pose proof (CalendarFacts.days_in_month_range y m Hm).
  unfold valid_date. rewrite !andb_true_iff, !Z.leb_le. lia.
Qed.

Lemma mkdate_last (y m : Z) :
  1 <= y <= 9999 -> 1 <= m <= 12 ->
  mkdate y m (days_in_month y m) =
  Ok {| year := y; month := m; day := days_in_month y m |}.
Proof.
  intros Hy Hm. apply mkdate_valid.
  pose proof (CalendarFacts.days_in_month_range y m Hm).
  unfold valid_date. rewrite !andb_true_iff, !Z.leb_le. lia.
Qed.

Lemma monthrange_valid (y m : Z) : 1 <= m <= 12 -> monthrange y m = Ok (days_in_month y m).
Proof.
  intros Hm. unfold monthrange.
  now replace (_ && _) with true by (symmetry; rewrite andb_true_iff, !Z.leb_le; lia).
Qed.

Lemma of_month_day_ok (db : list row) (y m : Z) :
  1 <= y <= 9999 -> 1 <= m <= 12 -> Forall (day_ok (days_in_month y m)) (of_month db y m).
Proof.
  intros Hy Hm. apply List.Forall_forall. intros t Ht.
  apply (monthly_rows_day_ok db y m (days_in_month y m) _ _ t
           (monthrange_valid y m Hm) (mkdate_first y m Hy Hm) (mkdate_last y m Hy Hm) Ht).
Qed.

(** The result of [index], for a month that resolved to [(y, m)]. *)
Lemma index_resolved (db : list row) (today : pydate) (req : request) (y m : Z) :
  resolve_month today (default [] (arg_month req)) = Ok (y, m) ->
  index db today req =
    st ← totals_loop (visible db req) agg0;
    dim ← monthrange y m;
    first ← mkdate y m 1;
    last ← mkdate y m dim;
    by_day ← monthly_loop
               (fetch_transactions db (Some (isoformat first)) (Some (isoformat last)) None)
               (replicate (Z.to_nat dim) 0%float, replicate (Z.to_nat dim) 0%float);
    Ok {| transactions := visible db req;
          totals := agg_totals st;
          income_labels := seqZ 1 dim;
          income_values := List.map Num.round2 (fst by_day);
          expense_values := List.map Num.round2 (snd by_day);
          expense_categories := List.map fst (expense_category_sums st);
          expense_cat_values :=
            List.map (fun c => Num.round2 (dict_get (expense_category_sums st) c))
                     (List.map fst (expense_category_sums st)) |}.
Proof.
  intros Hr. unfold index, visible. rewrite Hr.
  destruct (totals_loop _ agg0); reflexivity.
Qed.

Lemma replicate_length_Z (y m : Z) (x : float) :
  1 <= m <= 12 ->
  Z.of_nat (length (replicate (Z.to_nat (days_in_month y m)) x)) = days_in_month y m.
Proof.
  intros Hm. pose proof (CalendarFacts.days_in_month_range y m Hm).
  rewrite length_replicate. lia.
Qed.

(** With numbers in every amount and a month that exists, [index] returns. *)
Lemma index_returns (db : list row) (today : pydate) (req : request) (y m : Z) :
  Forall numeric db ->
  resolve_month today (default [] (arg_month req)) = Ok (y, m) ->
  1 <= y <= 9999 -> 1 <= m <= 12 ->
  exists p, index db today req = Ok p.
Proof.
  intros Hdb Hr Hy Hm. rewrite (index_resolved db today req y m Hr).
  destruct (totals_loop_numeric (visible db req) agg0) as [st ->];
    [now apply fetch_numeric|].
  simpl. rewrite (monthrange_valid y m Hm). simpl.
  rewrite (mkdate_first y m Hy Hm). simpl.
  rewrite (mkdate_last y m Hy Hm). simpl.
  fold (of_month db y m).
  destruct (monthly_loop_in_range (days_in_month y m) (of_month db y m)
              (replicate (Z.to_nat (days_in_month y m)) 0%float,
               replicate (Z.to_nat (days_in_month y m)) 0%float)
              (of_month_day_ok db y m Hy Hm)
              (replicate_length_Z y m _ Hm) (replicate_length_Z y m _ Hm))
    as [[by_day ->]|(_ & t & dt & Hin & _ & Hbad)].
  - simpl. eauto.
  - exfalso. assert (Hn : numeric t).
    { rewrite List.Forall_forall in Hdb. apply Hdb.
      unfold of_month in Hin. now apply fetch_In in Hin. }
    destruct Hn as [f Hf]. congruence.
Qed.

(** The pieces of a returned payload. *)
Lemma index_payload (db : list row) (today : pydate) (req : request) (p : payload) :
  index db today req = Ok p ->
  exists st y m by_day,
    resolve_month today (default [] (arg_month req)) = Ok (y, m) /\
    1 <= y <= 9999 /\ 1 <= m <= 12 /\
    totals_loop (visible db req) agg0 = Ok st /\
    monthly_loop (of_month db y m)
      (replicate (Z.to_nat (days_in_month y m)) 0%float,
       replicate (Z.to_nat (days_in_month y m)) 0%float) = Ok by_day /\
    p = {| transactions := visible db req;
           totals := agg_totals st;
           income_labels := seqZ 1 (days_in_month y m);
           income_values := List.map Num.round2 (fst by_day);
           expense_values := List.map Num.round2 (snd by_day);
           expense_categories := DictFacts.keys (expense_category_sums st);
           expense_cat_values :=
             List.map (fun c => Num.round2 (dict_get (expense_category_sums st) c))
                      (DictFacts.keys (expense_category_sums st)) |}.
Proof.
  intros Hp. destruct (index_inv db today req p Hp)
    as (st & y & m & dim & first & last & by_day & Hst & Hr & Hdim & Hf & Hl & Hloop & ->).
  apply CalendarFacts.monthrange_inv in Hdim. destruct Hdim as [Hm ->].
  apply CalendarFacts.mkdate_inv in Hf, Hl.
  destruct Hf as (-> & Hy & _), Hl as (-> & _).
  exists st, y, m, by_day. now repeat split.
Qed.

End Index.

Section IndexFacts.

Context `{Sqlite} `{IsoParser}.

Lemma lookup_map {A B : Type} (f : A -> B) (l : list A) (i : nat) :
  List.map f l !! i = f <$> l !! i.
Proof.
  revert i; induction l as [|x l IH]; intros [|i]; simpl; try reflexivity. apply IH.
Qed.

(** Totals and category sums of a returned payload. *)
Lemma index_totals (db : list row) (today : pydate) (req : request) (p : payload) :
  index db today req = Ok p ->
  transactions p = visible db req /\
  Forall numeric (visible db req) /\
  income (totals p) = fsum 0 (amounts is_income (visible db req)) /\
  expense (totals p) = fsum 0 (amounts is_expense (visible db req)) /\
  List.NoDup (expense_categories p) /\
  (forall c, In c (expense_categories p) <->
             exists t, In t (visible db req) /\ is_expense t = true /\ category t = c) /\
  expense_cat_values p =
    List.map (fun c => Num.round2 (fsum 0 (amounts (in_category c) (visible db req))))
             (expense_categories p).
Proof.
  intros Hp. destruct (index_payload db today req p Hp)
    as (st & y & m & by_day & _ & _ & _ & Hst & _ & ->).
  apply totals_loop_spec in Hst. destruct Hst as (Hall & Hi & He & Hd). simpl in *.
  rewrite Hd. repeat split; try assumption.
  - apply DictFacts.nodup_accumulate. constructor.
  - intros [[]|(t & [Ht He']%filter_In & Hc)]%DictFacts.keys_accumulate. eauto.
  - intros (t & Ht & He' & Hc). apply DictFacts.keys_accumulate. right.
    exists t. split; [|exact Hc]. apply filter_In. now split.
  - apply map_ext. intros c.
    now rewrite DictFacts.get_accumulate, filter_in_category.
Qed.

(** The per-day series of a returned payload. *)
Lemma index_series (db : list row) (today : pydate) (req : request) (p : payload) (y m : Z) :
  index db today req = Ok p ->
  resolve_month today (default [] (arg_month req)) = Ok (y, m) ->
  1 <= y <= 9999 /\ 1 <= m <= 12 /\
  income_labels p = seqZ 1 (days_in_month y m) /\
  length (income_values p) = Z.to_nat (days_in_month y m) /\
  length (expense_values p) = Z.to_nat (days_in_month y m) /\
  forall i : nat, (i < Z.to_nat (days_in_month y m))%nat ->
    income_values p !! i =
      Some (Num.round2 (fsum 0 (amounts (on_day is_income (Z.of_nat i + 1)) (of_month db y m)))) /\
    expense_values p !! i =
      Some (Num.round2 (fsum 0 (amounts (on_day is_expense (Z.of_nat i + 1)) (of_month db y m)))).
Proof.
  intros Hp Hr. destruct (index_payload db today req p Hp)
    as (st & y' & m' & by_day & Hr' & Hy & Hm & _ & Hloop & ->).
  rewrite Hr in Hr'. injection Hr' as <- <-. simpl.
  destruct (monthly_loop_length _ _ _ Hloop) as [L1 L2]. simpl in L1, L2.
  rewrite length_replicate in L1, L2.
  repeat split; try assumption; try lia; rewrite ?length_map; try assumption.
  all: intros; rewrite lookup_map;
    destruct (monthly_loop_spec _ _ _ _ (of_month_day_ok db y m Hy Hm) Hloop i) as [Ei Ee];
    simpl in Ei, Ee; rewrite ?Ei, ?Ee, lookup_replicate_2 by assumption; reflexivity.
Qed.

Lemma totals_loop_exn (ts : list row) (st : agg) (e : exn) :
  totals_loop ts st = Raise e -> e = ValueError.
Proof.
  revert st; induction ts as [|t ts IH]; intros st; simpl; [discriminate|].
  unfold totals_step.
  destruct (py_float (amount t)) as [amt|e'] eqn:E; simpl.
  - destruct (Str.eqb (tx_type t) INCOME); [apply IH|].
    destruct (Str.eqb (tx_type t) EXPENSE); apply IH.
  - intros [= <-]. now apply py_float_raise in E.
Qed.

Lemma resolve_month_returns (today : pydate) (month : pystr) :
  exists ym, resolve_month today month = Ok ym.
Proof.
  unfold resolve_month. destruct month; [eauto|].
  destruct (parse_month _); simpl; eauto.
Qed.

(** A loop that returns met a number in every record whose date parsed. *)
Lemma monthly_loop_parsed_numeric (txs : list row) (st st' : list float * list float) :
  monthly_loop txs st = Ok st' ->
  forall t dt, In t txs -> fromisoformat (date t) = Some dt -> numeric t.
Proof.
  revert st; induction txs as [|t0 txs IH]; intros st; simpl; [easy|].
  destruct (monthly_step st t0) as [st1|] eqn:E; [simpl|discriminate].
  intros Hl t dt [->|Hin] Hdt; [|now apply (IH st1 Hl t dt)].
  unfold monthly_step in E. rewrite Hdt in E.
  destruct (py_float (amount t)) as [amt|] eqn:Ea; [now exists amt|discriminate].
Qed.

Lemma mkdate_exn (y m d : Z) (e : exn) :
  mkdate y m d = Raise e -> e = ValueError \/ e = OverflowError.
Proof.
  unfold mkdate. destruct (c_int y && c_int m && c_int d).
  - destruct (valid_date y m d); [discriminate|]. intros [= <-]. now left.
  - intros [= <-]. now right.
Qed.

(** [index] never fails on an index. *)
Lemma index_no_index_error (db : list row) (today : pydate) (req : request) :
  index db today req <> Raise IndexError.
Proof.
  destruct (resolve_month_returns today (default [] (arg_month req))) as [[y m] Hr].
  rewrite (index_resolved db today req y m Hr).
  destruct (totals_loop (visible db req) agg0) as [st|e] eqn:Et; simpl.
  2: { apply totals_loop_exn in Et. now subst e. }
  unfold monthrange. destruct (_ && _) eqn:Em; simpl; [|discriminate].
  assert (Hcase : (exists first, mkdate y m 1 = Ok first) \/
                  (exists e1, mkdate y m 1 = Raise e1)).
  { destruct (mkdate y m 1); eauto. }
  destruct Hcase as [[first Ef]|[e1 Ef]].
  2: { rewrite Ef. simpl. intros [= ->]. now destruct (mkdate_exn _ _ _ _ Ef). }
  apply CalendarFacts.mkdate_inv in Ef. destruct Ef as (_ & Hy & Hm & _).
  clear first. rewrite (mkdate_first y m Hy Hm), (mkdate_last y m Hy Hm). simpl.
  destruct (monthly_loop_in_range (days_in_month y m) (of_month db y m)
              (replicate (Z.to_nat (days_in_month y m)) 0%float,
               replicate (Z.to_nat (days_in_month y m)) 0%float)
              (of_month_day_ok db y m Hy Hm)
              (replicate_length_Z y m _ Hm) (replicate_length_Z y m _ Hm))
    as [[by_day E]|(E & _)]; unfold of_month in E; rewrite E; simpl; discriminate.
Qed.

(** With numbers in every amount, [index] returns exactly when the
    resolved month exists. *)
Lemma index_returns_iff (db : list row) (today : pydate) (req : request) (y m : Z) :
  Forall numeric db ->
  resolve_month today (default [] (arg_month req)) = Ok (y, m) ->
  (exists p, index db today req = Ok p) <-> 1 <= y <= 9999 /\ 1 <= m <= 12.
Proof.
  intros Hdb Hr. split.
  - intros [p Hp]. destruct (index_payload db today req p Hp)
      as (st & y' & m' & by_day & Hr' & Hy & Hm & _).
    rewrite Hr in Hr'. injection Hr' as <- <-. now split.
  - intros [Hy Hm]. now apply index_returns with y m.
Qed.

(** A totals loop that raises met an amount that [float] rejects. *)
Lemma totals_loop_raise_inv (ts : list row) (st : agg) (e : exn) :
  totals_loop ts st = Raise e ->
  exists t, In t ts /\ py_float (amount t) = Raise ValueError.
Proof.
  revert st; induction ts as [|t ts IH]; intros st; simpl; [discriminate|].
  unfold totals_step.
  destruct (py_float (amount t)) as [amt|e'] eqn:E; simpl.
  - assert (Hrest : forall st', totals_loop ts st' = Raise e ->
                                exists t0, In t0 (t :: ts) /\
                                           py_float (amount t0) = Raise ValueError).
    { intros st' Hl. destruct (IH st' Hl) as (t0 & Hin & Ht0). exists t0. split; [now right|easy]. }
    destruct (Str.eqb (tx_type t) INCOME); [apply Hrest|].
    destruct (Str.eqb (tx_type t) EXPENSE); apply Hrest.
  - intros _. exists t. split; [now left|]. now rewrite (py_float_raise _ _ E) in E.
Qed.

Lemma stored_as_real_numeric (t : row) : stored_as_real t -> numeric t.
Proof. intros [f Hf]. exists f. unfold py_float. now rewrite Hf. Qed.

(** The template returns exactly when every returned amount is a number
    in the table. *)
Lemma render_real (p : payload) :
  Forall stored_as_real (transactions p) -> render_template_string p = Ok tt.
Proof.
  intros Hall. unfold render_template_string.
  replace (forallb formats (transactions p)) with true; [reflexivity|].
  symmetry. apply forallb_forall. intros t Ht.
  rewrite List.Forall_forall in Hall. destruct (Hall t Ht) as [f Hf].
  unfold formats. now rewrite Hf.
Qed.

Lemma render_text (p : payload) (t : row) (s : pystr) :
  In t (transactions p) -> amount t = Text s ->
  render_template_string p = Raise TypeError.
Proof.
  intros Hin Ht. unfold render_template_string.
  destruct (forallb formats (transactions p)) eqn:E; [|reflexivity].
  rewrite forallb_forall in E. specialize (E t Hin). unfold formats in E.
  now rewrite Ht in E.
Qed.

Lemma render_raise_inv (p : payload) (e : exn) :
  render_template_string p = Raise e ->
  e = TypeError /\ exists t s, In t (transactions p) /\ amount t = Text s.
Proof.
  unfold render_template_string.
  destruct (forallb formats (transactions p)) eqn:E; [discriminate|].
  intros [= <-]. split; [reflexivity|].
  induction (transactions p) as [|t ts IH]; [discriminate|]. simpl in E.
  destruct (formats t) eqn:Ef.
  - destruct (IH E) as (t0 & s & Hin & Hs). exists t0, s. split; [now right|easy].
  - unfold formats in Ef. destruct (amount t) as [f|s] eqn:Ea; [discriminate|].
    exists t, s. split; [now left|easy].
Qed.

Lemma index_page_ok (db : list row) (today : pydate) (req : request) (p : payload) :
  index_page db today req = Ok p <->
  index db today req = Ok p /\ render_template_string p = Ok tt.
Proof.
  unfold index_page. destruct (index db today req) as [p0|e]; simpl.
  - destruct (render_template_string p0) as [[]|e] eqn:Er; simpl.
    + split; [intros [= <-]; now split|]. now intros [[= <-] _].
    + split; [discriminate|]. intros [[= <-] Hr]. congruence.
  - split; [discriminate|]. now intros [? _].
Qed.

(** With every amount stored as a number and a month that exists, the
    page is produced. *)
Lemma index_page_returns (db : list row) (today : pydate) (req : request) (y m : Z) :
  Forall stored_as_real db ->
  resolve_month today (default [] (arg_month req)) = Ok (y, m) ->
  1 <= y <= 9999 -> 1 <= m <= 12 ->
  exists p, index_page db today req = Ok p.
Proof.
  intros Hdb Hr Hy Hm.
  destruct (index_returns db today req y m) as [p Hp]; try assumption.
  { eapply List.Forall_impl; [|exact Hdb]. apply stored_as_real_numeric. }
  exists p. apply index_page_ok. split; [exact Hp|].
  apply render_real.
  destruct (index_payload db today req p Hp) as (st & y' & m' & bd & _ & _ & _ & _ & _ & ->).
  simpl. apply List.Forall_forall. intros t Ht. unfold visible in Ht.
  apply fetch_In in Ht. rewrite List.Forall_forall in Hdb. now apply Hdb.
Qed.

(** In a month that exists, a record of the month whose date parses and
    whose amount [float] rejects makes [index] raise [ValueError], in the
    totals loop or in the per-day loop. *)
Lemma index_monthly_raises (db : list row) (today : pydate) (req : request) (y m : Z)
    (t : row) (dt : pydate) :
  resolve_month today (default [] (arg_month req)) = Ok (y, m) ->
  1 <= y <= 9999 -> 1 <= m <= 12 ->
  In t (of_month db y m) -> fromisoformat (date t) = Some dt ->
  py_float (amount t) = Raise ValueError ->
  index db today req = Raise ValueError.
Proof.
  intros Hr Hy Hm Hin Hdt Hbad. rewrite (index_resolved db today req y m Hr).
  destruct (totals_loop (visible db req) agg0) as [st|e] eqn:Et; simpl.
  2: { apply totals_loop_exn in Et. now subst e. }
  rewrite (monthrange_valid y m Hm). simpl.
  rewrite (mkdate_first y m Hy Hm), (mkdate_last y m Hy Hm). simpl.
  destruct (monthly_loop_in_range (days_in_month y m) (of_month db y m)
              (replicate (Z.to_nat (days_in_month y m)) 0%float,
               replicate (Z.to_nat (days_in_month y m)) 0%float)
              (of_month_day_ok db y m Hy Hm)
              (replicate_length_Z y m _ Hm) (replicate_length_Z y m _ Hm))
    as [[by_day E]|(E & _)].
  - destruct (monthly_loop_parsed_numeric _ _ _ E t dt Hin Hdt) as [f Hf]. congruence.
  - unfold of_month in E. now rewrite E.
Qed.

(** When one run returns, a run with the same month argument and other
    filters can only fail in its totals loop, on a record it selects. *)
Lemma index_fails_beside (db : list row) (today : pydate) (req1 req2 : request)
    (p1 : payload) (e : exn) :
  arg_month req1 = arg_month req2 ->
  index db today req1 = Ok p1 -> index db today req2 = Raise e ->
  e = ValueError /\
  exists t, In t (visible db req2) /\ py_float (amount t) = Raise ValueError.
Proof.
  intros Hmonth Hp1 Hp2.
  destruct (index_payload db today req1 p1 Hp1)
    as (st1 & y & m & by_day & Hr & Hy & Hm & _ & Hloop & _).
  rewrite Hmonth in Hr. rewrite (index_resolved db today req2 y m Hr) in Hp2.
  destruct (totals_loop (visible db req2) agg0) as [st|e'] eqn:Et; simpl in Hp2.
  - exfalso. rewrite (monthrange_valid y m Hm) in Hp2. simpl in Hp2.
    rewrite (mkdate_first y m Hy Hm), (mkdate_last y m Hy Hm) in Hp2. simpl in Hp2.
    unfold of_month in Hloop. rewrite Hloop in Hp2. discriminate.
  - injection Hp2 as ->. split; [now apply totals_loop_exn in Et|].
    now apply totals_loop_raise_inv in Et.
Qed.

End IndexFacts.

Lemma nodup_single {A : Type} (c : A) (l : list A) :
  List.NoDup l -> In c l -> (forall x, In x l -> x = c) -> l = [c].
Proof.
  intros Hnd Hin Hall. destruct l as [|a [|b l]]; [easy| |].
  - f_equal. apply Hall. now left.
  - exfalso. apply List.NoDup_cons_iff in Hnd. destruct Hnd as [Hnot _].
    apply Hnot. left. rewrite (Hall a), (Hall b); simpl; auto.
Qed.

(** ** Sample data *)

Module Sample.

Definition tx (i : Z) (ty cat : string) (amt : sqlval) (d : string) : row :=
  {| tx_id := i; tx_type := py ty; category := py cat; amount := amt;
     date := py d; comment := None |}.

Definition no_args : request :=
  {| arg_from := None; arg_to := None; arg_q := None; arg_month := None |}.

Definition month_arg (m : string) : request :=
  {| arg_from := None; arg_to := None; arg_q := None; arg_month := Some (py m) |}.

Definition filtered : request :=
  {| arg_from := Some (py "2024-03-02"); arg_to := Some (py "2024-03-10");
     arg_q := Some (py "каф"); arg_month := None |}.

Definition today : pydate := {| year := 2024; month := 3; day := 15 |}.

(** Two records of one date, stored in this order. *)
Definition same_day : list row :=
  [ tx 1 "income" "Salary" (Real 1000) "2024-03-05";
    tx 2 "expense" "Food" (Real 150) "2024-03-05" ].

Definition march : list row :=
  [ tx 1 "income" "Salary" (Real 1000) "2024-03-01";
    tx 2 "expense" "Кафе" (Real 150.5) "2024-03-05";
    tx 3 "expense" "Groceries" (Real 49.25) "2024-03-20";
    tx 4 "expense" "Кафе" (Real 12) "2024-02-29" ].

(** A negative amount, and a text that is no number. *)
Definition negative : list row :=
  [ tx 1 "expense" "Food" (Real (-5)) "2024-03-05" ].

Definition corrupt : list row :=
  [ tx 1 "expense" "Food" (Text (py "abc")) "2024-03-05" ].

(** Amounts that lie halfway between two cents. *)
Definition eighth : list row :=
  [ tx 1 "income" "Salary" (Real 0.125) "2024-03-05" ].

Definition two_eighths : list row :=
  [ tx 1 "expense" "Food" (Real 0.125) "2024-03-05";
    tx 2 "expense" "Rent" (Real 0.125) "2024-03-06" ].

(** An amount that is no number, on a record outside March 2024, and a
    request that selects the other record. *)
Definition stray : list row :=
  [ tx 1 "income" "Salary" (Real 1000) "2024-03-01";
    tx 2 "expense" "Food" (Text (py "abc")) "2024-02-10" ].

Definition by_category (q : string) : request :=
  {| arg_from := None; arg_to := None; arg_q := Some (py q); arg_month := None |}.

(** An amount kept as a text that [float] accepts. *)
Definition text_amount : list row :=
  [ tx 1 "income" "Salary" (Text (py "inf")) "2024-03-01" ].

End Sample.

(** ** Runs on sample data *)

Module Runs.

Definition run (db : list row) (req : request) : result payload :=
  @index Engines.index_scan Engines.cpython311 db Sample.today req.

Lemma float_neq (a b : float) : Prim2SF a <> Prim2SF b -> a <> b.
Proof. intros Hne ->. now apply Hne. Qed.

Lemma march_numeric : Forall numeric Sample.march.
Proof. repeat constructor; eexists; reflexivity. Qed.

Lemma march_real : Forall stored_as_real Sample.march.
Proof. repeat constructor; eexists; reflexivity. Qed.

End Runs.

(** * The claims *)

(** C1, as stated, fails: an expense of -5 lowers the expense total, its
    category sum and its day's entry by 5 instead of contributing 0, and
    an amount stored as the text ["abc"] makes [index] raise. *)
Lemma C1_amounts_are_not_guarded :
  returns (Runs.run Sample.negative Sample.no_args)
    (fun p => expense (totals p) = (-5)%float /\
              expense_cat_values p = [(-5)%float] /\
              expense_values p !! 4%nat = Some (-5)%float) /\
  (-5)%float <> 0%float /\
  Runs.run Sample.corrupt Sample.no_args = Raise ValueError.
Proof.
  split; [|split].
  - vm_compute. repeat split.
  - apply Runs.float_neq. vm_compute. discriminate.
  - vm_compute. reflexivity.
Qed.

(** C1, amended: the two loops pass every amount through [float]
    without a guard.  A record whose amount [float] rejects makes [index]
    raise [ValueError] (in the per-day loop: when the month exists and
    the record's date parses); a number enters the sums as it is
    converted, zero and negative values included.  When every amount is
    stored as a number and the month exists, [index] returns and the
    template renders; an amount kept as a text that [float] accepts is
    summed as well, but the template then raises [TypeError] on it. *)
Theorem C1_amounts_pass_through_float `{Sqlite} `{IsoParser}
    (db : list row) (today : pydate) (req : request) (y m : Z) :
  resolve_month today (default [] (arg_month req)) = Ok (y, m) ->
  (forall t, In t (visible db req) -> py_float (amount t) = Raise ValueError ->
             index db today req = Raise ValueError) /\
  (1 <= y <= 9999 -> 1 <= m <= 12 ->
   forall t dt, In t (of_month db y m) -> fromisoformat (date t) = Some dt ->
                py_float (amount t) = Raise ValueError ->
                index db today req = Raise ValueError) /\
  (forall t f, amount t = Real f -> amount_of t = f) /\
  (forall p, index db today req = Ok p ->
     Forall numeric (visible db req) /\
     income (totals p) = fsum 0 (amounts is_income (visible db req)) /\
     expense (totals p) = fsum 0 (amounts is_expense (visible db req)) /\
     expense_cat_values p =
       List.map (fun c => Num.round2 (fsum 0 (amounts (in_category c) (visible db req))))
                (expense_categories p) /\
     forall i : nat, (i < Z.to_nat (days_in_month y m))%nat ->
       income_values p !! i =
         Some (Num.round2 (fsum 0 (amounts (on_day is_income (Z.of_nat i + 1))
                                           (of_month db y m)))) /\
       expense_values p !! i =
         Some (Num.round2 (fsum 0 (amounts (on_day is_expense (Z.of_nat i + 1))
                                           (of_month db y m))))) /\
  (Forall stored_as_real db -> 1 <= y <= 9999 -> 1 <= m <= 12 ->
   exists p, index db today req = Ok p /\ render_template_string p = Ok tt) /\
  (forall p t s, index db today req = Ok p ->
                 In t (visible db req) -> amount t = Text s ->
                 render_template_string p = Raise TypeError /\
                 index_page db today req = Raise TypeError).
Proof.
  intros Hr. split; [|split; [|split; [|split; [|split]]]].
  - intros t Hin Hbad. rewrite (index_resolved db today req y m Hr).
    now rewrite (totals_loop_raises _ agg0 t Hin Hbad).
  - intros Hy Hm t dt Hin Hdt Hbad.
    now apply (index_monthly_raises db today req y m t dt).
  - intros t f Ht. unfold amount_of. now rewrite Ht.
  - intros p Hp.
    destruct (index_totals db today req p Hp) as (_ & Hn & Hi & He & _ & _ & Hc).
    destruct (index_series db today req p y m Hp Hr) as (_ & _ & _ & _ & _ & Hs).
    auto.
  - intros Hdb Hy Hm.
    destruct (index_page_returns db today req y m Hdb Hr Hy Hm) as [p Hp].
    exists p. now apply index_page_ok.
  - intros p t s Hp Hin Ht.
    assert (Hrender : render_template_string p = Raise TypeError).
    { apply render_text with t s; [|exact Ht].
      destruct (index_totals db today req p Hp) as (Htx & _). now rewrite Htx. }
    split; [exact Hrender|]. unfold index_page. rewrite Hp. simpl. now rewrite Hrender.
Qed.

Lemma C1_amounts_pass_through_float_witness :
  (exists p, Runs.run Sample.march Sample.no_args = Ok p /\
             render_template_string p = Ok tt) /\
  @index_page Engines.index_scan Engines.cpython311
    Sample.text_amount Sample.today Sample.no_args = Raise TypeError.
Proof.
  split.
  - destruct (@C1_amounts_pass_through_float Engines.index_scan Engines.cpython311
                Sample.march Sample.today Sample.no_args 2024 3 eq_refl)
      as (_ & _ & _ & _ & Hret & _).
    apply Hret; [exact Runs.march_real|lia|lia].
  - destruct (@C1_amounts_pass_through_float Engines.index_scan Engines.cpython311
                Sample.text_amount Sample.today Sample.no_args 2024 3 eq_refl)
      as (_ & _ & _ & _ & _ & Htext).
    destruct (Runs.run Sample.text_amount Sample.no_args) as [p|e] eqn:Hp;
      [|vm_compute in Hp; discriminate].
    apply (Htext p (Sample.tx 1 "income" "Salary" (Text (py "inf")) "2024-03-01")
                 (py "inf") Hp); [|reflexivity].
    vm_compute. now left.
Defined.

(** C2: a month argument that is absent, or that does not parse as two
    integers, resolves to the current year and month without raising;
    the whole of [index] then behaves as if the argument were absent. *)
Theorem C2_month_fallback (today : pydate) (month : option pystr) :
  absent_or_malformed month ->
  resolve_month today (default [] month) = Ok (year today, Calendar.month today) /\
  resolve_month today (default [] month) = resolve_month today (default [] None) /\
  forall (E : Sqlite) (P : IsoParser) (db : list row) (frm to q : option pystr),
    index db today {| arg_from := frm; arg_to := to; arg_q := q; arg_month := month |} =
    index db today {| arg_from := frm; arg_to := to; arg_q := q; arg_month := None |}.
Proof.
  intros Hm. pose proof (resolve_month_fallback today month Hm) as Hr.
  split; [exact Hr|split; [exact Hr|]].
  intros E P db frm to q. unfold index. simpl arg_month.
  now rewrite Hr.
Qed.

Lemma C2_month_fallback_witness :
  resolve_month Sample.today (py "not-a-month") = Ok (2024, 3).
Proof.
  apply (C2_month_fallback Sample.today (Some (py "not-a-month"))).
  right. exists (py "not-a-month"), ValueError. split; [reflexivity|].
  vm_compute. reflexivity.
Defined.

(** C3, as stated, fails: an income of 0.125 is exposed as the total
    0.125, which is not a value rounded to two decimals. *)
Lemma C3_totals_are_not_rounded :
  returns (Runs.run Sample.eighth Sample.no_args)
    (fun p => income (totals p) = 0.125%float /\
              Num.round2 (income (totals p)) <> income (totals p)).
Proof.
  unfold returns. destruct (Runs.run Sample.eighth Sample.no_args) as [p|e] eqn:Hp;
    vm_compute in Hp; [|discriminate].
  injection Hp as <-. split; [reflexivity|].
  apply Runs.float_neq. vm_compute. discriminate.
Qed.

(** C3, amended: the per-category sums are exposed as [round(sum, 2)] of
    sums accumulated without rounding; the income and expense totals
    are exposed as accumulated, without rounding (the template formats
    them). *)
Theorem C3_category_sums_rounded_totals_raw `{Sqlite} `{IsoParser}
    (db : list row) (today : pydate) (req : request) (p : payload) :
  index db today req = Ok p ->
  expense_cat_values p =
    List.map (fun c => Num.round2 (fsum 0 (amounts (in_category c) (transactions p))))
             (expense_categories p) /\
  income (totals p) = fsum 0 (amounts is_income (transactions p)) /\
  expense (totals p) = fsum 0 (amounts is_expense (transactions p)).
Proof.
  intros Hp.
  destruct (index_totals db today req p Hp) as (-> & _ & Hi & He & _ & _ & Hc).
  now rewrite Hi, He, Hc.
Qed.

Lemma C3_category_sums_rounded_totals_raw_witness :
  returns (Runs.run Sample.two_eighths Sample.no_args)
    (fun p => expense_cat_values p = [Num.round2 0.125; Num.round2 0.125] /\
              expense (totals p) = 0.25%float).
Proof.
  unfold returns. destruct (Runs.run Sample.two_eighths Sample.no_args) as [p|e] eqn:Hp.
  - destruct (@C3_category_sums_rounded_totals_raw Engines.index_scan Engines.cpython311
                Sample.two_eighths Sample.today Sample.no_args p Hp) as (Hc & _ & He).
    vm_compute in Hp. injection Hp as <-. split; [exact Hc|exact He].
  - vm_compute in Hp. discriminate.
Defined.

(** C4: a category query that is not empty after trimming keeps exactly
    the records whose trimmed, case-folded category contains the trimmed,
    case-folded query; the folding is Unicode's, so Cyrillic matches
    regardless of case. *)
Theorem C4_category_filter `{Sqlite}
    (db : list row) (frm to : option pystr) (q : pystr) :
  strip q <> [] ->
  fetch_transactions db frm to (Some q) =
    List.filter (fun r => Str.contains (casefold (strip q)) (casefold (strip (category r))))
                (fetch_transactions db frm to None) /\
  (forall r, In r (fetch_transactions db frm to (Some q)) <->
             In r (fetch_transactions db frm to None) /\
             substring (casefold (strip q)) (casefold (strip (category r)))) /\
  Forall (fun '(query, cat) =>
            Str.contains (casefold (strip (py query))) (casefold (strip (py cat))) = true)
         [ ("каф", "Кафе"); ("КАФ", "Кафе"); ("афе", "Кафе");
           ("GRO", "Groceries"); ("eries", "Groceries") ]%string.
Proof.
  intros Hq.
  assert (Ht : truthy (Some q) = true).
  { destruct q; [|reflexivity]. now contradiction Hq. }
  split; [|split].
  - unfold fetch_transactions. now rewrite Ht.
  - intros r. rewrite !fetch_In, Ht. simpl.
    unfold category_matches. rewrite StrFacts.contains_spec. split.
    + intros (Hin & Hw & Hm). repeat split; auto. easy.
    + intros ((Hin & Hw & _) & Hm). auto.
  - repeat constructor.
Qed.

Lemma C4_category_filter_witness :
  @fetch_transactions Engines.index_scan Sample.march None None (Some (py " КАФ ")) =
  [ Sample.tx 2 "expense" "Кафе" (Real 150.5) "2024-03-05";
    Sample.tx 4 "expense" "Кафе" (Real 12) "2024-02-29" ].
Proof.
  rewrite (proj1 (@C4_category_filter Engines.index_scan Sample.march None None
                    (py " КАФ ") ltac:(vm_compute; discriminate))).
  vm_compute. reflexivity.
Defined.

(** C5, as stated, fails: the query orders by date only, and the backward
    index scan returns two records of one date by descending id. *)
Lemma C5_ties_follow_the_engine :
  ~ ties_in_id_order
      (@fetch_transactions Engines.index_scan Sample.same_day None None None).
Proof.
  intros Hties.
  specialize (Hties [] (Sample.tx 2 "expense" "Food" (Real 150) "2024-03-05") []
                       (Sample.tx 1 "income" "Salary" (Real 1000) "2024-03-05") []).
  vm_compute in Hties. specialize (Hties eq_refl eq_refl). discriminate.
Qed.

(** C5, amended: for every engine and every input, the output of
    [fetch_transactions] is sorted by date, most recent first: every
    record precedes only records of the same or an earlier date.  The
    order among records of one date is the engine's. *)
Theorem C5_fetch_sorted_by_date_desc `{Sqlite}
    (db : list row) (frm to q : option pystr) :
  StronglySorted date_ge (fetch_transactions db frm to q) /\
  forall pre a mid b post,
    fetch_transactions db frm to q = pre ++ a :: mid ++ b :: post ->
    Str.leb (date b) (date a) = true.
Proof.
  pose proof (fetch_sorted db frm to q) as Hs. split; [exact Hs|].
  intros pre a mid b post E. rewrite E in Hs.
  apply strongly_sorted_app_r, StronglySorted_inv in Hs. destruct Hs as [_ Hall].
  rewrite List.Forall_forall in Hall. apply Hall, in_or_app. right. now left.
Qed.

(** C6: filter monotonicity.  When [[A, B]] is contained in [[A', B']],
    every record returned for [from=A, to=B] is returned for
    [from=A', to=B'] (same category query): for arguments as [index]
    receives them, where [None] and [''] impose no bound, and in
    particular for four bounds that are present. *)
Theorem C6_filter_monotone `{Sqlite} (db : list row) (q : option pystr) (r : row) :
  (forall A B A' B' : option pystr,
     lower_within A A' -> upper_within B B' ->
     In r (fetch_transactions db A B q) -> In r (fetch_transactions db A' B' q)) /\
  (forall a b a' b' : pystr,
     b <> [] -> Str.leb a' a = true -> Str.leb b b' = true ->
     In r (fetch_transactions db (Some a) (Some b) q) ->
     In r (fetch_transactions db (Some a') (Some b') q)).
Proof.
  assert (Hmono : forall A B A' B' : option pystr,
             lower_within A A' -> upper_within B B' ->
             In r (fetch_transactions db A B q) -> In r (fetch_transactions db A' B' q)).
  { intros A B A' B' HA HB. rewrite !fetch_In. intros (Hin & Hw & Hq).
    repeat split; [exact Hin| |exact Hq].
    now apply where_clause_mono with A B. }
  split; [exact Hmono|].
  intros a b a' b' Hb Ha' Hb'. apply Hmono.
  - intros Ht. split; [|exact Ha'].
    destruct a' as [|c a']; [discriminate|]. now destruct a.
  - intros _. split; [|exact Hb']. now destruct b.
Qed.

Lemma C6_filter_monotone_witness :
  In (Sample.tx 2 "expense" "Кафе" (Real 150.5) "2024-03-05")
     (@fetch_transactions Engines.index_scan Sample.march
        (Some (py "2024-03-01")) (Some (py "2024-03-31")) None).
Proof.
  apply (proj2 (@C6_filter_monotone Engines.index_scan Sample.march None
                  (Sample.tx 2 "expense" "Кафе" (Real 150.5) "2024-03-05"))
           (py "2024-03-02") (py "2024-03-10") (py "2024-03-01") (py "2024-03-31")).
  - vm_compute. discriminate.
  - vm_compute. reflexivity.
  - vm_compute. reflexivity.
  - vm_compute. left. reflexivity.
Defined.

(** C7, as stated, fails: two expenses of 0.125 in two categories are
    exposed as 0.12 each, which add up to 0.24, beside a total of 0.25. *)
Lemma C7_rounded_sums_miss_the_total :
  returns (Runs.run Sample.two_eighths Sample.no_args)
    (fun p => fsum 0 (expense_cat_values p) <> expense (totals p) /\
              fsum 0 (expense_cat_values p) <> Num.round2 (expense (totals p))).
Proof.
  unfold returns. destruct (Runs.run Sample.two_eighths Sample.no_args) as [p|e] eqn:Hp;
    vm_compute in Hp; [|discriminate].
  injection Hp as <-.
  split; apply Runs.float_neq; vm_compute; discriminate.
Qed.

(** C7, amended: the categories of [expense_categories] are distinct and
    are those of the expense records; the expense amounts, each a number,
    split into the groups of the categories, every amount in exactly one
    group; the value exposed for a category is the rounded sum of its
    group and the exposed total is the unrounded sum of all expense
    amounts.  When all expense records share one category, the one
    exposed value is the rounded total. *)
Theorem C7_category_sums_partition_expenses `{Sqlite} `{IsoParser}
    (db : list row) (today : pydate) (req : request) (p : payload) :
  index db today req = Ok p ->
  List.NoDup (expense_categories p) /\
  (forall c, In c (expense_categories p) <->
             exists t, In t (transactions p) /\ is_expense t = true /\ category t = c) /\
  Permutation
    (concat (List.map (fun c => amounts (in_category c) (transactions p))
                      (expense_categories p)))
    (amounts is_expense (transactions p)) /\
  Forall numeric (transactions p) /\
  expense_cat_values p =
    List.map (fun c => Num.round2 (fsum 0 (amounts (in_category c) (transactions p))))
             (expense_categories p) /\
  expense (totals p) = fsum 0 (amounts is_expense (transactions p)) /\
  (forall c,
     (exists t, In t (transactions p) /\ is_expense t = true) ->
     (forall t, In t (transactions p) -> is_expense t = true -> category t = c) ->
     expense_cat_values p = [Num.round2 (expense (totals p))]).
Proof.
  intros Hp.
  destruct (index_totals db today req p Hp) as (-> & Hn & _ & He & Hnd & Hk & Hc).
  split; [exact Hnd|split; [exact Hk|split; [|split; [exact Hn|split; [exact Hc|split;
    [exact He|]]]]]].
  - unfold amounts.
    apply Permutation_trans with
      (List.map amount_of
         (concat (List.map (fun c => List.filter (has_category c)
                                       (List.filter is_expense (visible db req)))
                           (expense_categories p)))).
    + rewrite concat_map, map_map. apply Permutation_refl'. f_equal.
      apply map_ext. intros c. now rewrite filter_in_category.
    + apply Permutation_map, group_by_category_perm; [exact Hnd|].
      intros t [Ht Het]%filter_In. apply Hk. eauto.
  - intros c (t0 & Ht0 & He0) Hall.
    assert (Hks : expense_categories p = [c]).
    { apply nodup_single; [exact Hnd| |].
      - apply Hk. exists t0. auto.
      - intros x (t & Ht & Het & <-)%Hk. now apply Hall. }
    rewrite Hc, Hks, He. simpl. unfold amounts.
    replace (List.filter (in_category c) (visible db req))
      with (List.filter is_expense (visible db req)); [reflexivity|].
    apply filter_ext_in. intros t Ht. unfold in_category, has_category.
    destruct (is_expense t) eqn:Et; [simpl|reflexivity].
    rewrite (Hall t Ht Et). symmetry. apply StrFacts.eqb_refl.
Qed.

Lemma C7_category_sums_partition_expenses_witness :
  returns (Runs.run Sample.march Sample.no_args)
    (fun p => List.NoDup (expense_categories p) /\
              Permutation
                (concat (List.map (fun c => amounts (in_category c) (transactions p))
                                  (expense_categories p)))
                (amounts is_expense (transactions p))).
Proof.
  unfold returns. destruct (Runs.run Sample.march Sample.no_args) as [p|e] eqn:Hp.
  - destruct (@C7_category_sums_partition_expenses Engines.index_scan Engines.cpython311
                Sample.march Sample.today Sample.no_args p Hp) as (Hnd & _ & Hperm & _).
    split; [exact Hnd|exact Hperm].
  - vm_compute in Hp. discriminate.
Defined.

(** C8: the two series of a payload have as many entries as the
    resolved month has days, 29 for a February in a leap year and 28
    otherwise; and a payload is returned for every month that exists,
    when every stored amount is a number. *)
Theorem C8_series_length `{Sqlite} `{IsoParser}
    (db : list row) (today : pydate) (req : request) (y m : Z) :
  resolve_month today (default [] (arg_month req)) = Ok (y, m) ->
  (forall p, index db today req = Ok p ->
     length (income_values p) = Z.to_nat (days_in_month y m) /\
     length (expense_values p) = Z.to_nat (days_in_month y m) /\
     income_labels p = seqZ 1 (days_in_month y m) /\
     28 <= days_in_month y m <= 31) /\
  (Forall numeric db -> 1 <= y <= 9999 -> 1 <= m <= 12 ->
   exists p, index db today req = Ok p) /\
  (m = 2 -> days_in_month y m = if isleap y then 29 else 28).
Proof.
  intros Hr. split; [|split].
  - intros p Hp.
    destruct (index_payload db today req p Hp)
      as (st & y' & m' & by_day & Hr' & Hy & Hm & _ & Hloop & ->).
    rewrite Hr in Hr'. injection Hr' as <- <-. simpl.
    destruct (monthly_loop_length _ _ _ Hloop) as [L1 L2]. simpl in L1, L2.
    rewrite !length_map, L1, L2, length_replicate.
    repeat split; now apply CalendarFacts.days_in_month_range.
  - intros Hdb Hy Hm. now apply index_returns with y m.
  - intros ->. apply CalendarFacts.february.
Qed.

Lemma C8_series_length_witness :
  returns (Runs.run Sample.march (Sample.month_arg "2024-02"))
    (fun p => length (income_values p) = 29%nat /\ length (expense_values p) = 29%nat).
Proof.
  unfold returns.
  destruct (Runs.run Sample.march (Sample.month_arg "2024-02")) as [p|e] eqn:Hp.
  - destruct (proj1 (@C8_series_length Engines.index_scan Engines.cpython311
                       Sample.march Sample.today (Sample.month_arg "2024-02") 2024 2
                       eq_refl) p Hp)
      as (Hi & He & _).
    split; [exact Hi|exact He].
  - vm_compute in Hp. discriminate.
Defined.

(** C9, as stated, fails: the filters decide whether a series is
    produced at all.  With an amount that is no number on a record
    outside the month, the run without filters raises, while the run
    whose category query leaves that record out returns the series of the
    month. *)
Lemma C9_filters_decide_whether_a_run_returns :
  Runs.run Sample.stray Sample.no_args = Raise ValueError /\
  returns (Runs.run Sample.stray (Sample.by_category "salary"))
    (fun p => income_values p !! 0%nat = Some 1000%float /\
              length (income_values p) = 31%nat /\
              render_template_string p = Ok tt).
Proof.
  split.
  - vm_compute. reflexivity.
  - vm_compute. repeat split.
Qed.

(** C9, amended: two runs on the same records and month argument expose,
    when both return, the same per-day series, whatever their [from],
    [to] and [q] arguments: the series is computed from all records of
    the resolved month.  The filters bear on whether a run returns: when
    one run returns its payload, the other can only fail with
    [ValueError] on a record it selects whose amount [float] rejects, or
    in the template on a selected record whose amount is a text.  With
    every amount stored as a number, one run produces its page exactly
    when the other does. *)
Theorem C9_series_independent_of_filters `{Sqlite} `{IsoParser}
    (db : list row) (today : pydate) (req1 req2 : request) :
  arg_month req1 = arg_month req2 ->
  (forall p1 p2,
     index db today req1 = Ok p1 -> index db today req2 = Ok p2 ->
     income_values p1 = income_values p2 /\
     expense_values p1 = expense_values p2 /\
     income_labels p1 = income_labels p2 /\
     exists y m,
       resolve_month today (default [] (arg_month req1)) = Ok (y, m) /\
       forall i : nat, (i < Z.to_nat (days_in_month y m))%nat ->
         income_values p1 !! i =
           Some (Num.round2 (fsum 0 (amounts (on_day is_income (Z.of_nat i + 1))
                                             (of_month db y m)))) /\
         expense_values p1 !! i =
           Some (Num.round2 (fsum 0 (amounts (on_day is_expense (Z.of_nat i + 1))
                                             (of_month db y m))))) /\
  (forall p1 e,
     index db today req1 = Ok p1 -> index_page db today req2 = Raise e ->
     (e = ValueError /\
      exists t, In t (visible db req2) /\ py_float (amount t) = Raise ValueError) \/
     (e = TypeError /\
      exists t s, In t (visible db req2) /\ amount t = Text s)) /\
  (Forall stored_as_real db ->
   (exists p1, index_page db today req1 = Ok p1) <->
   (exists p2, index_page db today req2 = Ok p2)).
Proof.
  intros Hmonth. split; [|split].
  - intros p1 p2 Hp1 Hp2.
    destruct (index_payload db today req1 p1 Hp1)
      as (st1 & y & m & d1 & Hr1 & _ & _ & _ & Hl1 & E1).
    destruct (index_payload db today req2 p2 Hp2)
      as (st2 & y' & m' & d2 & Hr2 & _ & _ & _ & Hl2 & E2).
    rewrite <- Hmonth, Hr1 in Hr2. injection Hr2 as <- <-.
    rewrite Hl1 in Hl2. injection Hl2 as <-.
    rewrite E1 at 1 2 3. rewrite E2. simpl.
    repeat split. exists y, m. split; [exact Hr1|].
    apply (index_series db today req1 p1 y m Hp1 Hr1).
  - intros p1 e Hp1 Hpage. unfold index_page in Hpage.
    destruct (index db today req2) as [p2|e2] eqn:Hp2; simpl in Hpage.
    + right. destruct (render_template_string p2) as [[]|e3] eqn:Er; [discriminate|].
      simpl in Hpage. injection Hpage as <-.
      destruct (render_raise_inv p2 e3 Er) as (-> & t & s & Hin & Hs).
      split; [reflexivity|]. exists t, s. split; [|exact Hs].
      destruct (index_totals db today req2 p2 Hp2) as (Htx & _). now rewrite <- Htx.
    + left. injection Hpage as <-.
      now apply (index_fails_beside db today req1 req2 p1 e2).
  - intros Hdb.
    assert (Hside : forall ra rb, arg_month ra = arg_month rb ->
              (exists pa, index_page db today ra = Ok pa) ->
              exists pb, index_page db today rb = Ok pb).
    { intros ra rb Hab [pa Hpa]. apply index_page_ok in Hpa. destruct Hpa as [Hpa _].
      destruct (index_payload db today ra pa Hpa)
        as (st & y & m & bd & Hr & Hy & Hm & _).
      rewrite Hab in Hr. now apply index_page_returns with y m. }
    split; apply Hside; [exact Hmonth|now symmetry].
Qed.

Lemma C9_series_independent_of_filters_witness :
  returns (Runs.run Sample.march Sample.no_args) (fun p1 =>
  returns (Runs.run Sample.march Sample.filtered) (fun p2 =>
    income_values p1 = income_values p2 /\ expense_values p1 = expense_values p2)).
Proof.
  unfold returns.
  destruct (Runs.run Sample.march Sample.no_args) as [p1|e] eqn:Hp1;
    [|vm_compute in Hp1; discriminate].
  destruct (Runs.run Sample.march Sample.filtered) as [p2|e] eqn:Hp2;
    [|vm_compute in Hp2; discriminate].
  destruct (proj1 (@C9_series_independent_of_filters Engines.index_scan Engines.cpython311
                     Sample.march Sample.today Sample.no_args Sample.filtered eq_refl)
                  p1 p2 Hp1 Hp2) as (Hi & He & _).
  split; [exact Hi|exact He].
Defined.

(** C10: a record fetched for the resolved month whose date parses has
    its day within the month, so that [index] never fails on an index;
    a record whose date does not parse leaves both arrays as they are. *)
Theorem C10_day_within_month `{Sqlite} `{IsoParser} (db : list row) :
  (forall y m t dt,
     1 <= y <= 9999 -> 1 <= m <= 12 ->
     In t (of_month db y m) -> fromisoformat (date t) = Some dt ->
     1 <= day dt <= days_in_month y m) /\
  (forall y m inc exp,
     1 <= y <= 9999 -> 1 <= m <= 12 ->
     Z.of_nat (length inc) = days_in_month y m ->
     Z.of_nat (length exp) = days_in_month y m ->
     monthly_loop (of_month db y m) (inc, exp) <> Raise IndexError) /\
  (forall today req, index db today req <> Raise IndexError) /\
  (forall st t, fromisoformat (date t) = None -> monthly_step st t = Ok st).
Proof.
  split; [|split; [|split]].
  - intros y m t dt Hy Hm Hin Hdt.
    pose proof (of_month_day_ok db y m Hy Hm) as Hall.
    rewrite List.Forall_forall in Hall. exact (Hall t Hin dt Hdt).
  - intros y m inc exp Hy Hm Li Le.
    destruct (monthly_loop_in_range (days_in_month y m) (of_month db y m) (inc, exp)
                (of_month_day_ok db y m Hy Hm) Li Le) as [[st' ->]|[-> _]]; discriminate.
  - apply index_no_index_error.
  - intros st t Hnone. unfold monthly_step. now rewrite Hnone.
Qed.
(** * The write paths *)

(** ** Amounts that pass the guard *)

Lemma is_nan_spec (x : float) : is_nan x = true <-> Prim2SF x = S754_nan.
Proof.
  split.
  - intros Hn. unfold Prim2SF. now rewrite Hn.
  - intros E. destruct (is_nan x) eqn:Hn; [reflexivity|].
    unfold Prim2SF in E. rewrite Hn in E.
    destruct (is_zero x); [discriminate|].
    destruct (is_infinity x); [discriminate|].
    destruct (Z.frexp x) as [r e]. destruct (shr_fexp _ _ _ _ _) as [shr e'].
    destruct (shr_m shr); discriminate.
Qed.

(** What the guard lets through is a number above zero, [+inf] included. *)
Lemma accepted_positive (x : float) : accepted x <-> positive x.
Proof.
  unfold accepted, positive.
  rewrite leb_spec, ltb_spec.
  change (Prim2SF 0) with (S754_zero false).
  split.
  - intros [Hle Hnan].
    assert (Hne : Prim2SF x <> S754_nan).
    { intros E. apply is_nan_spec in E. congruence. }
    destruct (Prim2SF x) as [s| s | |s m e]; try easy; destruct s; easy.
  - intros Hlt. assert (Hne : Prim2SF x <> S754_nan) by (intros E; now rewrite E in Hlt).
    split.
    + destruct (Prim2SF x) as [s| s | |s m e]; try easy; destruct s; easy.
    + destruct (is_nan x) eqn:E; [|reflexivity]. now apply is_nan_spec in E.
Qed.

(** A number above zero is stored as it is. *)
Lemma sql_real_positive (x : float) : positive x -> sql_real x = x.
Proof.
  unfold positive, sql_real. intros Hpos.
  destruct (is_zero x) eqn:E; [exfalso|reflexivity].
  unfold is_zero in E. rewrite ltb_spec in Hpos. rewrite FloatAxioms.eqb_spec in E.
  change (Prim2SF zero) with (S754_zero false) in *.
  change (Prim2SF 0) with (S754_zero false) in *.
  destruct (Prim2SF x) as [s| s | |s m e]; try easy; destruct s; easy.
Qed.

(** ** Lookup by id *)

Module StoreFacts.

Lemma largest_id_ge (rows : list row) (r : row) :
  In r rows -> tx_id r <= largest_id rows.
Proof.
  induction rows as [|r0 rows IH]; simpl; [easy|].
  intros [->|Hin]; [lia|]. specialize (IH Hin). lia.
Qed.

Lemma largest_id_nonneg (rows : list row) : 0 <= largest_id rows.
Proof. induction rows as [|r rows IH]; simpl; lia. Qed.

Lemma sqlite_int_spec (n : Z) :
  sqlite_int n = true <-> - max_rowid - 1 <= n <= max_rowid.
Proof. unfold sqlite_int. rewrite andb_true_iff, !Z.leb_le. tauto. Qed.

Lemma find_absent (i : Z) (rows : list row) :
  (forall r, In r rows -> tx_id r <> i) -> List.find (has_id i) rows = None.
Proof.
  induction rows as [|r0 rows IH]; simpl; [easy|].
  intros Hall. unfold has_id at 1.
  destruct (Z.eqb_spec (tx_id r0) i) as [E|_]; [now destruct (Hall r0 (or_introl eq_refl))|].
  apply IH. auto.
Qed.

Lemma find_has_id (i : Z) (rows : list row) (r : row) :
  List.find (has_id i) rows = Some r -> In r rows /\ tx_id r = i.
Proof.
  intros Hf. apply find_some in Hf. destruct Hf as [Hin Hid].
  split; [exact Hin|now apply Z.eqb_eq in Hid].
Qed.

Lemma find_none_absent (i : Z) (rows : list row) (r : row) :
  List.find (has_id i) rows = None -> In r rows -> tx_id r <> i.
Proof.
  intros Hf Hin E. pose proof (find_none _ _ Hf r Hin) as Hn.
  unfold has_id in Hn. apply Z.eqb_neq in Hn. contradiction.
Qed.

Lemma find_snoc (i : Z) (rows : list row) (r : row) :
  List.find (has_id i) (rows ++ [r]) =
  match List.find (has_id i) rows with
  | Some r0 => Some r0
  | None => if has_id i r then Some r else None
  end.
Proof.
  induction rows as [|r0 rows IH]; simpl; [reflexivity|].
  now destruct (has_id i r0).
Qed.

Lemma find_map_same_id (g : row -> row) (i : Z) (rows : list row) :
  (forall r, tx_id (g r) = tx_id r) ->
  List.find (has_id i) (List.map g rows) = option_map g (List.find (has_id i) rows).
Proof.
  intros Hg. induction rows as [|r0 rows IH]; simpl; [reflexivity|].
  unfold has_id at 1 3. rewrite Hg. now destruct (tx_id r0 =? i).
Qed.

Lemma find_filter_other (i j : Z) (rows : list row) :
  List.find (has_id j) (List.filter (fun r => negb (has_id i r)) rows) =
  if j =? i then None else List.find (has_id j) rows.
Proof.
  induction rows as [|r0 rows IH]; simpl; [now destruct (j =? i)|].
  destruct (has_id i r0) eqn:Ei; simpl; rewrite IH.
  - destruct (Z.eqb_spec j i) as [->|Hne]; [reflexivity|].
    unfold has_id in *. apply Z.eqb_eq in Ei.
    now replace (tx_id r0 =? j) with false by (symmetry; apply Z.eqb_neq; lia).
  - destruct (has_id j r0) eqn:Ej; [|reflexivity].
    unfold has_id in *. apply Z.eqb_eq in Ej. apply Z.eqb_neq in Ei.
    now replace (j =? i) with false by (symmetry; apply Z.eqb_neq; lia).
Qed.

Lemma map_update_absent (i : Z) (g : row -> row) (rows : list row) :
  List.find (has_id i) rows = None ->
  List.map (fun r => if has_id i r then g r else r) rows = rows.
Proof.
  induction rows as [|r0 rows IH]; simpl; [reflexivity|].
  destruct (has_id i r0); [discriminate|]. intros Hf. now rewrite IH.
Qed.

Lemma filter_absent (i : Z) (rows : list row) :
  List.find (has_id i) rows = None ->
  List.filter (fun r => negb (has_id i r)) rows = rows.
Proof.
  induction rows as [|r0 rows IH]; simpl; [reflexivity|].
  destruct (has_id i r0); [discriminate|]. intros Hf. simpl. now rewrite IH.
Qed.

Lemma update_lookup (i : Z) (g : row -> row) (rows : list row) :
  (forall r, tx_id (g r) = tx_id r) ->
  let rows' := List.map (fun r => if has_id i r then g r else r) rows in
  (forall r, List.find (has_id i) rows = Some r ->
             List.find (has_id i) rows' = Some (g r)) /\
  (forall j, j <> i -> List.find (has_id j) rows' = List.find (has_id j) rows) /\
  List.map tx_id rows' = List.map tx_id rows.
Proof.
  intros Hg rows'.
  assert (Hid : forall r, tx_id ((fun r => if has_id i r then g r else r) r) = tx_id r)
    by (intros r; simpl; destruct (has_id i r); [apply Hg|reflexivity]).
  repeat split.
  - intros r Hr. unfold rows'. rewrite (find_map_same_id _ i _ Hid), Hr. simpl.
    apply find_has_id in Hr. destruct Hr as [_ E].
    unfold has_id. now rewrite E, Z.eqb_refl.
  - intros j Hj. unfold rows'. rewrite (find_map_same_id _ j _ Hid).
    destruct (List.find (has_id j) rows) as [r|] eqn:Hr; [|reflexivity]. simpl.
    apply find_has_id in Hr. destruct Hr as [_ E].
    unfold has_id. now replace (tx_id r =? i) with false by (symmetry; apply Z.eqb_neq; lia).
  - unfold rows'. rewrite map_map. apply map_ext. exact Hid.
Qed.

Lemma store_eta (s : store) : {| table := table s; seq := seq s |} = s.
Proof. now destruct s. Qed.

End StoreFacts.

(** ** Sample requests *)

Module SampleStore.

Definition march : database := Some {| table := Sample.march; seq := 7 |}.

Definition lunch : form :=
  {| form_type := Some (py "expense"); form_category := Some (py "Кафе");
     form_amount := Some (py "12.50"); form_date := Some (py "2024-03-07");
     form_comment := None |}.

Definition with_amount (a : string) : form :=
  {| form_type := Some (py "expense"); form_category := Some (py "Кафе");
     form_amount := Some (py a); form_date := Some (py "2024-03-07");
     form_comment := None |}.

Definition no_amount : form :=
  {| form_type := Some (py "expense"); form_category := Some (py "Кафе");
     form_amount := None; form_date := Some (py "2024-03-07");
     form_comment := None |}.

Definition no_date : form :=
  {| form_type := Some (py "expense"); form_category := Some (py "Кафе");
     form_amount := Some (py "12.50"); form_date := None;
     form_comment := None |}.

End SampleStore.

(** ** Insert, update, delete and lookup *)

(** X1: a row that [insert_transaction] stores is found again under its
    id with the fields given, the amount as SQLite reads it back ([-0.0]
    comes back as [0.0], every other number as it is); the id is above
    every id in the table and above every id given out before; all other
    lookups are unchanged, and the row is the last of the table. *)
Theorem X1_insert_then_get (d d' : database)
    (ty cat : pystr) (x : float) (dt : pystr) (cm : option pystr) :
  insert_transaction d ty cat x dt cm = Done d' ->
  exists i,
    get_transaction_by_id d' i = Done (Some (stored i ty cat (sql_real x) dt cm)) /\
    (forall j, j <> i -> get_transaction_by_id d' j = get_transaction_by_id d j) /\
    (forall r, In r (rows_of d) -> tx_id r < i) /\
    seq (init_db d) < i /\
    rows_of d' = rows_of d ++ [stored i ty cat (sql_real x) dt cm] /\
    (is_zero x = false -> sql_real x = x) /\
    (is_zero x = true -> sql_real x = 0%float).
Proof.
  destruct d as [s|]; simpl; [|discriminate].
  destruct (is_nan x); [discriminate|].
  set (i := Z.max (seq s) (largest_id (table s)) + 1).
  destruct (max_rowid <? i) eqn:Hroom; [discriminate|]. intros [= <-].
  apply Z.ltb_ge in Hroom.
  assert (Hlt : forall r, In r (table s) -> tx_id r < i).
  { intros r Hr. apply StoreFacts.largest_id_ge in Hr. lia. }
  assert (Hi : sqlite_int i = true).
  { apply StoreFacts.sqlite_int_spec.
    pose proof (StoreFacts.largest_id_nonneg (table s)). unfold max_rowid in *. lia. }
  exists i. unfold rows_of. simpl. rewrite Hi.
  split; [|split; [|split; [exact Hlt|split; [lia|split; [reflexivity|split]]]]].
  - rewrite StoreFacts.find_snoc, StoreFacts.find_absent.
    + unfold has_id. simpl. now rewrite Z.eqb_refl.
    + intros r Hr. specialize (Hlt r Hr). lia.
  - intros j Hj. destruct (sqlite_int j); [|reflexivity].
    rewrite StoreFacts.find_snoc.
    destruct (List.find (has_id j) (table s)); [reflexivity|].
    unfold has_id. simpl. now replace (i =? j) with false by (symmetry; apply Z.eqb_neq; lia).
  - intros E. unfold sql_real. now rewrite E.
  - intros E. unfold sql_real. now rewrite E.
Qed.

Lemma X1_insert_then_get_witness :
  exists i,
    get_transaction_by_id
      (Some {| table := Sample.march ++ [stored 8 (py "income") (py "Gift") 20 (py "2024-03-09") None];
               seq := 8 |}) i
    = Done (Some (stored i (py "income") (py "Gift") 20 (py "2024-03-09") None)).
Proof.
  destruct (X1_insert_then_get SampleStore.march _
              (py "income") (py "Gift") 20 (py "2024-03-09") None eq_refl)
    as (i & Hget & _).
  exists i. exact Hget.
Defined.

(** The same on [-0.0], which is read back as [0.0]. *)
Lemma insert_negative_zero :
  returns_done
    (insert_transaction SampleStore.march (py "income") (py "Gift") (-0)%float
                        (py "2024-03-09") None)
    (fun d' => get_transaction_by_id d' 8 =
               Done (Some (stored 8 (py "income") (py "Gift") 0%float (py "2024-03-09") None))).
Proof. vm_compute. reflexivity. Qed.

(** X2: [update_transaction] replaces the fields of the row with the
    given id, the amount as SQLite reads it back ([-0.0] comes back as
    [0.0], every other number as it is), and keeps its id and its place;
    rows with another id are found as before; when no row has the id, the
    database is unchanged.  An id that is no 64-bit integer makes the
    update fail with [OverflowError] on an existing table. *)
Theorem X2_update_then_get (d d' : database) (i : Z)
    (ty cat : pystr) (x : float) (dt : pystr) (cm : option pystr) :
  update_transaction d i ty cat x dt cm = Done d' ->
  (forall r, get_transaction_by_id d i = Done (Some r) ->
             get_transaction_by_id d' i =
             Done (Some (stored i ty cat (sql_real x) dt cm))) /\
  (forall j, j <> i -> get_transaction_by_id d' j = get_transaction_by_id d j) /\
  List.map tx_id (rows_of d') = List.map tx_id (rows_of d) /\
  (get_transaction_by_id d i = Done None -> d' = d) /\
  (is_zero x = false -> sql_real x = x) /\
  (is_zero x = true -> sql_real x = 0%float) /\
  (forall s j, sqlite_int j = false ->
               update_transaction (Some s) j ty cat x dt cm = Failed (Builtin OverflowError)).
Proof.
  destruct d as [s|]; simpl; [|discriminate].
  destruct (sqlite_int i) eqn:Hi; simpl; [|discriminate].
  destruct (_ && _); [discriminate|]. intros [= <-]. unfold rows_of. simpl. rewrite Hi.
  destruct (StoreFacts.update_lookup i (set_fields ty cat x dt cm) (table s)
              (fun r => eq_refl)) as (Hget & Hother & Hids).
  split; [|split; [|split; [exact Hids|split; [|split; [|split]]]]].
  - intros r [= Hr]. rewrite (Hget r Hr). do 2 f_equal.
    apply StoreFacts.find_has_id in Hr. destruct Hr as [_ <-]. reflexivity.
  - intros j Hj. destruct (sqlite_int j); [|reflexivity]. now rewrite (Hother j Hj).
  - intros [= Hnone]. rewrite (StoreFacts.map_update_absent i _ _ Hnone).
    now rewrite StoreFacts.store_eta.
  - intros E. unfold sql_real. now rewrite E.
  - intros E. unfold sql_real. now rewrite E.
  - intros s0 j Hj. simpl. now rewrite Hj.
Qed.

Lemma X2_update_then_get_witness :
  returns_done (update_transaction SampleStore.march 3 (py "expense") (py "Food") 50
                  (py "2024-03-21") None)
    (fun d' => get_transaction_by_id d' 3 =
               Done (Some (stored 3 (py "expense") (py "Food") 50 (py "2024-03-21") None))).
Proof.
  unfold returns_done.
  destruct (update_transaction SampleStore.march 3 _ _ _ _ _) as [d'|e] eqn:E.
  - apply (proj1 (X2_update_then_get _ _ _ _ _ _ _ _ E)
             (Sample.tx 3 "expense" "Groceries" (Real 49.25) "2024-03-20")).
    reflexivity.
  - vm_compute in E. discriminate.
Defined.

(** X3: after [delete_transaction] no row has the given id; rows with
    another id are found as before and keep their order; when no row had
    the id, the database is unchanged, so that deleting twice is deleting
    once. *)
Theorem X3_delete_then_get (d d' : database) (i : Z) :
  delete_transaction d i = Done d' ->
  get_transaction_by_id d' i = Done None /\
  (forall j, j <> i -> get_transaction_by_id d' j = get_transaction_by_id d j) /\
  (get_transaction_by_id d i = Done None -> d' = d) /\
  delete_transaction d' i = Done d'.
Proof.
  destruct d as [s|]; simpl; [|discriminate].
  destruct (sqlite_int i) eqn:Hi; [|discriminate]. intros [= <-]. simpl. rewrite Hi.
  assert (Hgone : List.find (has_id i) (List.filter (fun r => negb (has_id i r)) (table s))
                  = None)
    by (rewrite StoreFacts.find_filter_other; now rewrite Z.eqb_refl).
  repeat split.
  - now rewrite Hgone.
  - intros j Hj. destruct (sqlite_int j); [|reflexivity].
    rewrite StoreFacts.find_filter_other.
    now replace (j =? i) with false by (symmetry; apply Z.eqb_neq; lia).
  - intros [= Hnone]. rewrite (StoreFacts.filter_absent i _ Hnone).
    now rewrite StoreFacts.store_eta.
  - now rewrite (StoreFacts.filter_absent i _ Hgone).
Qed.

Lemma X3_delete_then_get_witness :
  returns_done (delete_transaction SampleStore.march 2)
    (fun d' => get_transaction_by_id d' 2 = Done None /\
               get_transaction_by_id d' 3 = get_transaction_by_id SampleStore.march 3).
Proof.
  unfold returns_done. destruct (delete_transaction SampleStore.march 2) as [d'|e] eqn:E.
  - destruct (X3_delete_then_get _ _ _ E) as (Hg & Ho & _). split; [exact Hg|].
    apply Ho. lia.
  - vm_compute in E. discriminate.
Defined.

(** ** What a request does to the table *)

Lemma nan_passes_guard (x : float) : is_nan x = true -> (x <=? 0)%float = false.
Proof.
  intros Hn. apply is_nan_spec in Hn. rewrite leb_spec, Hn. reflexivity.
Qed.

Lemma guard_accepts (x : float) :
  (x <=? 0)%float = false -> is_nan x = false -> accepted x.
Proof. now split. Qed.

(** A request leaves the table as it is, appends one row with a fresh id
    and an accepted amount, rewrites the fields of the rows of one id with
    an accepted amount, or removes the rows of one id. *)
Lemma serve_cases (d : database) (c : call) :
  (rows_of (serve d c) = rows_of d /\ seq (init_db (serve d c)) = seq (init_db d)) \/
  (exists ty cat x dt cm,
     let i := Z.max (seq (init_db d)) (largest_id (rows_of d)) + 1 in
     accepted x /\ i <= max_rowid /\
     rows_of (serve d c) = rows_of d ++ [stored i ty cat x dt cm] /\
     seq (init_db (serve d c)) = i) \/
  (exists i ty cat x dt cm,
     accepted x /\
     rows_of (serve d c) =
       List.map (fun r => if has_id i r then set_fields ty cat x dt cm r else r) (rows_of d) /\
     seq (init_db (serve d c)) = seq (init_db d)) \/
  (exists i,
     rows_of (serve d c) = List.filter (fun r => negb (has_id i r)) (rows_of d) /\
     seq (init_db (serve d c)) = seq (init_db d)).
Proof.
  unfold rows_of. destruct c as [|f|i post f|i]; simpl.
  - now left.
  - unfold add. destruct (read_form f) as [[[[[ty cat] x] dt] cm]|e]; [|now left].
    destruct (x <=? 0)%float eqn:Hle; [now left|]. simpl.
    destruct (is_nan x) eqn:Hn; [now left|].
    destruct (max_rowid <? _) eqn:Hfull; [now left|].
    right; left. exists ty, cat, x, dt, cm. simpl.
    rewrite (sql_real_positive x) by (apply accepted_positive; now split).
    apply Z.ltb_ge in Hfull. repeat split; try assumption.
  - unfold edit. simpl.
    destruct (sqlite_int i) eqn:Hi; [|now left].
    destruct (List.find (has_id i) (table (init_db d))) as [tx|] eqn:Hfind; [|now left].
    destruct post; [|now left].
    destruct (read_form f) as [[[[[ty cat] x] dt] cm]|e]; [|now left].
    destruct (x <=? 0)%float eqn:Hle; [now left|]. simpl.
    destruct (is_nan x) eqn:Hn; simpl.
    + replace (existsb (has_id i) (table (init_db d))) with true; [now left|].
      symmetry. apply existsb_exists. exists tx. now apply find_some in Hfind.
    + right; right; left. exists i, ty, cat, x, dt, cm. now repeat split.
  - unfold delete. destruct d as [s|]; simpl; [|now left].
    destruct (sqlite_int i); [|now left].
    right; right; right. now exists i.
Qed.

Lemma map_id_filter_nodup (f : row -> bool) (rows : list row) :
  List.NoDup (List.map tx_id rows) -> List.NoDup (List.map tx_id (List.filter f rows)).
Proof.
  induction rows as [|r rows IH]; simpl; [easy|].
  intros [Hr Hnd]%List.NoDup_cons_iff. destruct (f r); simpl; [|now apply IH].
  constructor; [|now apply IH].
  intros Hin. apply Hr. apply in_map_iff in Hin. destruct Hin as (r' & E & Hin').
  apply in_map_iff. exists r'. split; [exact E|]. now apply filter_In in Hin'.
Qed.

Lemma serve_keeps_ids (d : database) (c : call) :
  unique_ids d -> ids_issued d ->
  unique_ids (serve d c) /\ ids_issued (serve d c) /\
  seq (init_db d) <= seq (init_db (serve d c)).
Proof.
  unfold unique_ids, ids_issued. intros Hu Hi.
  destruct (serve_cases d c)
    as [[-> ->]|[(ty & cat & x & dt & cm & _ & _ & -> & ->)
       |[(i & ty & cat & x & dt & cm & _ & -> & ->)|(i & -> & ->)]]].
  - repeat split; try assumption; lia.
  - set (n := Z.max _ _ + 1).
    assert (Hlt : forall r, In r (rows_of d) -> tx_id r < n).
    { intros r Hr. apply StoreFacts.largest_id_ge in Hr. lia. }
    repeat split.
    + rewrite map_app. simpl. apply List.NoDup_app; [exact Hu|repeat constructor; easy|].
      intros j (r & <- & Hr)%in_map_iff [E|[]]. specialize (Hlt r Hr). simpl in E. lia.
    + apply List.Forall_app. split.
      * eapply List.Forall_impl; [|exact Hi]. simpl. intros r Hr. lia.
      * repeat constructor. simpl. lia.
    + lia.
  - repeat split; [| |lia].
    + rewrite map_map. erewrite map_ext; [exact Hu|].
      intros r. simpl. now destruct (has_id i r).
    + rewrite List.Forall_forall in *. intros r (r0 & <- & Hr0)%in_map_iff.
      specialize (Hi r0 Hr0). now destruct (has_id i r0).
  - repeat split; [now apply map_id_filter_nodup| |lia].
    rewrite List.Forall_forall in *. intros r [Hr _]%filter_In. now apply Hi.
Qed.

Lemma serve_all_snoc (d : database) (cs : list call) (c : call) :
  serve_all d (cs ++ [c]) = serve (serve_all d cs) c.
Proof. unfold serve_all. now rewrite fold_left_app. Qed.

Lemma serve_keeps_positive (d : database) (c : call) :
  Forall positive_amount (rows_of d) -> Forall positive_amount (rows_of (serve d c)).
Proof.
  intros Hp.
  destruct (serve_cases d c)
    as [[-> _]|[(ty & cat & x & dt & cm & Hx & _ & -> & _)
       |[(i & ty & cat & x & dt & cm & Hx & -> & _)|(i & -> & _)]]].
  - exact Hp.
  - apply List.Forall_app. split; [exact Hp|]. repeat constructor.
    exists x. split; [reflexivity|now apply accepted_positive].
  - rewrite List.Forall_forall in *. intros r (r0 & <- & Hr0)%in_map_iff.
    destruct (has_id i r0); [|now apply Hp].
    apply accepted_positive in Hx.
    exists x. split; [|exact Hx]. simpl. now rewrite (sql_real_positive x Hx).
  - rewrite List.Forall_forall in *. intros r [Hr _]%filter_In. now apply Hp.
Qed.

Lemma serve_keeps_retired (d : database) (c : call) (i : Z) :
  i <= seq (init_db d) -> (forall r, In r (rows_of d) -> tx_id r <> i) ->
  i <= seq (init_db (serve d c)) /\ (forall r, In r (rows_of (serve d c)) -> tx_id r <> i).
Proof.
  intros Hi Hgone.
  destruct (serve_cases d c)
    as [[-> ->]|[(ty & cat & x & dt & cm & _ & _ & -> & ->)
       |[(j & ty & cat & x & dt & cm & _ & -> & ->)|(j & -> & ->)]]].
  - now split.
  - split; [lia|]. intros r [Hr|[<-|[]]]%in_app_or; [now apply Hgone|simpl; lia].
  - split; [exact Hi|]. intros r (r0 & <- & Hr0)%in_map_iff.
    specialize (Hgone r0 Hr0). now destruct (has_id j r0).
  - split; [exact Hi|]. intros r [Hr _]%filter_In. now apply Hgone.
Qed.

(** ** Invariants of the stored table *)

(** X4: whatever requests are served, the ids of the table stay pairwise
    distinct and none exceeds the largest id given out, so that a lookup,
    an update or a deletion by id concerns at most one row. *)
Theorem X4_ids_stay_unique (d : database) (cs : list call) :
  unique_ids d -> ids_issued d ->
  unique_ids (serve_all d cs) /\ ids_issued (serve_all d cs).
Proof.
  intros Hu Hi. induction cs as [|c cs IH] using rev_ind; [now split|].
  rewrite serve_all_snoc. destruct IH as [IHu IHi].
  destruct (serve_keeps_ids (serve_all d cs) c IHu IHi) as (Hu' & Hi' & _). now split.
Qed.

Lemma X4_ids_stay_unique_witness :
  unique_ids (serve_all None [CallAdd SampleStore.lunch; CallAdd SampleStore.lunch;
                              CallDelete 1; CallAdd SampleStore.lunch]).
Proof.
  apply (X4_ids_stay_unique None); [constructor|constructor].
Defined.

(** X5: an id that was given out and is no longer in the table is never
    given to a later row, whatever requests follow: a deleted record's id
    is not reused. *)
Theorem X5_ids_are_not_reused (d : database) (cs : list call) (i : Z) :
  i <= seq (init_db d) -> (forall r, In r (rows_of d) -> tx_id r <> i) ->
  forall r, In r (rows_of (serve_all d cs)) -> tx_id r <> i.
Proof.
  intros Hi Hgone.
  assert (Hinv : i <= seq (init_db (serve_all d cs)) /\
                 forall r, In r (rows_of (serve_all d cs)) -> tx_id r <> i).
  { induction cs as [|c cs IH] using rev_ind; [now split|].
    rewrite serve_all_snoc. destruct IH as [IH1 IH2].
    now apply serve_keeps_retired. }
  apply Hinv.
Qed.

Lemma X5_ids_are_not_reused_witness :
  Forall (fun r => tx_id r <> 4)
    (rows_of (serve_all (snd (delete SampleStore.march 4))
                [CallAdd SampleStore.lunch; CallAdd SampleStore.lunch])).
Proof.
  apply List.Forall_forall.
  apply (X5_ids_are_not_reused (snd (delete SampleStore.march 4))).
  - vm_compute. discriminate.
  - intros r Hr. vm_compute in Hr. repeat (destruct Hr as [<-|Hr]; [simpl; lia|]).
    destruct Hr.
Defined.

(** X6: whatever requests are served, every amount that [add] or [edit]
    has stored is a number above zero: a table whose amounts are all
    positive numbers stays so. *)
Theorem X6_amounts_stay_positive (d : database) (cs : list call) :
  Forall positive_amount (rows_of d) ->
  Forall positive_amount (rows_of (serve_all d cs)).
Proof.
  intros Hp. induction cs as [|c cs IH] using rev_ind; [exact Hp|].
  rewrite serve_all_snoc. now apply serve_keeps_positive.
Qed.

Lemma X6_amounts_stay_positive_witness :
  Forall positive_amount
    (rows_of (serve_all None [CallAdd SampleStore.lunch;
                              CallAdd (SampleStore.with_amount "-3");
                              CallEdit 1 true (SampleStore.with_amount "inf")])).
Proof.
  apply (X6_amounts_stay_positive None). constructor.
Defined.

Lemma positive_amount_real (r : row) : positive_amount r -> stored_as_real r.
Proof. intros (x & Hx & _). now exists x. Qed.

(** X7: on a database that only this application has written, starting
    from no table at all, [index] returns its page after any sequence of
    requests, for every request whose month resolves to a month that
    exists: the unguarded [float] of the two loops never meets a value it
    rejects, and the template never meets an amount it cannot format. *)
Theorem X7_index_returns_after_any_requests `{Sqlite} `{IsoParser}
    (cs : list call) (today : pydate) (req : request) (y m : Z) :
  resolve_month today (default [] (arg_month req)) = Ok (y, m) ->
  1 <= y <= 9999 -> 1 <= m <= 12 ->
  exists p, fst (index_route (serve_all None cs) today req) = Ok p.
Proof.
  intros Hr Hy Hm. unfold index_route. simpl.
  apply index_page_returns with y m; try assumption.
  eapply List.Forall_impl; [exact positive_amount_real|].
  pose proof (serve_keeps_positive) as Hstep.
  assert (Hall : Forall positive_amount (rows_of (serve_all None cs))).
  { induction cs as [|c cs IH] using rev_ind; [constructor|].
    rewrite serve_all_snoc. now apply Hstep. }
  exact Hall.
Qed.


Lemma X7_index_returns_after_any_requests_witness :
  exists p,
    fst (@index_route Engines.index_scan Engines.cpython311
           (serve_all None [CallAdd SampleStore.lunch; CallDelete 7;
                            CallEdit 1 true (SampleStore.with_amount "abc")])
           Sample.today (Sample.month_arg "2024-02")) = Ok p.
Proof.
  apply (@X7_index_returns_after_any_requests Engines.index_scan Engines.cpython311
           _ Sample.today (Sample.month_arg "2024-02") 2024 2 eq_refl); lia.
Defined.

(** ** The routes [add], [edit] and [delete] *)

Lemma bad_amount_stopped (f : form) :
  bad_amount f -> (form_amount_value f <=? 0)%float = true.
Proof.
  unfold form_amount_value.
  intros [->|[(s & -> & ->)|(s & x & -> & -> & Hx)]]; [reflexivity|reflexivity|exact Hx].
Qed.

(** X8: [add] stores nothing and redirects when the amount field is
    missing, is no number, or is zero or negative; the missing field does
    not raise, it is caught with the conversion error. *)
Theorem X8_add_stops_bad_amounts (d : database) (f : form) (ty cat dt : pystr) :
  form_type f = Some ty -> form_category f = Some cat -> form_date f = Some dt ->
  bad_amount f ->
  add d f = (Done Redirect, Some (init_db d)).
Proof.
  intros Hty Hcat Hdt Hbad. unfold add, read_form. rewrite Hty, Hcat, Hdt.
  now rewrite (bad_amount_stopped f Hbad).
Qed.

Lemma X8_add_stops_bad_amounts_witness :
  add SampleStore.march SampleStore.no_amount = (Done Redirect, SampleStore.march) /\
  add SampleStore.march (SampleStore.with_amount "-0.0") = (Done Redirect, SampleStore.march).
Proof.
  split.
  - apply (X8_add_stops_bad_amounts SampleStore.march SampleStore.no_amount
             (py "expense") (py "Кафе") (py "2024-03-07")); try reflexivity.
    now left.
  - apply (X8_add_stops_bad_amounts SampleStore.march (SampleStore.with_amount "-0.0")
             (py "expense") (py "Кафе") (py "2024-03-07")); try reflexivity.
    right; right. exists (py "-0.0"), (-0)%float.
    repeat split; vm_compute; reflexivity.
Defined.

Lemma add_appends (d : database) (f : form) (ty cat dt s : pystr) (x : float) :
  form_type f = Some ty -> form_category f = Some cat -> form_date f = Some dt ->
  form_amount f = Some s -> Num.float_of_str s = Some x -> positive x ->
  Z.max (seq (init_db d)) (largest_id (rows_of d)) < max_rowid ->
  add d f =
    (Done Redirect,
     Some {| table := rows_of d ++
                      [stored (Z.max (seq (init_db d)) (largest_id (rows_of d)) + 1)
                              ty cat x dt (form_comment f)];
             seq := Z.max (seq (init_db d)) (largest_id (rows_of d)) + 1 |}).
Proof.
  intros Hty Hcat Hdt Hs Hx Hpos Hroom.
  apply accepted_positive in Hpos. destruct Hpos as [Hle Hnan].
  unfold add, read_form, form_amount_value. rewrite Hty, Hcat, Hdt, Hs, Hx, Hle.
  simpl. rewrite Hnan. fold (rows_of d).
  rewrite (sql_real_positive x) by (apply accepted_positive; now split).
  now replace (max_rowid <? _) with false by (symmetry; apply Z.ltb_ge; lia).
Qed.

(** X9: [add] with an amount above zero appends one row that carries
    the fields of the form and a fresh id, redirects, and the row is then
    found by its id and returned by an unfiltered [fetch_transactions]. *)
Theorem X9_add_stores_the_form `{Sqlite}
    (d : database) (f : form) (ty cat dt s : pystr) (x : float) :
  form_type f = Some ty -> form_category f = Some cat -> form_date f = Some dt ->
  form_amount f = Some s -> Num.float_of_str s = Some x -> positive x ->
  Z.max (seq (init_db d)) (largest_id (rows_of d)) < max_rowid ->
  let i := Z.max (seq (init_db d)) (largest_id (rows_of d)) + 1 in
  let r := stored i ty cat x dt (form_comment f) in
  add d f = (Done Redirect, Some {| table := rows_of d ++ [r]; seq := i |}) /\
  get_transaction_by_id (snd (add d f)) i = Done (Some r) /\
  In r (fetch_transactions (rows_of (snd (add d f))) None None None).
Proof.
  intros Hty Hcat Hdt Hs Hx Hpos Hroom i r.
  assert (Hadd : add d f = (Done Redirect, Some {| table := rows_of d ++ [r]; seq := i |}))
    by now apply add_appends with s.
  assert (Hi : sqlite_int i = true).
  { apply StoreFacts.sqlite_int_spec.
    pose proof (StoreFacts.largest_id_nonneg (rows_of d)). unfold max_rowid in *. lia. }
  rewrite Hadd. simpl. rewrite Hi. repeat split.
  - rewrite StoreFacts.find_snoc, StoreFacts.find_absent.
    + unfold has_id. simpl. now rewrite Z.eqb_refl.
    + intros r0 Hr0. apply StoreFacts.largest_id_ge in Hr0. lia.
  - apply fetch_In. unfold rows_of. simpl. repeat split; [|easy].
    apply in_or_app. right. now left.
Qed.

Lemma X9_add_stores_the_form_witness :
  get_transaction_by_id (snd (add SampleStore.march SampleStore.lunch)) 8 =
  Done (Some (stored 8 (py "expense") (py "Кафе") 12.5 (py "2024-03-07") None)).
Proof.
  apply (@X9_add_stores_the_form Engines.index_scan SampleStore.march SampleStore.lunch
           (py "expense") (py "Кафе") (py "2024-03-07") (py "12.50") 12.5);
    try reflexivity.
Defined.

(** X10: when the type, the category or the date is missing from the
    form, [add] fails with the 400 of the missing key and stores
    nothing, whatever the amount. *)
Theorem X10_add_needs_its_fields (d : database) (f : form) :
  missing_field f -> add d f = (Failed BadRequestKeyError, Some (init_db d)).
Proof.
  unfold add, read_form. intros [Hm|[Hm|Hm]]; rewrite Hm.
  - reflexivity.
  - now destruct (form_type f).
  - now destruct (form_type f), (form_category f).
Qed.

Lemma X10_add_needs_its_fields_witness :
  add SampleStore.march SampleStore.no_date = (Failed BadRequestKeyError, SampleStore.march).
Proof.
  apply (X10_add_needs_its_fields SampleStore.march SampleStore.no_date).
  right; right. reflexivity.
Defined.

(** X11: an amount that reads as NaN passes the guard [amount <= 0];
    the insertion then fails on the [NOT NULL] column and nothing is
    stored. *)
Theorem X11_add_fails_on_nan (d : database) (f : form) (ty cat dt s : pystr) (x : float) :
  form_type f = Some ty -> form_category f = Some cat -> form_date f = Some dt ->
  form_amount f = Some s -> Num.float_of_str s = Some x -> is_nan x = true ->
  add d f = (Failed IntegrityError, Some (init_db d)).
Proof.
  intros Hty Hcat Hdt Hs Hx Hnan.
  unfold add, read_form, form_amount_value. rewrite Hty, Hcat, Hdt, Hs, Hx.
  rewrite (nan_passes_guard x Hnan). simpl. now rewrite Hnan.
Qed.

Lemma X11_add_fails_on_nan_witness :
  add SampleStore.march (SampleStore.with_amount "NaN") =
  (Failed IntegrityError, SampleStore.march).
Proof.
  apply (X11_add_fails_on_nan SampleStore.march (SampleStore.with_amount "NaN")
           (py "expense") (py "Кафе") (py "2024-03-07") (py "NaN") nan); reflexivity.
Defined.

(** X12: [edit] looks the record up before it reads the form.  For an
    id of 64 bits that no row has it answers 404 and changes nothing,
    whatever the method and the form; without [POST] it answers the page
    of the stored record and changes nothing; for an id beyond 64 bits
    the lookup raises [OverflowError] when it binds the id, and nothing
    is changed either. *)
Theorem X12_edit_reads_before_it_writes (d : database) (i : Z) (post : bool) (f : form) :
  (get_transaction_by_id (Some (init_db d)) i = Done None ->
   edit d i post f = (Done NotFound, Some (init_db d))) /\
  (sqlite_int i = true -> (forall r, In r (rows_of d) -> tx_id r <> i) ->
   edit d i post f = (Done NotFound, Some (init_db d))) /\
  (forall r, get_transaction_by_id (Some (init_db d)) i = Done (Some r) ->
             edit d i false f = (Done (EditPage r), Some (init_db d)) /\
             tx_id r = i /\ In r (rows_of d)) /\
  (sqlite_int i = false ->
   edit d i post f = (Failed (Builtin OverflowError), Some (init_db d))).
Proof.
  unfold edit. split; [|split; [|split]].
  - now intros ->.
  - intros Hi Habsent. simpl. rewrite Hi.
    now rewrite (StoreFacts.find_absent i (table (init_db d)) Habsent).
  - intros r Hr. rewrite Hr. split; [reflexivity|].
    simpl in Hr. destruct (sqlite_int i); [|discriminate].
    injection Hr as Hr. now apply StoreFacts.find_has_id in Hr.
  - intros Hi. simpl. now rewrite Hi.
Qed.

(** X13: [edit] with [POST] and an amount above zero gives the record
    the fields of the form and keeps its id; every other record is found
    as before, and the ids of the table keep their order. *)
Theorem X13_edit_updates_one_record
    (d : database) (i : Z) (f : form) (r0 : row) (ty cat dt s : pystr) (x : float) :
  get_transaction_by_id (Some (init_db d)) i = Done (Some r0) ->
  form_type f = Some ty -> form_category f = Some cat -> form_date f = Some dt ->
  form_amount f = Some s -> Num.float_of_str s = Some x -> positive x ->
  fst (edit d i true f) = Done Redirect /\
  get_transaction_by_id (snd (edit d i true f)) i =
    Done (Some (stored i ty cat x dt (form_comment f))) /\
  (forall j, j <> i ->
     get_transaction_by_id (snd (edit d i true f)) j =
     get_transaction_by_id (Some (init_db d)) j) /\
  List.map tx_id (rows_of (snd (edit d i true f))) = List.map tx_id (rows_of d).
Proof.
  intros Hr0 Hty Hcat Hdt Hs Hx Hpos.
  assert (Hi : sqlite_int i = true).
  { simpl in Hr0. now destruct (sqlite_int i). }
  pose proof (sql_real_positive x Hpos) as Hreal.
  apply accepted_positive in Hpos. destruct Hpos as [Hle Hnan].
  assert (Hedit : edit d i true f =
                  (Done Redirect,
                   Some {| table := List.map (fun r => if has_id i r
                                                       then set_fields ty cat x dt
                                                                       (form_comment f) r
                                                       else r) (rows_of d);
                           seq := seq (init_db d) |})).
  { unfold edit, read_form, form_amount_value.
    rewrite Hr0, Hty, Hcat, Hdt, Hs, Hx, Hle. simpl. now rewrite Hi, Hnan. }
  rewrite Hedit. simpl. unfold rows_of. simpl.
  destruct (StoreFacts.update_lookup i (set_fields ty cat x dt (form_comment f))
              (table (init_db d)) (fun r => eq_refl)) as (Hget & Hother & Hids).
  rewrite Hi. simpl in Hr0. rewrite Hi in Hr0. injection Hr0 as Hr0. repeat split.
  - rewrite (Hget r0 Hr0). do 2 f_equal.
    apply StoreFacts.find_has_id in Hr0. destruct Hr0 as [_ <-].
    unfold set_fields, stored. now rewrite Hreal.
  - intros j Hj. destruct (sqlite_int j); [|reflexivity]. now rewrite (Hother j Hj).
  - exact Hids.
Qed.

Lemma X13_edit_updates_one_record_witness :
  get_transaction_by_id (snd (edit SampleStore.march 3 true SampleStore.lunch)) 3 =
  Done (Some (stored 3 (py "expense") (py "Кафе") 12.5 (py "2024-03-07") None)).
Proof.
  apply (X13_edit_updates_one_record SampleStore.march 3 SampleStore.lunch
           (Sample.tx 3 "expense" "Groceries" (Real 49.25) "2024-03-20")
           (py "expense") (py "Кафе") (py "2024-03-07") (py "12.50") 12.5);
    reflexivity.
Defined.

(** X14: [edit] with [POST] stores nothing when the amount field is
    missing, is no number, or is zero or negative: the record keeps its
    fields. *)
Theorem X14_edit_stops_bad_amounts
    (d : database) (i : Z) (f : form) (r0 : row) (ty cat dt : pystr) :
  get_transaction_by_id (Some (init_db d)) i = Done (Some r0) ->
  form_type f = Some ty -> form_category f = Some cat -> form_date f = Some dt ->
  bad_amount f ->
  edit d i true f = (Done Redirect, Some (init_db d)).
Proof.
  intros Hr0 Hty Hcat Hdt Hbad. unfold edit, read_form. rewrite Hr0, Hty, Hcat, Hdt.
  now rewrite (bad_amount_stopped f Hbad).
Qed.

Lemma X14_edit_stops_bad_amounts_witness :
  edit SampleStore.march 3 true (SampleStore.with_amount "free") =
  (Done Redirect, SampleStore.march).
Proof.
  apply (X14_edit_stops_bad_amounts SampleStore.march 3 (SampleStore.with_amount "free")
           (Sample.tx 3 "expense" "Groceries" (Real 49.25) "2024-03-20")
           (py "expense") (py "Кафе") (py "2024-03-07")); try reflexivity.
  right; left. exists (py "free"). split; [reflexivity|vm_compute; reflexivity].
Defined.

(** X15: [delete] does not create the table: before any other route
    has run it fails with [OperationalError].  On an existing table, an
    id of 64 bits always redirects, also when no row has it, and
    afterwards no [fetch_transactions] returns a row of that id while the
    rows of other ids are returned as before; an id beyond 64 bits fails
    with [OverflowError] when it is bound, and the table is unchanged. *)
Theorem X15_delete_route `{Sqlite} (i : Z) :
  delete None i = (Failed OperationalError, None) /\
  forall (s : store),
    (sqlite_int i = true ->
     fst (delete (Some s) i) = Done Redirect /\
     forall (frm to q : option pystr) (r : row),
       In r (fetch_transactions (rows_of (snd (delete (Some s) i))) frm to q) <->
       In r (fetch_transactions (table s) frm to q) /\ tx_id r <> i) /\
    (sqlite_int i = false ->
     delete (Some s) i = (Failed (Builtin OverflowError), Some s)).
Proof.
  split; [reflexivity|]. intros s. unfold delete. simpl. split; intros Hi; rewrite Hi.
  - split; [reflexivity|].
    intros frm to q r. unfold rows_of. simpl. rewrite !fetch_In, filter_In.
    unfold has_id. rewrite negb_true_iff, Z.eqb_neq. tauto.
  - reflexivity.
Qed.
(** ** More on [fetch_transactions] *)

Lemma contains_nil (hay : pystr) : Str.contains [] hay = true.
Proof. now destruct hay. Qed.

Lemma filter_all {A : Type} (f : A -> bool) (l : list A) :
  (forall x, f x = true) -> List.filter f l = l.
Proof.
  intros Hf. induction l as [|x l IH]; simpl; [reflexivity|]. now rewrite Hf, IH.
Qed.

Lemma leb_longer (s t : pystr) (c : Z) : Str.leb (s ++ c :: t) s = false.
Proof.
  induction s as [|a s IH]; simpl; [reflexivity|].
  now rewrite Z.ltb_irrefl, Z.eqb_refl, IH.
Qed.

Lemma leb_app (p s t : pystr) : Str.leb (p ++ s) (p ++ t) = Str.leb s t.
Proof.
  induction p as [|a p IH]; simpl; [reflexivity|].
  now rewrite Z.ltb_irrefl, Z.eqb_refl, IH.
Qed.

(** X16: a filter argument that is absent or empty, and a category
    query of whitespace only, filter nothing: [fetch_transactions] then
    returns every row of the table once. *)
Theorem X16_no_filter_returns_all `{Sqlite} (db : list row) (frm to q : option pystr) :
  truthy frm = false -> truthy to = false -> strip (default [] q) = [] ->
  Permutation (fetch_transactions db frm to q) db.
Proof.
  intros Hf Ht Hq. unfold fetch_transactions, where_clause. rewrite Hf, Ht, Hq. simpl.
  assert (Hall : Permutation (order_by_date_desc (List.filter (fun _ => true) db)) db).
  { rewrite order_by_perm. now rewrite filter_all. }
  destruct (truthy q); [|exact Hall].
  rewrite filter_all; [exact Hall|].
  intros r. unfold category_matches. apply contains_nil.
Qed.

Lemma X16_no_filter_returns_all_witness :
  Permutation
    (@fetch_transactions Engines.index_scan Sample.march (Some []) None (Some (py "  ")))
    Sample.march.
Proof.
  apply (@X16_no_filter_returns_all Engines.index_scan); reflexivity.
Defined.

(** X17: when both bounds are given and [from] is lexically after [to],
    [fetch_transactions] returns nothing. *)
Theorem X17_inverted_range_is_empty `{Sqlite}
    (db : list row) (frm to : pystr) (q : option pystr) :
  frm <> [] -> to <> [] -> Str.leb frm to = false ->
  fetch_transactions db (Some frm) (Some to) q = [].
Proof.
  intros Hf Ht Hgt.
  destruct (fetch_transactions db (Some frm) (Some to) q) as [|r l] eqn:E; [reflexivity|].
  exfalso. assert (Hin : In r (fetch_transactions db (Some frm) (Some to) q))
    by (rewrite E; now left).
  apply fetch_In in Hin. destruct Hin as (_ & Hw & _). unfold where_clause in Hw.
  destruct frm as [|a frm]; [easy|]. destruct to as [|b to]; [easy|]. simpl in Hw.
  apply andb_true_iff in Hw. destruct Hw as [H1 H2].
  change (Str.leb (a :: frm) (date r) = true) in H1.
  change (Str.leb (date r) (b :: to) = true) in H2.
  rewrite (StrFacts.leb_trans _ _ _ H1 H2) in Hgt. discriminate.
Qed.

Lemma X17_inverted_range_is_empty_witness :
  @fetch_transactions Engines.index_scan Sample.march
    (Some (py "2024-03-10")) (Some (py "2024-03-01")) None = [].
Proof.
  apply (@X17_inverted_range_is_empty Engines.index_scan); [easy|easy|reflexivity].
Defined.

(** X18: the bounds are compared as strings.  A record whose date is
    the [to] bound itself is returned, but one whose date continues after
    the bound, as a date with a time of day does, is not: it sorts after
    the bound. *)
Theorem X18_upper_bound_is_lexical `{Sqlite}
    (db : list row) (frm q : option pystr) (to : pystr) (r : row) :
  to <> [] ->
  (In r db -> date r = to -> where_clause frm None r = true ->
   In r (fetch_transactions db frm (Some to) None)) /\
  (forall c rest, date r = to ++ c :: rest ->
                  ~ In r (fetch_transactions db frm (Some to) q)).
Proof.
  intros Ht. destruct to as [|b to]; [easy|]. split.
  - intros Hin Hd Hw. apply fetch_In. split; [exact Hin|]. split; [|easy].
    unfold where_clause in *. apply andb_true_iff in Hw. destruct Hw as [Hw _].
    rewrite Hw. rewrite Hd.
    change (true && Str.leb (b :: to) (b :: to) = true).
    rewrite StrFacts.leb_refl. reflexivity.
  - intros c rest Hd Hin. apply fetch_In in Hin. destruct Hin as (_ & Hw & _).
    unfold where_clause in Hw. apply andb_true_iff in Hw. destruct Hw as [_ Hw].
    simpl truthy in Hw. cbn [default] in Hw. rewrite Hd in Hw.
    change (Str.leb ((b :: to) ++ c :: rest) (b :: to) = true) in Hw.
    now rewrite leb_longer in Hw.
Qed.

Lemma X18_upper_bound_is_lexical_witness :
  ~ In (Sample.tx 9 "income" "Gift" (Real 20) "2024-03-31T10:00")
       (@fetch_transactions Engines.index_scan
          (Sample.tx 9 "income" "Gift" (Real 20) "2024-03-31T10:00" :: Sample.march)
          None (Some (py "2024-03-31")) None).
Proof.
  apply (proj2 (@X18_upper_bound_is_lexical Engines.index_scan
                  (Sample.tx 9 "income" "Gift" (Real 20) "2024-03-31T10:00" :: Sample.march)
                  None None (py "2024-03-31")
                  (Sample.tx 9 "income" "Gift" (Real 20) "2024-03-31T10:00")
                  ltac:(easy))
           84 (py "10:00")).
  reflexivity.
Defined.

(** ** More on [index] *)

Lemma fmt2_mono (a b : Z) :
  0 <= a <= b -> b <= 99 -> Str.leb (fmt2 a) (fmt2 b) = true.
Proof.
  intros Ha Hb. unfold fmt2. apply StrFacts.leb_cons.
  assert (Hq : a / 10 < b / 10 \/ (a / 10 = b / 10 /\ a mod 10 <= b mod 10))
    by (Z.div_mod_to_equations; lia).
  destruct Hq as [Hq|[Hq Hr]]; [left; lia|right]. split; [lia|].
  apply StrFacts.leb_cons.
  destruct (Z.eq_dec (a mod 10) (b mod 10)) as [E|E]; [right|left; lia].
  split; [lia|reflexivity].
Qed.

(** X19: the rows that [index] fetches for the chart of a month are
    rows of that month: every one has a date that starts with the
    month's [YYYY-MM-], and every stored row whose date is the ISO form
    of a day of the month is among them. *)
Theorem X19_monthly_rows_are_the_months `{Sqlite}
    (db : list row) (y m : Z) (r : row) :
  1 <= y <= 9999 -> 1 <= m <= 12 ->
  (In r (of_month db y m) ->
   exists rest, date r = fmt4 y ++ [45] ++ fmt2 m ++ [45] ++ rest) /\
  (forall d, 1 <= d <= days_in_month y m -> In r db ->
             date r = isoformat {| year := y; month := m; day := d |} ->
             In r (of_month db y m)).
Proof.
  intros Hy Hm. pose proof (CalendarFacts.days_in_month_range y m Hm) as Hdim.
  unfold of_month. split.
  - intros Hin. apply fetch_In in Hin. destruct Hin as (_ & Hw & _). apply andb_true_iff in Hw. destruct Hw as [Hlo Hhi].
    change (Str.leb ((fmt4 y ++ 45 :: fmt2 m ++ [45]) ++ fmt2 1) (date r) = true) in Hlo.
    change (Str.leb (date r) ((fmt4 y ++ 45 :: fmt2 m ++ [45]) ++ fmt2 (days_in_month y m))
            = true) in Hhi.
    destruct (StrFacts.leb_between_prefix _ _ _ _ Hlo Hhi) as (t & Et & _).
    exists t. rewrite Et. now rewrite <- app_assoc.
  - intros d Hd Hin Hdate. apply fetch_In. split; [exact Hin|]. split; [|easy].
    apply andb_true_iff. split.
    + change (Str.leb ((fmt4 y ++ 45 :: fmt2 m ++ [45]) ++ fmt2 1) (date r) = true).
      rewrite Hdate, CalendarFacts.isoformat_split, leb_app. apply fmt2_mono; lia.
    + change (Str.leb (date r)
                ((fmt4 y ++ 45 :: fmt2 m ++ [45]) ++ fmt2 (days_in_month y m)) = true).
      rewrite Hdate, CalendarFacts.isoformat_split, leb_app. apply fmt2_mono; lia.
Qed.

Lemma X19_monthly_rows_are_the_months_witness :
  In (Sample.tx 4 "expense" "Кафе" (Real 12) "2024-02-29")
     (@of_month Engines.index_scan Sample.march 2024 2).
Proof.
  apply (proj2 (@X19_monthly_rows_are_the_months Engines.index_scan Sample.march 2024 2
                  (Sample.tx 4 "expense" "Кафе" (Real 12) "2024-02-29")
                  ltac:(lia) ltac:(lia)) 29).
  - vm_compute. split; discriminate.
  - vm_compute. tauto.
  - reflexivity.
Defined.

Section IndexEdges.

Context `{Sqlite} `{IsoParser}.

Lemma fetch_nil (frm to q : option pystr) : fetch_transactions [] frm to q = [].
Proof.
  destruct (fetch_transactions [] frm to q) as [|r l] eqn:E; [reflexivity|].
  assert (Hin : In r (fetch_transactions [] frm to q)) by (rewrite E; now left).
  apply fetch_In in Hin. now destruct Hin as [[] _].
Qed.

Lemma map_round2_zeros (n : nat) :
  List.map Num.round2 (replicate n 0%float) = replicate n 0%float.
Proof. induction n as [|n IH]; simpl; [reflexivity|]. now rewrite IH. Qed.

(** X20: the first request to [/] on a database without the table
    creates the empty table and returns no transactions, zero totals,
    no categories and, for a month that exists, one zero per day of the
    month in both series. *)
Theorem X20_fresh_database_shows_zeros (today : pydate) (req : request) (y m : Z) :
  resolve_month today (default [] (arg_month req)) = Ok (y, m) ->
  1 <= y <= 9999 -> 1 <= m <= 12 ->
  index_route None today req =
    (Ok {| transactions := [];
           totals := {| income := 0; expense := 0 |};
           income_labels := seqZ 1 (days_in_month y m);
           income_values := replicate (Z.to_nat (days_in_month y m)) 0%float;
           expense_values := replicate (Z.to_nat (days_in_month y m)) 0%float;
           expense_categories := [];
           expense_cat_values := [] |},
     Some {| table := []; seq := 0 |}).
Proof.
  intros Hr Hy Hm. unfold index_route, index_page. simpl init_db. cbn [table].
  rewrite (index_resolved [] today req y m Hr).
  unfold visible. rewrite fetch_nil. simpl.
  rewrite (monthrange_valid y m Hm). simpl.
  rewrite (mkdate_first y m Hy Hm). simpl.
  rewrite (mkdate_last y m Hy Hm). simpl.
  rewrite fetch_nil. simpl. now rewrite map_round2_zeros.
Qed.

(** X21: when every stored amount is a number and the month argument
    parses to a month that does not exist, [index] does not fall back to
    the current month: it raises [calendar.IllegalMonthError] for a month
    number outside 1..12; for a month in 1..12 with a year outside
    1..9999 it raises the [ValueError] of [date] when the year fits a C
    [int], and the [OverflowError] of [date] when it does not. *)
Theorem X21_month_that_does_not_exist
    (db : list row) (today : pydate) (req : request) (y m : Z) :
  Forall numeric db ->
  resolve_month today (default [] (arg_month req)) = Ok (y, m) ->
  (~ 1 <= m <= 12 -> index db today req = Raise IllegalMonthError) /\
  (1 <= m <= 12 -> ~ 1 <= y <= 9999 -> - 2147483648 <= y <= 2147483647 ->
   index db today req = Raise ValueError) /\
  (1 <= m <= 12 -> ~ - 2147483648 <= y <= 2147483647 ->
   index db today req = Raise OverflowError).
Proof.
  intros Hdb Hr. rewrite (index_resolved db today req y m Hr).
  destruct (totals_loop_numeric (visible db req) agg0) as [st ->];
    [now apply fetch_numeric|].
  simpl. split; [|split].
  - intros Hm. unfold monthrange.
    replace ((1 <=? m) && (m <=? 12)) with false; [reflexivity|].
    symmetry. apply andb_false_iff. rewrite !Z.leb_gt. lia.
  - intros Hm Hy Hc. rewrite (monthrange_valid y m Hm). simpl.
    assert (Ev : valid_date y m 1 = false).
    { unfold valid_date.
      replace ((1 <=? y) && (y <=? 9999)) with false; [reflexivity|].
      symmetry. apply andb_false_iff. rewrite !Z.leb_gt. lia. }
    assert (Ec : c_int y && c_int m && c_int 1 = true).
    { unfold c_int. rewrite !andb_true_iff, !Z.leb_le. lia. }
    unfold mkdate. now rewrite Ec, Ev.
  - intros Hm Hc. rewrite (monthrange_valid y m Hm). simpl.
    assert (Ec : c_int y && c_int m && c_int 1 = false).
    { unfold c_int. replace ((-2147483648 <=? y) && (y <=? 2147483647)) with false;
        [reflexivity|].
      symmetry. apply andb_false_iff. rewrite !Z.leb_gt. lia. }
    unfold mkdate. now rewrite Ec.
Qed.

End IndexEdges.

Lemma X20_fresh_database_shows_zeros_witness :
  fst (@index_route Engines.index_scan Engines.cpython311 None Sample.today
         (Sample.month_arg "2023-02")) =
  Ok {| transactions := [];
        totals := {| income := 0; expense := 0 |};
        income_labels := seqZ 1 28;
        income_values := replicate 28 0%float;
        expense_values := replicate 28 0%float;
        expense_categories := [];
        expense_cat_values := [] |}.
Proof.
  rewrite (@X20_fresh_database_shows_zeros Engines.index_scan Engines.cpython311
             Sample.today (Sample.month_arg "2023-02") 2023 2 eq_refl
             ltac:(lia) ltac:(lia)).
  reflexivity.
Defined.

Lemma X21_month_that_does_not_exist_witness :
  Runs.run Sample.march (Sample.month_arg "2024-13") = Raise IllegalMonthError /\
  Runs.run Sample.march (Sample.month_arg "0-05") = Raise ValueError /\
  Runs.run Sample.march (Sample.month_arg "2147483648-01") = Raise OverflowError.
Proof.
  split; [|split].
  - apply (proj1 (@X21_month_that_does_not_exist Engines.index_scan Engines.cpython311
                    Sample.march Sample.today (Sample.month_arg "2024-13") 2024 13
                    Runs.march_numeric eq_refl)).
    lia.
  - apply (proj1 (proj2 (@X21_month_that_does_not_exist
                           Engines.index_scan Engines.cpython311
                           Sample.march Sample.today (Sample.month_arg "0-05") 0 5
                           Runs.march_numeric eq_refl))); lia.
  - apply (proj2 (proj2 (@X21_month_that_does_not_exist
                           Engines.index_scan Engines.cpython311
                           Sample.march Sample.today (Sample.month_arg "2147483648-01")
                           2147483648 1 Runs.march_numeric eq_refl))); lia.
Defined.

(** ** The order of the categories *)

Module DictOrder.

Definition known (ks : list pystr) (c : pystr) : bool :=
  existsb (fun k => Str.eqb k c) ks.

Lemma keys_iadd_order (d : dict) (k : pystr) (a : float) :
  DictFacts.keys (dict_iadd d k a) =
  if known (DictFacts.keys d) k then DictFacts.keys d else DictFacts.keys d ++ [k].
Proof.
  induction d as [|[k' v] d IH]; simpl; [reflexivity|].
  destruct (Str.eqb k' k) eqn:Ek; simpl; [reflexivity|].
  rewrite IH. now destruct (known (DictFacts.keys d) k).
Qed.

Lemma filter_filter {A : Type} (f g : A -> bool) (l : list A) :
  List.filter f (List.filter g l) = List.filter (fun x => g x && f x) l.
Proof.
  induction l as [|x l IH]; simpl; [reflexivity|].
  destruct (g x); simpl; [destruct (f x)|]; now rewrite IH.
Qed.

Lemma known_eq (ks : list pystr) (c x : pystr) :
  Str.eqb x c = true -> known ks x = known ks c.
Proof. intros E. apply StrFacts.eqb_eq in E. now subst. Qed.

Lemma keys_accumulate_order (l : list row) (d : dict) :
  DictFacts.keys (DictFacts.accumulate d l) =
  DictFacts.keys d ++
  List.filter (fun c => negb (known (DictFacts.keys d) c)) (first_seen (List.map category l)).
Proof.
  revert d; induction l as [|t l IH]; intros d.
  - simpl. now rewrite app_nil_r.
  - change (DictFacts.accumulate d (t :: l))
      with (DictFacts.accumulate (dict_iadd d (category t) (amount_of t)) l).
    rewrite IH, keys_iadd_order. cbn [List.map first_seen List.filter].
    destruct (known (DictFacts.keys d) (category t)) eqn:Ek; cbn [negb].
    + f_equal. rewrite filter_filter. apply filter_ext. intros x.
      destruct (Str.eqb x (category t)) eqn:Ex; [|reflexivity].
      now rewrite (known_eq _ _ _ Ex), Ek.
    + rewrite <- app_assoc. cbn [app]. do 2 f_equal.
      rewrite filter_filter. apply filter_ext. intros x.
      unfold known. rewrite existsb_app. cbn [existsb].
      rewrite (StrFacts.eqb_sym (category t) x).
      destruct (existsb _ _), (Str.eqb x (category t)); reflexivity.
Qed.

End DictOrder.

(** X22: the categories of the pie chart come in the order in which
    the loop first meets them: the categories of the expenses among the
    returned transactions, each at its first occurrence. *)
Theorem X22_categories_in_first_seen_order `{Sqlite} `{IsoParser}
    (db : list row) (today : pydate) (req : request) (p : payload) :
  index db today req = Ok p ->
  expense_categories p =
  first_seen (List.map category (List.filter is_expense (transactions p))).
Proof.
  intros Hp. destruct (index_payload db today req p Hp)
    as (st & y & m & by_day & _ & _ & _ & Hst & _ & ->).
  apply totals_loop_spec in Hst. destruct Hst as (_ & _ & _ & Hd). simpl.
  rewrite Hd, DictOrder.keys_accumulate_order. simpl.
  apply filter_all. reflexivity.
Qed.

Lemma X22_categories_in_first_seen_order_witness :
  returns (Runs.run Sample.march Sample.no_args)
    (fun p => expense_categories p = [py "Groceries"; py "Кафе"]).
Proof.
  unfold returns. destruct (Runs.run Sample.march Sample.no_args) as [p|e] eqn:Hp.
  - rewrite (@X22_categories_in_first_seen_order Engines.index_scan Engines.cpython311
               Sample.march Sample.today Sample.no_args p Hp).
    vm_compute in Hp. injection Hp as <-. reflexivity.
  - vm_compute in Hp. discriminate.
Defined.

(** ** From the form to the chart *)

Lemma fromisoformat_isoformat `{IsoParser} (dt : pydate) :
  valid_date (year dt) (month dt) (day dt) = true ->
  fromisoformat (isoformat dt) = Some dt.
Proof.
  destruct dt as [y m d]. simpl. intros Hv.
  destruct (CalendarFacts.valid_date_bounds y m d Hv) as (Hy & Hm & Hd).
  pose proof (CalendarFacts.days_in_month_range y m Hm) as Hdim.
  unfold isoformat, fmt4, fmt2. simpl app. unfold fromisoformat.
  assert (Hw : (48 + m / 10 =? 87) = false)
    by (apply Z.eqb_neq; Z.div_mod_to_equations; lia).
  rewrite Hw. unfold iso_extended.
  rewrite CalendarFacts.num4_fmt4, !CalendarFacts.num2_fmt2 by lia.
  now rewrite Hv.
Qed.

(** X23: a record added with an amount above zero and the ISO form of
    a date that exists is, on the next request to [/], among the rows
    fetched for the chart of that date's month, and its date parses back
    to the date: the loop adds its amount to the entry of its day. *)
Theorem X23_added_record_is_charted `{Sqlite} `{IsoParser}
    (d : database) (f : form) (ty cat s : pystr) (x : float) (dt : pydate) :
  form_type f = Some ty -> form_category f = Some cat ->
  form_date f = Some (isoformat dt) ->
  form_amount f = Some s -> Num.float_of_str s = Some x -> positive x ->
  Z.max (seq (init_db d)) (largest_id (rows_of d)) < max_rowid ->
  valid_date (year dt) (month dt) (day dt) = true ->
  let r := stored (Z.max (seq (init_db d)) (largest_id (rows_of d)) + 1)
                  ty cat x (isoformat dt) (form_comment f) in
  let rows := rows_of (snd (add d f)) in
  In r (of_month rows (year dt) (month dt)) /\
  fromisoformat (date r) = Some dt /\
  forall sel, sel r = true ->
    In r (List.filter (on_day sel (day dt)) (of_month rows (year dt) (month dt))).
Proof.
  intros Hty Hcat Hdt Hs Hx Hpos Hroom Hv r rows.
  assert (Hrows : rows = rows_of d ++ [r]).
  { unfold rows. now rewrite (add_appends d f ty cat _ s x Hty Hcat Hdt Hs Hx Hpos Hroom). }
  assert (Hparse : fromisoformat (date r) = Some dt) by now apply fromisoformat_isoformat.
  assert (Hin : In r (of_month rows (year dt) (month dt))).
  { destruct (CalendarFacts.valid_date_bounds _ _ _ Hv) as (Hy & Hm & Hd).
    pose proof (CalendarFacts.days_in_month_range (year dt) _ Hm) as Hdim.
    unfold of_month. apply fetch_In. split; [|split; [|easy]].
    - rewrite Hrows. apply in_or_app. right. now left.
    - destruct dt as [y m dd]. simpl in *. apply andb_true_iff. split.
      + change (Str.leb ((fmt4 y ++ 45 :: fmt2 m ++ [45]) ++ fmt2 1)
                        ((fmt4 y ++ 45 :: fmt2 m ++ [45]) ++ fmt2 dd) = true).
        rewrite leb_app. apply fmt2_mono; lia.
      + change (Str.leb ((fmt4 y ++ 45 :: fmt2 m ++ [45]) ++ fmt2 dd)
                        ((fmt4 y ++ 45 :: fmt2 m ++ [45]) ++ fmt2 (days_in_month y m))
                = true).
        rewrite leb_app. apply fmt2_mono; lia. }
  split; [exact Hin|]. split; [exact Hparse|].
  intros sel Hsel. apply filter_In. split; [exact Hin|].
  unfold on_day. rewrite Hsel, Hparse. simpl. apply Z.eqb_refl.
Qed.

Lemma X23_added_record_is_charted_witness :
  In (stored 8 (py "expense") (py "Кафе") 12.5 (py "2024-03-07") None)
     (List.filter (@on_day Engines.cpython311 is_expense 7)
        (@of_month Engines.index_scan
           (rows_of (snd (add SampleStore.march SampleStore.lunch))) 2024 3)).
Proof.
  apply (proj2 (proj2 (@X23_added_record_is_charted Engines.index_scan Engines.cpython311
           SampleStore.march SampleStore.lunch (py "expense") (py "Кафе") (py "12.50") 12.5
           {| year := 2024; month := 3; day := 7 |}
           eq_refl eq_refl eq_refl eq_refl eq_refl eq_refl ltac:(vm_compute; reflexivity)
           eq_refl)) is_expense).
  reflexivity.
Defined.

